(** * goastro/indiclient: device registry, message dispatcher and client facade

    A shallow embedding of the INDI client: the device model with
    [Device.Groups], the dispatcher and the facade of [INDIClient], and
    the wire structs of [xmlmodels.go].  The client value is passed
    explicitly: every handler of the dispatcher is a function from client
    state to client state, every facade method returns an [outcome] that
    carries the state it leaves behind.

    Conventions.
    - A Go [string] is a byte sequence: Rocq's [string].  Go's [int] and
      [int64] values (timeouts, sizes) are [Z]; the only arithmetic on
      them is the byte counter of [io.Copy], which is bounded by the
      length of an in-memory payload and cannot wrap.
    - A Go [map[string]V] is a [gmap string V].  Devices enter the registry
      only through [findOrCreateDevice], which allocates all five property
      maps, so the nil map of a zero [Device] is read only (a lookup in it
      fails, a [delete] on it does nothing) and is represented by [∅].
    - [sync.Map] is used from one goroutine at a time here (the dispatcher
      or the calling goroutine); it is a [gmap] as well.
    - [time.Time] is an instant, represented by a number ([Z]). *)

From stdpp Require Import gmap strings list fin_maps sorting.
From Stdlib Require Import ZArith Ascii.
From Stdlib.Strings Require Import Byte.

Set Default Proof Using "Type".

(** ** Errors *)

(** The six sentinel errors of the package, and the errors of the
    collaborators (filesystem, [io], [encoding/base64], [time]), which the
    client only logs: they are kept as a message. *)
Inductive error :=
  | ErrDeviceNotFound
  | ErrPropertyNotFound
  | ErrPropertyValueNotFound
  | ErrPropertyReadOnly
  | ErrPropertyWithoutDevice
  | ErrInvalidBlobEnable
  | LibError (msg : string).

Global Instance error_eq_dec : EqDecision error.
Proof. solve_decision. Defined.

(** ** The parts of Go's standard library the client calls *)

Module strings.

(** [strings.TrimSpace]: leading and trailing white space removed, as
    defined by Unicode.  On the bytes of a string these are the six ASCII
    space characters and the UTF-8 encodings of U+0085, U+00A0, U+1680,
    U+2000..U+200A, U+2028, U+2029, U+202F, U+205F and U+3000. *)
Definition asciiSpace (c : ascii) : bool :=
  bool_decide (c ∈ ["009"; "010"; "011"; "012"; "013"; " "]%char).

Definition unicodeSpace : list (list ascii) :=
  ([ ["194"; "133"]; ["194"; "160"]; ["225"; "154"; "128"] ]
   ++ ((λ c, ["226"; "128"; c]) <$>
         ["128"; "129"; "130"; "131"; "132"; "133"; "134"; "135"; "136";
          "137"; "138"; "168"; "169"; "175"])
   ++ [ ["226"; "129"; "159"]; ["227"; "128"; "128"] ])%char.

Fixpoint stripPrefix (p s : list ascii) : option (list ascii) :=
  match p, s with
  | [], _ => Some s
  | a :: p', b :: s' => if decide (a = b) then stripPrefix p' s' else None
  | _ :: _, [] => None
  end.

(** The rest of [s] behind one leading space character of the table
    [tbl], if [s] starts with one. *)
Definition skipSpace (tbl : list (list ascii)) (s : list ascii)
  : option (list ascii) :=
  match s with
  | [] => None
  | c :: s' =>
      if asciiSpace c then Some s'
      else head (omap (λ p, stripPrefix p s) tbl)
  end.

Fixpoint trimLeft (tbl : list (list ascii)) (n : nat) (s : list ascii)
  : list ascii :=
  match n with
  | O => s
  | S n' =>
      match skipSpace tbl s with
      | Some s' => trimLeft tbl n' s'
      | None => s
      end
  end.

Definition TrimSpace (s : string) : string :=
  let l := String.list_ascii_of_string s in
  let l1 := trimLeft unicodeSpace (length l) l in
  let r1 := trimLeft (reverse <$> unicodeSpace) (length l1) (reverse l1) in
  String.string_of_list_ascii (reverse r1).

End strings.

Module io.

Definition ErrShortWrite : error := LibError "short write".
Definition ErrClosedPipe : error := LibError "io: read/write on closed pipe".
Definition ErrUnexpectedEOF : error := LibError "unexpected EOF".

(** An [io.Reader] as [io.Copy] sees it: the byte blocks that the
    successive [Read] calls deliver, and the error that ends the stream
    ([None] for [io.EOF]). *)
Record Reader := mkReader { chunks : list (list byte); rerr : option error }.

End io.

Module base64.

(** [base64.StdEncoding]: the alphabet [A-Z a-z 0-9 + /], padding [=]. *)
Definition decodeMap (c : ascii) : option N :=
  let n := N_of_ascii c in
  if ((65 <=? n) && (n <=? 90))%N then Some (n - 65)%N
  else if ((97 <=? n) && (n <=? 122))%N then Some (n - 71)%N
  else if ((48 <=? n) && (n <=? 57))%N then Some (n + 4)%N
  else if (n =? 43)%N then Some 62%N
  else if (n =? 47)%N then Some 63%N
  else None.

Definition byteOf (n : N) : byte := default x00 (Byte.of_N (n mod 256)%N).

Definition CorruptInputError : error := LibError "illegal base64 data".

(** Decoding by quanta of four characters; the bytes decoded before an
    error are kept, as [Encoding.Decode] returns them. *)
Fixpoint decodeQuanta (src : list ascii) : list byte * option error :=
  match src with
  | [] => ([], None)
  | a :: b :: c :: d :: rest =>
      match decodeMap a, decodeMap b with
      | Some x, Some y =>
          match decodeMap c, decodeMap d with
          | Some z, Some w =>
              let v := (x * 262144 + y * 4096 + z * 64 + w)%N in
              let '(out, e) := decodeQuanta rest in
              (byteOf (v / 65536) :: byteOf (v / 256) :: byteOf v :: out, e)
          | Some z, None =>
              if decide (d = "="%char)
              then ([byteOf ((x * 262144 + y * 4096 + z * 64) / 65536);
                     byteOf ((x * 262144 + y * 4096 + z * 64) / 256)],
                    if decide (rest = []) then None else Some CorruptInputError)
              else ([], Some CorruptInputError)
          | None, _ =>
              if decide (c = "="%char ∧ d = "="%char)
              then ([byteOf ((x * 262144 + y * 4096) / 65536)],
                    if decide (rest = []) then None else Some CorruptInputError)
              else ([], Some CorruptInputError)
          end
      | _, _ => ([], Some CorruptInputError)
      end
  | _ => ([], Some io.ErrUnexpectedEOF)
  end.

(** The decoder drops carriage returns and line feeds before decoding. *)
Definition newlineFilter (s : list ascii) : list ascii :=
  filter (λ c, c ≠ "010"%char ∧ c ≠ "013"%char) s.

Definition DecodeString (s : string) : list byte * option error :=
  decodeQuanta (newlineFilter (String.list_ascii_of_string s)).

End base64.

(** ** Enumerations

    The five enumerations are string types in the source; the XML decoder
    stores whatever string the server sent. *)

Definition Time := Z.
Definition PropertyState := string.
Definition SwitchState := string.
Definition SwitchRule := string.
Definition PropertyPermission := string.
Definition BlobEnable := string.

Definition PropertyStateIdle : PropertyState := "Idle".
Definition PropertyStateOk : PropertyState := "Ok".
Definition PropertyStateBusy : PropertyState := "Busy".
Definition PropertyStateAlert : PropertyState := "Alert".

Definition SwitchStateOff : SwitchState := "Off".
Definition SwitchStateOn : SwitchState := "On".

Definition SwitchRuleOneOfMany : SwitchRule := "OneOfMany".
Definition SwitchRuleAtMostOne : SwitchRule := "AtMostOne".
Definition SwitchRuleAnyOfMany : SwitchRule := "AnyOfMany".

Definition PropertyPermissionReadOnly : PropertyPermission := "ro".
Definition PropertyPermissionWriteOnly : PropertyPermission := "wo".
Definition PropertyPermissionReadWrite : PropertyPermission := "rw".

Definition BlobEnableNever : BlobEnable := "Never".
Definition BlobEnableAlso : BlobEnable := "Also".
Definition BlobEnableOnly : BlobEnable := "Only".

(** ** The device model ([device.go]) *)

Module Message.
Record t := mk { Timestamp : Time; Message : string }.
End Message.

Module TextValue.
Record t := mk { Name : string; Label : string; Value : string }.
Definition set_Value (x : string) (v : t) : t := mk (Name v) (Label v) x.
End TextValue.

Module SwitchValue.
Record t := mk { Name : string; Label : string; Value : SwitchState }.
Definition set_Value (x : SwitchState) (v : t) : t := mk (Name v) (Label v) x.
End SwitchValue.

Module NumberValue.
Record t := mk {
  Name : string; Label : string; Value : string;
  Format : string; Min : string; Max : string; Step : string }.
Definition set_Value (x : string) (v : t) : t :=
  mk (Name v) (Label v) x (Format v) (Min v) (Max v) (Step v).
End NumberValue.

Module LightValue.
Record t := mk { Name : string; Label : string; Value : PropertyState }.
Definition set_Value (x : PropertyState) (v : t) : t := mk (Name v) (Label v) x.
End LightValue.

Module BlobValue.
Record t := mk { Name : string; Label : string; Value : string; Size : Z }.
Definition set_Value (x : string) (v : t) : t := mk (Name v) (Label v) x (Size v).
Definition set_Size (x : Z) (v : t) : t := mk (Name v) (Label v) (Value v) x.
End BlobValue.

Module TextProperty.
Record t := mk {
  Name : string; Label : string; Group : string;
  State : PropertyState; Timeout : Z; LastUpdated : Time;
  Messages : list Message.t; Permissions : PropertyPermission;
  Values : gmap string TextValue.t }.
Definition set_State x p := mk (Name p) (Label p) (Group p) x (Timeout p)
  (LastUpdated p) (Messages p) (Permissions p) (Values p).
Definition set_Timeout x p := mk (Name p) (Label p) (Group p) (State p) x
  (LastUpdated p) (Messages p) (Permissions p) (Values p).
Definition set_LastUpdated x p := mk (Name p) (Label p) (Group p) (State p)
  (Timeout p) x (Messages p) (Permissions p) (Values p).
Definition set_Messages x p := mk (Name p) (Label p) (Group p) (State p)
  (Timeout p) (LastUpdated p) x (Permissions p) (Values p).
Definition set_Values x p := mk (Name p) (Label p) (Group p) (State p)
  (Timeout p) (LastUpdated p) (Messages p) (Permissions p) x.
End TextProperty.

Module SwitchProperty.
Record t := mk {
  Name : string; Label : string; Group : string;
  State : PropertyState; Timeout : Z; LastUpdated : Time;
  Messages : list Message.t; Rule : SwitchRule;
  Permissions : PropertyPermission;
  Values : gmap string SwitchValue.t }.
Definition set_State x p := mk (Name p) (Label p) (Group p) x (Timeout p)
  (LastUpdated p) (Messages p) (Rule p) (Permissions p) (Values p).
Definition set_Timeout x p := mk (Name p) (Label p) (Group p) (State p) x
  (LastUpdated p) (Messages p) (Rule p) (Permissions p) (Values p).
Definition set_LastUpdated x p := mk (Name p) (Label p) (Group p) (State p)
  (Timeout p) x (Messages p) (Rule p) (Permissions p) (Values p).
Definition set_Messages x p := mk (Name p) (Label p) (Group p) (State p)
  (Timeout p) (LastUpdated p) x (Rule p) (Permissions p) (Values p).
Definition set_Values x p := mk (Name p) (Label p) (Group p) (State p)
  (Timeout p) (LastUpdated p) (Messages p) (Rule p) (Permissions p) x.
End SwitchProperty.

Module NumberProperty.
Record t := mk {
  Name : string; Label : string; Group : string;
  State : PropertyState; Timeout : Z; LastUpdated : Time;
  Messages : list Message.t; Permissions : PropertyPermission;
  Values : gmap string NumberValue.t }.
Definition set_State x p := mk (Name p) (Label p) (Group p) x (Timeout p)
  (LastUpdated p) (Messages p) (Permissions p) (Values p).
Definition set_Timeout x p := mk (Name p) (Label p) (Group p) (State p) x
  (LastUpdated p) (Messages p) (Permissions p) (Values p).
Definition set_LastUpdated x p := mk (Name p) (Label p) (Group p) (State p)
  (Timeout p) x (Messages p) (Permissions p) (Values p).
Definition set_Messages x p := mk (Name p) (Label p) (Group p) (State p)
  (Timeout p) (LastUpdated p) x (Permissions p) (Values p).
Definition set_Values x p := mk (Name p) (Label p) (Group p) (State p)
  (Timeout p) (LastUpdated p) (Messages p) (Permissions p) x.
End NumberProperty.

(** Light properties are read-only: no permissions and no timeout. *)
Module LightProperty.
Record t := mk {
  Name : string; Label : string; Group : string;
  State : PropertyState; LastUpdated : Time;
  Messages : list Message.t;
  Values : gmap string LightValue.t }.
Definition set_State x p := mk (Name p) (Label p) (Group p) x
  (LastUpdated p) (Messages p) (Values p).
Definition set_LastUpdated x p := mk (Name p) (Label p) (Group p) (State p)
  x (Messages p) (Values p).
Definition set_Messages x p := mk (Name p) (Label p) (Group p) (State p)
  (LastUpdated p) x (Values p).
Definition set_Values x p := mk (Name p) (Label p) (Group p) (State p)
  (LastUpdated p) (Messages p) x.
End LightProperty.

Module BlobProperty.
Record t := mk {
  Name : string; Label : string; Group : string;
  State : PropertyState; LastUpdated : Time;
  Messages : list Message.t; Permissions : PropertyPermission;
  Timeout : Z;
  Values : gmap string BlobValue.t }.
Definition set_State x p := mk (Name p) (Label p) (Group p) x
  (LastUpdated p) (Messages p) (Permissions p) (Timeout p) (Values p).
Definition set_Timeout x p := mk (Name p) (Label p) (Group p) (State p)
  (LastUpdated p) (Messages p) (Permissions p) x (Values p).
Definition set_LastUpdated x p := mk (Name p) (Label p) (Group p) (State p)
  x (Messages p) (Permissions p) (Timeout p) (Values p).
Definition set_Messages x p := mk (Name p) (Label p) (Group p) (State p)
  (LastUpdated p) x (Permissions p) (Timeout p) (Values p).
Definition set_Values x p := mk (Name p) (Label p) (Group p) (State p)
  (LastUpdated p) (Messages p) (Permissions p) (Timeout p) x.
End BlobProperty.

Module Device.
Record t := mk {
  Name : string;
  TextProperties : gmap string TextProperty.t;
  SwitchProperties : gmap string SwitchProperty.t;
  NumberProperties : gmap string NumberProperty.t;
  BlobProperties : gmap string BlobProperty.t;
  LightProperties : gmap string LightProperty.t;
  Messages : list Message.t }.
Definition set_TextProperties x d := mk (Name d) x (SwitchProperties d)
  (NumberProperties d) (BlobProperties d) (LightProperties d) (Messages d).
Definition set_SwitchProperties x d := mk (Name d) (TextProperties d) x
  (NumberProperties d) (BlobProperties d) (LightProperties d) (Messages d).
Definition set_NumberProperties x d := mk (Name d) (TextProperties d)
  (SwitchProperties d) x (BlobProperties d) (LightProperties d) (Messages d).
Definition set_BlobProperties x d := mk (Name d) (TextProperties d)
  (SwitchProperties d) (NumberProperties d) x (LightProperties d) (Messages d).
Definition set_LightProperties x d := mk (Name d) (TextProperties d)
  (SwitchProperties d) (NumberProperties d) (BlobProperties d) x (Messages d).
Definition set_Messages x d := mk (Name d) (TextProperties d)
  (SwitchProperties d) (NumberProperties d) (BlobProperties d)
  (LightProperties d) x.

(** The zero value [Device{}]. *)
Definition zero : t := mk "" ∅ ∅ ∅ ∅ ∅ [].
End Device.

(** [sort.Strings]: ascending order of the byte-wise comparison [<] of Go
    strings, which is the lexicographic order [String.le]. *)
Module sort.
Definition Strings (l : list string) : list string := merge_sort String.le l.
End sort.

(** [for _, v := range m { temp[group(v)] = true }] *)
Definition markGroups {V} (group : V → string) (m : gmap string V)
    (temp : gmap string bool) : gmap string bool :=
  map_fold (λ _ v acc, <[group v := true]> acc) temp m.

(** [Device.Groups]: the groups of a device, for display.  The order in
    which Go ranges over [temp] does not matter, the keys are sorted. *)
Definition Groups (d : Device.t) : list string :=
  let temp : gmap string bool := ∅ in
  let temp := markGroups LightProperty.Group (Device.LightProperties d) temp in
  let temp := markGroups TextProperty.Group (Device.TextProperties d) temp in
  let temp := markGroups SwitchProperty.Group (Device.SwitchProperties d) temp in
  let temp := markGroups BlobProperty.Group (Device.BlobProperties d) temp in
  let temp := markGroups NumberProperty.Group (Device.NumberProperties d) temp in
  let groups := (map_to_list temp).*1 in
  sort.Strings groups.

(** ** The wire model ([xmlmodels.go])

    The structs the dispatcher and the facade read or build.  [XMLName] is
    the element name and carries no data.  The handlers are given the
    struct that the decoder has filled.  The field [Message] of the
    [def*Vector] and [set*Vector] structs is tagged [xml:"message"],
    without [,attr] (the structs [message] and [delProperty] have
    [xml:"message,attr"]): what the handlers append is this field, which
    is not the XML attribute [message] of the element. *)

Module getProperties.
Record t := mk { Version : string; Device : string; Name : string }.
End getProperties.

Module enableBlob.
Record t := mk { Device : string; Name : string; Value : BlobEnable }.
End enableBlob.

Module defText.
Record t := mk { Name : string; Label : string; Value : string }.
End defText.

Module defTextVector.
Record t := mk {
  Device : string; Name : string; Label : string; Group : string;
  State : PropertyState; Perm : PropertyPermission; Timeout : Z;
  Timestamp : string; Message : string; Texts : list defText.t }.
End defTextVector.

Module defNumber.
Record t := mk {
  Name : string; Label : string; Format : string; Min : string;
  Max : string; Step : string; Value : string }.
End defNumber.

Module defNumberVector.
Record t := mk {
  Device : string; Name : string; Label : string; Group : string;
  State : PropertyState; Perm : PropertyPermission; Timeout : Z;
  Timestamp : string; Message : string; Numbers : list defNumber.t }.
End defNumberVector.

Module defSwitch.
Record t := mk { Name : string; Label : string; Value : SwitchState }.
End defSwitch.

Module defSwitchVector.
Record t := mk {
  Device : string; Name : string; Label : string; Group : string;
  State : PropertyState; Perm : PropertyPermission; Rule : SwitchRule;
  Timeout : Z; Timestamp : string; Message : string;
  Switches : list defSwitch.t }.
End defSwitchVector.

Module defLight.
Record t := mk { Name : string; Label : string; Value : PropertyState }.
End defLight.

Module defLightVector.
Record t := mk {
  Device : string; Name : string; Label : string; Group : string;
  State : PropertyState; Timestamp : string; Message : string;
  Lights : list defLight.t }.
End defLightVector.

Module defBlob.
Record t := mk { Name : string; Label : string }.
End defBlob.

Module defBlobVector.
Record t := mk {
  Device : string; Name : string; Label : string; Group : string;
  State : PropertyState; Perm : PropertyPermission; Timeout : Z;
  Timestamp : string; Message : string; Blobs : list defBlob.t }.
End defBlobVector.

Module oneText.
Record t := mk { Name : string; Value : string }.
End oneText.

Module oneNumber.
Record t := mk { Name : string; Value : string }.
End oneNumber.

Module oneSwitch.
Record t := mk { Name : string; Value : SwitchState }.
End oneSwitch.

Module oneLight.
Record t := mk { Name : string; Value : PropertyState }.
End oneLight.

Module oneBlob.
Record t := mk { Name : string; Size : Z; Format : string; Value : string }.
End oneBlob.

Module newTextVector.
Record t := mk {
  Device : string; Name : string; Timestamp : string;
  Texts : list oneText.t }.
End newTextVector.

Module newNumberVector.
Record t := mk {
  Device : string; Name : string; Timestamp : string;
  Numbers : list oneNumber.t }.
End newNumberVector.

Module newSwitchVector.
Record t := mk {
  Device : string; Name : string; Timestamp : string;
  Switches : list oneSwitch.t }.
End newSwitchVector.

Module newBlobVector.
Record t := mk {
  Device : string; Name : string; Timestamp : string;
  Blobs : list oneBlob.t }.
End newBlobVector.

Module setTextVector.
Record t := mk {
  Device : string; Name : string; State : PropertyState; Timeout : Z;
  Timestamp : string; Message : string; Texts : list oneText.t }.
End setTextVector.

Module setNumberVector.
Record t := mk {
  Device : string; Name : string; State : PropertyState; Timeout : Z;
  Timestamp : string; Message : string; Numbers : list oneNumber.t }.
End setNumberVector.

Module setSwitchVector.
Record t := mk {
  Device : string; Name : string; State : PropertyState; Timeout : Z;
  Timestamp : string; Message : string; Switches : list oneSwitch.t }.
End setSwitchVector.

Module setLightVector.
Record t := mk {
  Device : string; Name : string; State : PropertyState;
  Timestamp : string; Message : string; Lights : list oneLight.t }.
End setLightVector.

Module setBlobVector.
Record t := mk {
  Device : string; Name : string; State : PropertyState; Timeout : Z;
  Timestamp : string; Message : string; Blobs : list oneBlob.t }.
End setBlobVector.

Module message.
Record t := mk { Device : string; Timestamp : string; Message : string }.
End message.

Module delProperty.
Record t := mk {
  Device : string; Name : string; Timestamp : string; Message : string }.
End delProperty.

(** What the facade puts on the [write] channel. *)
Inductive Command :=
  | CmdGetProperties (cmd : getProperties.t)
  | CmdEnableBlob (cmd : enableBlob.t)
  | CmdNewTextVector (cmd : newTextVector.t)
  | CmdNewNumberVector (cmd : newNumberVector.t)
  | CmdNewSwitchVector (cmd : newSwitchVector.t)
  | CmdNewBlobVector (cmd : newBlobVector.t).

(** What the XML reader puts on the [read] channel. *)
Inductive Item :=
  | ItemDefTextVector (item : defTextVector.t)
  | ItemDefSwitchVector (item : defSwitchVector.t)
  | ItemDefNumberVector (item : defNumberVector.t)
  | ItemDefLightVector (item : defLightVector.t)
  | ItemDefBlobVector (item : defBlobVector.t)
  | ItemSetSwitchVector (item : setSwitchVector.t)
  | ItemSetTextVector (item : setTextVector.t)
  | ItemSetNumberVector (item : setNumberVector.t)
  | ItemSetLightVector (item : setLightVector.t)
  | ItemSetBlobVector (item : setBlobVector.t)
  | ItemMessage (item : message.t)
  | ItemDelProperty (item : delProperty.t).

(** ** The collaborators: logger, filesystem, stream subscribers, channel *)

Module logging.
Inductive Level := Debug | Info | Warn | Error.
(** One log event: [log.WithField(k, v)...WithError(err).Warn(msg)]. *)
Record Entry := mk {
  level : Level;
  fields : list (string * string);
  err : option error;
  msg : string }.
End logging.

(** The flags of [os.OpenFile], with their values on Linux. *)
Module os.
Definition O_WRONLY : Z := 1.
Definition O_CREATE : Z := 64.
Definition O_TRUNC : Z := 512.
Definition ErrNotExist : error := LibError "file does not exist".
End os.

Module afero.

(** The injected filesystem: named byte files, and the paths it refuses
    to open.  A file handle is the name it was opened under, which is
    what [File.Name] returns; a handle opened with [O_TRUNC] writes at
    the end of the file. *)
Record Fs := mkFs {
  files : gmap string (list byte);
  openErr : string → option error }.

Abbreviation File := string (only parsing).

Definition OpenFile (name : string) (flag : Z) (perm : Z) (fs : Fs)
  : error + (File * Fs) :=
  match openErr fs name with
  | Some e => inl e
  | None =>
      match files fs !! name with
      | None =>
          if bool_decide (Z.land flag os.O_CREATE ≠ 0%Z)
          then inr (name, mkFs (<[name := []]> (files fs)) (openErr fs))
          else inl os.ErrNotExist
      | Some _ =>
          if bool_decide (Z.land flag os.O_TRUNC ≠ 0%Z)
          then inr (name, mkFs (<[name := []]> (files fs)) (openErr fs))
          else inr (name, fs)
      end
  end.

Definition Name (f : File) : string := f.

Definition Write (f : File) (p : list byte) (fs : Fs) : Fs :=
  mkFs (<[f := default [] (files fs !! f) ++ p]> (files fs)) (openErr fs).

End afero.

(** The write half of an [io.Pipe] handed to a stream subscriber: the bytes
    delivered to its reader so far, and whether the pipe has been closed.
    A write to an open pipe returns when the reader has taken the bytes. *)
Module PipeWriter.
Record t := mk { received : list byte; closed : bool }.
End PipeWriter.

(** A Go channel: nil before [Connect], open with the elements that were
    sent and not yet received, or closed by [Disconnect], with the
    elements that were buffered when it was closed: [close] does not
    discard them, the goroutine that ranges over the channel still
    receives them.  The capacity is not represented: a send to a full
    channel waits for the receiving goroutine and then succeeds. *)
Inductive chan (A : Type) :=
  | nilChan
  | openChan (queue : list A)
  | closedChan (queue : list A).
Arguments nilChan {A}.
Arguments openChan {A} queue.
Arguments closedChan {A} queue.

(** ** The client *)

Module INDIClient.
(** The fields of the struct that the dispatcher and the facade use, and
    [clock], the number of readings of the wall clock taken so far. *)
Record t := mk {
  log : list logging.Entry;
  fs : afero.Fs;
  write : chan Command;
  devices : gmap string Device.t;
  blobStreams : gmap string (gmap string PipeWriter.t);
  clock : nat }.
Definition set_log x c :=
  mk x (fs c) (write c) (devices c) (blobStreams c) (clock c).
Definition set_fs x c :=
  mk (log c) x (write c) (devices c) (blobStreams c) (clock c).
Definition set_write x c :=
  mk (log c) (fs c) x (devices c) (blobStreams c) (clock c).
Definition set_devices x c :=
  mk (log c) (fs c) (write c) x (blobStreams c) (clock c).
Definition set_blobStreams x c :=
  mk (log c) (fs c) (write c) (devices c) x (clock c).
Definition set_clock x c :=
  mk (log c) (fs c) (write c) (devices c) (blobStreams c) x.
End INDIClient.

(** How a call of a facade method ends: it returns its [error] ([None]
    for nil), or it blocks for ever in a send on a nil channel, or it
    panics in a send on a closed channel. *)
Inductive outcome :=
  | Returns (err : option error) (c : INDIClient.t)
  | Blocks (c : INDIClient.t)
  | Panics (c : INDIClient.t).

(** What the client takes from its environment: the wall clock
    ([time_Now n] is the [n]-th reading), [time.ParseInLocation] in UTC,
    and [base64.NewDecoder(base64.StdEncoding, strings.NewReader(s))]. *)
Class Runtime := {
  time_Now : nat → Time;
  time_ParseInLocation : string → string → error + Time;
  base64_NewDecoder : string → io.Reader }.

(** [io.Writer]s the client builds: the pipe of a stream subscriber, found
    in [blobStreams] under its key and id, and the sink file. *)
Inductive Writer :=
  | PipeW (key id : string)
  | FileW (f : afero.File).

(** [for _, val := range vals { values[val.Name] = V{...} }]: the loop of
    the [def*Vector] handlers. *)
Definition rangeDef {O V} (name : O → string) (new : O → V) (vals : list O)
    (values : gmap string V) : gmap string V :=
  foldl (λ values val, <[name val := new val]> values) values vals.

(** [for _, val := range vals { v, ok := values[val.Name]; if !ok { continue };
    v.Value = ...; values[val.Name] = v }]: the loop of the [set*Vector]
    handlers of text, number, switch and light properties. *)
Definition rangeSet {O V} (name : O → string) (upd : O → V → V)
    (vals : list O) (values : gmap string V) : gmap string V :=
  foldl (λ values val,
           match values !! name val with
           | None => values
           | Some v => <[name val := upd val v]> values
           end) values vals.

Section client.
Context {runtime : Runtime}.

Implicit Types (c : INDIClient.t) (p : list byte).

Definition Warn (fields : list (string * string)) (err : option error)
    (msg : string) c : INDIClient.t :=
  INDIClient.set_log
    (INDIClient.log c ++ [logging.mk logging.Warn fields err msg]) c.

(** [time.Now()] *)
Definition now c : Time * INDIClient.t :=
  (time_Now (INDIClient.clock c),
   INDIClient.set_clock (S (INDIClient.clock c)) c).

(** ** [io.MultiWriter] and [io.Copy] *)

Definition Writer_Write (w : Writer) p c : (Z * option error) * INDIClient.t :=
  match w with
  | FileW f =>
      ((Z.of_nat (length p), None),
       INDIClient.set_fs (afero.Write f p (INDIClient.fs c)) c)
  | PipeW key id =>
      match INDIClient.blobStreams c !! key with
      | Some wss =>
          match wss !! id with
          | Some pw =>
              if PipeWriter.closed pw
              then ((0%Z, Some io.ErrClosedPipe), c)
              else
                let pw := PipeWriter.mk (PipeWriter.received pw ++ p) false in
                ((Z.of_nat (length p), None),
                 INDIClient.set_blobStreams
                   (<[key := <[id := pw]> wss]> (INDIClient.blobStreams c)) c)
          | None => ((0%Z, Some io.ErrClosedPipe), c)
          end
      | None => ((0%Z, Some io.ErrClosedPipe), c)
      end
  end.

(** [multiWriter.Write]: each writer in turn; the first error or short
    write ends the call. *)
Fixpoint MultiWriter_Write (writers : list Writer) p c
  : (Z * option error) * INDIClient.t :=
  match writers with
  | [] => ((Z.of_nat (length p), None), c)
  | w :: writers =>
      let '((n, err), c) := Writer_Write w p c in
      match err with
      | Some e => ((n, Some e), c)
      | None =>
          if bool_decide (n ≠ Z.of_nat (length p))
          then ((n, Some io.ErrShortWrite), c)
          else MultiWriter_Write writers p c
      end
  end.

(** [io.Copy(dst, src)] through its buffer (the decoder is no
    [io.WriterTo] and the multi-writer no [io.ReaderFrom]): every
    non-empty block read is written to [dst]; a write error or a short
    write ends the copy, and so does the error of the reader once its
    blocks are written. *)
Fixpoint Copy_loop (dst : list Writer) (chunks : list (list byte))
    (rerr : option error) (written : Z) c
  : (Z * option error) * INDIClient.t :=
  match chunks with
  | [] => ((written, rerr), c)
  | p :: chunks =>
      if bool_decide (0 < length p)%nat then
        let '((nw, ew), c) := MultiWriter_Write dst p c in
        let written := (written + nw)%Z in
        match ew with
        | Some e => ((written, Some e), c)
        | None =>
            if bool_decide (Z.of_nat (length p) ≠ nw)
            then ((written, Some io.ErrShortWrite), c)
            else Copy_loop dst chunks rerr written c
        end
      else Copy_loop dst chunks rerr written c
  end.

Definition io_Copy (dst : list Writer) (src : io.Reader) c
  : (Z * option error) * INDIClient.t :=
  Copy_loop dst (io.chunks src) (io.rerr src) 0 c.

(** ** Registry lookups *)

Definition findDevice (name : string) c : Device.t * option error :=
  match INDIClient.devices c !! name with
  | Some d => (d, None)
  | None => (Device.zero, Some ErrDeviceNotFound)
  end.

Definition findOrCreateDevice (name : string) c : Device.t :=
  let '(device, err) := findDevice name c in
  if decide (err = Some ErrDeviceNotFound)
  then Device.mk name ∅ ∅ ∅ ∅ ∅ []
  else device.

(** [if len(text) > 0 { messages = append(messages, Message{Message: text,
    Timestamp: time.Now()}) }], the block every [def*Vector] and
    [set*Vector] handler ends with. *)
Definition appendMessage (text : string) (messages : list Message.t) c
  : list Message.t * INDIClient.t :=
  if bool_decide (0 < String.length text)%nat then
    let '(t, c) := now c in
    (messages ++ [Message.mk t text], c)
  else (messages, c).

(** The block of every [set*Vector] handler that computes
    [prop.LastUpdated] from the [timestamp] attribute. *)
Definition updateTime (timestamp : string) c : Time * INDIClient.t :=
  if bool_decide (String.length timestamp = 0)%nat then now c
  else
    match time_ParseInLocation "2006-01-02T15:04:05.9" timestamp with
    | inr t => (t, c)
    | inl err =>
        now (Warn [("timestamp", timestamp)] (Some err)
               "error in time.ParseInLocation" c)
    end.

(** ** The dispatcher: [def*Vector] *)

(** The struct literals of the [def*Vector] handlers give [Timeout] no
    value (it is left 0), and the one of [defBlobVector] gives
    [Permissions] none either (it is left empty). *)

Definition defTextVector (item : defTextVector.t) c : INDIClient.t :=
  let device := findOrCreateDevice (defTextVector.Device item) c in
  let '(t, c) := now c in
  let values :=
    rangeDef defText.Name
      (λ val, TextValue.mk (defText.Name val) (defText.Label val)
                (strings.TrimSpace (defText.Value val)))
      (defTextVector.Texts item) ∅ in
  let '(messages, c) := appendMessage (defTextVector.Message item) [] c in
  let prop :=
    TextProperty.mk (defTextVector.Name item) (defTextVector.Label item)
      (defTextVector.Group item) (defTextVector.State item) 0 t messages
      (defTextVector.Perm item) values in
  let device :=
    Device.set_TextProperties
      (<[defTextVector.Name item := prop]> (Device.TextProperties device))
      device in
  INDIClient.set_devices
    (<[defTextVector.Device item := device]> (INDIClient.devices c)) c.

Definition defSwitchVector (item : defSwitchVector.t) c : INDIClient.t :=
  let device := findOrCreateDevice (defSwitchVector.Device item) c in
  let '(t, c) := now c in
  let values :=
    rangeDef defSwitch.Name
      (λ val, SwitchValue.mk (defSwitch.Name val) (defSwitch.Label val)
                (strings.TrimSpace (defSwitch.Value val)))
      (defSwitchVector.Switches item) ∅ in
  let '(messages, c) := appendMessage (defSwitchVector.Message item) [] c in
  let prop :=
    SwitchProperty.mk (defSwitchVector.Name item) (defSwitchVector.Label item)
      (defSwitchVector.Group item) (defSwitchVector.State item) 0 t messages
      (defSwitchVector.Rule item) (defSwitchVector.Perm item) values in
  let device :=
    Device.set_SwitchProperties
      (<[defSwitchVector.Name item := prop]> (Device.SwitchProperties device))
      device in
  INDIClient.set_devices
    (<[defSwitchVector.Device item := device]> (INDIClient.devices c)) c.

Definition defNumberVector (item : defNumberVector.t) c : INDIClient.t :=
  let device := findOrCreateDevice (defNumberVector.Device item) c in
  let '(t, c) := now c in
  let values :=
    rangeDef defNumber.Name
      (λ val, NumberValue.mk (defNumber.Name val) (defNumber.Label val)
                (strings.TrimSpace (defNumber.Value val))
                (defNumber.Format val) (defNumber.Min val)
                (defNumber.Max val) (defNumber.Step val))
      (defNumberVector.Numbers item) ∅ in
  let '(messages, c) := appendMessage (defNumberVector.Message item) [] c in
  let prop :=
    NumberProperty.mk (defNumberVector.Name item) (defNumberVector.Label item)
      (defNumberVector.Group item) (defNumberVector.State item) 0 t messages
      (defNumberVector.Perm item) values in
  let device :=
    Device.set_NumberProperties
      (<[defNumberVector.Name item := prop]> (Device.NumberProperties device))
      device in
  INDIClient.set_devices
    (<[defNumberVector.Device item := device]> (INDIClient.devices c)) c.

Definition defLightVector (item : defLightVector.t) c : INDIClient.t :=
  let device := findOrCreateDevice (defLightVector.Device item) c in
  let '(t, c) := now c in
  let values :=
    rangeDef defLight.Name
      (λ val, LightValue.mk (defLight.Name val) (defLight.Label val)
                (strings.TrimSpace (defLight.Value val)))
      (defLightVector.Lights item) ∅ in
  let '(messages, c) := appendMessage (defLightVector.Message item) [] c in
  let prop :=
    LightProperty.mk (defLightVector.Name item) (defLightVector.Label item)
      (defLightVector.Group item) (defLightVector.State item) t messages
      values in
  let device :=
    Device.set_LightProperties
      (<[defLightVector.Name item := prop]> (Device.LightProperties device))
      device in
  INDIClient.set_devices
    (<[defLightVector.Device item := device]> (INDIClient.devices c)) c.

Definition defBlobVector (item : defBlobVector.t) c : INDIClient.t :=
  let device := findOrCreateDevice (defBlobVector.Device item) c in
  let '(t, c) := now c in
  let values :=
    rangeDef defBlob.Name
      (λ val, BlobValue.mk (defBlob.Name val) (defBlob.Label val) "" 0)
      (defBlobVector.Blobs item) ∅ in
  let '(messages, c) := appendMessage (defBlobVector.Message item) [] c in
  let prop :=
    BlobProperty.mk (defBlobVector.Name item) (defBlobVector.Label item)
      (defBlobVector.Group item) (defBlobVector.State item) t messages
      "" 0 values in
  let device :=
    Device.set_BlobProperties
      (<[defBlobVector.Name item := prop]> (Device.BlobProperties device))
      device in
  INDIClient.set_devices
    (<[defBlobVector.Device item := device]> (INDIClient.devices c)) c.

(** ** The dispatcher: [set*Vector] *)

Definition setSwitchVector (item : setSwitchVector.t) c : INDIClient.t :=
  let '(device, err) := findDevice (setSwitchVector.Device item) c in
  match err with
  | Some e =>
      Warn [("device", setSwitchVector.Device item)] (Some e)
        "could not find device" c
  | None =>
      match Device.SwitchProperties device !! setSwitchVector.Name item with
      | None =>
          Warn [("device", setSwitchVector.Device item);
                ("property", setSwitchVector.Name item)] None
            "could not find property" c
      | Some prop =>
          let prop := SwitchProperty.set_State (setSwitchVector.State item) prop in
          let prop := SwitchProperty.set_Timeout (setSwitchVector.Timeout item) prop in
          let '(t, c) := updateTime (setSwitchVector.Timestamp item) c in
          let prop := SwitchProperty.set_LastUpdated t prop in
          let values :=
            rangeSet oneSwitch.Name
              (λ val, SwitchValue.set_Value
                        (strings.TrimSpace (oneSwitch.Value val)))
              (setSwitchVector.Switches item) (SwitchProperty.Values prop) in
          let prop := SwitchProperty.set_Values values prop in
          let '(messages, c) :=
            appendMessage (setSwitchVector.Message item)
              (SwitchProperty.Messages prop) c in
          let prop := SwitchProperty.set_Messages messages prop in
          let device :=
            Device.set_SwitchProperties
              (<[setSwitchVector.Name item := prop]>
                 (Device.SwitchProperties device)) device in
          INDIClient.set_devices
            (<[setSwitchVector.Device item := device]> (INDIClient.devices c)) c
      end
  end.

Definition setTextVector (item : setTextVector.t) c : INDIClient.t :=
  let '(device, err) := findDevice (setTextVector.Device item) c in
  match err with
  | Some e =>
      Warn [("device", setTextVector.Device item)] (Some e)
        "could not find device" c
  | None =>
      match Device.TextProperties device !! setTextVector.Name item with
      | None =>
          Warn [("device", setTextVector.Device item);
                ("property", setTextVector.Name item)] None
            "could not find property" c
      | Some prop =>
          let prop := TextProperty.set_State (setTextVector.State item) prop in
          let prop := TextProperty.set_Timeout (setTextVector.Timeout item) prop in
          let '(t, c) := updateTime (setTextVector.Timestamp item) c in
          let prop := TextProperty.set_LastUpdated t prop in
          let values :=
            rangeSet oneText.Name
              (λ val, TextValue.set_Value
                        (strings.TrimSpace (oneText.Value val)))
              (setTextVector.Texts item) (TextProperty.Values prop) in
          let prop := TextProperty.set_Values values prop in
          let '(messages, c) :=
            appendMessage (setTextVector.Message item)
              (TextProperty.Messages prop) c in
          let prop := TextProperty.set_Messages messages prop in
          let device :=
            Device.set_TextProperties
              (<[setTextVector.Name item := prop]>
                 (Device.TextProperties device)) device in
          INDIClient.set_devices
            (<[setTextVector.Device item := device]> (INDIClient.devices c)) c
      end
  end.

Definition setNumberVector (item : setNumberVector.t) c : INDIClient.t :=
  let '(device, err) := findDevice (setNumberVector.Device item) c in
  match err with
  | Some e =>
      Warn [("device", setNumberVector.Device item)] (Some e)
        "could not find device" c
  | None =>
      match Device.NumberProperties device !! setNumberVector.Name item with
      | None =>
          Warn [("device", setNumberVector.Device item);
                ("property", setNumberVector.Name item)] None
            "could not find property" c
      | Some prop =>
          let prop := NumberProperty.set_State (setNumberVector.State item) prop in
          let prop := NumberProperty.set_Timeout (setNumberVector.Timeout item) prop in
          let '(t, c) := updateTime (setNumberVector.Timestamp item) c in
          let prop := NumberProperty.set_LastUpdated t prop in
          let values :=
            rangeSet oneNumber.Name
              (λ val, NumberValue.set_Value
                        (strings.TrimSpace (oneNumber.Value val)))
              (setNumberVector.Numbers item) (NumberProperty.Values prop) in
          let prop := NumberProperty.set_Values values prop in
          let '(messages, c) :=
            appendMessage (setNumberVector.Message item)
              (NumberProperty.Messages prop) c in
          let prop := NumberProperty.set_Messages messages prop in
          let device :=
            Device.set_NumberProperties
              (<[setNumberVector.Name item := prop]>
                 (Device.NumberProperties device)) device in
          INDIClient.set_devices
            (<[setNumberVector.Device item := device]> (INDIClient.devices c)) c
      end
  end.

Definition setLightVector (item : setLightVector.t) c : INDIClient.t :=
  let '(device, err) := findDevice (setLightVector.Device item) c in
  match err with
  | Some e =>
      Warn [("device", setLightVector.Device item)] (Some e)
        "could not find device" c
  | None =>
      match Device.LightProperties device !! setLightVector.Name item with
      | None =>
          Warn [("device", setLightVector.Device item);
                ("property", setLightVector.Name item)] None
            "could not find property" c
      | Some prop =>
          let prop := LightProperty.set_State (setLightVector.State item) prop in
          let '(t, c) := updateTime (setLightVector.Timestamp item) c in
          let prop := LightProperty.set_LastUpdated t prop in
          let values :=
            rangeSet oneLight.Name
              (λ val, LightValue.set_Value
                        (strings.TrimSpace (oneLight.Value val)))
              (setLightVector.Lights item) (LightProperty.Values prop) in
          let prop := LightProperty.set_Values values prop in
          let '(messages, c) :=
            appendMessage (setLightVector.Message item)
              (LightProperty.Messages prop) c in
          let prop := LightProperty.set_Messages messages prop in
          let device :=
            Device.set_LightProperties
              (<[setLightVector.Name item := prop]>
                 (Device.LightProperties device)) device in
          INDIClient.set_devices
            (<[setLightVector.Device item := device]> (INDIClient.devices c)) c
      end
  end.

(** [fmt.Sprintf("%s_%s_%s", device, property, value)]: the key of the
    stream subscribers of a BLOB value, and the stem of its sink file. *)
Definition blobKey (device property value : string) : string :=
  device +:+ "_" +:+ property +:+ "_" +:+ value.

(** The body of the loop of [setBlobVector] over [item.Blobs], on the
    value map of the property and the client.  [f.Close()] does not
    change the bytes of the file and is not represented; where the source
    continues after an error it leaves the file open.  Go ranges over the
    subscribers of the key in an unspecified order, here the order of
    [map_to_list]: the order decides only which subscribers have the
    block when the write to another one fails. *)
Definition setBlob (item : setBlobVector.t)
    (st : gmap string BlobValue.t * INDIClient.t) (val : oneBlob.t)
  : gmap string BlobValue.t * INDIClient.t :=
  let '(values, c) := st in
  match values !! oneBlob.Name val with
  | None => (values, c)
  | Some v =>
      let fname :=
        blobKey (setBlobVector.Device item) (setBlobVector.Name item)
          (oneBlob.Name val) +:+ oneBlob.Format val in
      match afero.OpenFile fname
              (Z.lor (Z.lor os.O_CREATE os.O_WRONLY) os.O_TRUNC) 438 (* 0666 *)
              (INDIClient.fs c) with
      | inl err =>
          (values, Warn [("file", fname)] (Some err) "error in c.fs.OpenFile" c)
      | inr (f, fs) =>
          let c := INDIClient.set_fs fs c in
          let key :=
            blobKey (setBlobVector.Device item) (setBlobVector.Name item)
              (oneBlob.Name val) in
          let writers :=
            match INDIClient.blobStreams c !! key with
            | Some wss => PipeW key <$> (map_to_list wss).*1
            | None => []
            end in
          let writers := writers ++ [FileW f] in
          let r := base64_NewDecoder (strings.TrimSpace (oneBlob.Value val)) in
          let '((written, err), c) := io_Copy writers r c in
          match err with
          | Some e => (values, Warn [] (Some e) "error in io.Copy" c)
          | None =>
              let v := BlobValue.set_Value (afero.Name f) v in
              let v := BlobValue.set_Size written v in
              (<[oneBlob.Name val := v]> values, c)
          end
      end
  end.

Definition setBlobVector (item : setBlobVector.t) c : INDIClient.t :=
  let '(device, err) := findDevice (setBlobVector.Device item) c in
  match err with
  | Some e =>
      Warn [("device", setBlobVector.Device item)] (Some e)
        "could not find device" c
  | None =>
      match Device.BlobProperties device !! setBlobVector.Name item with
      | None =>
          Warn [("device", setBlobVector.Device item);
                ("property", setBlobVector.Name item)] None
            "could not find property" c
      | Some prop =>
          let prop := BlobProperty.set_State (setBlobVector.State item) prop in
          let prop := BlobProperty.set_Timeout (setBlobVector.Timeout item) prop in
          let '(t, c) := updateTime (setBlobVector.Timestamp item) c in
          let prop := BlobProperty.set_LastUpdated t prop in
          let '(values, c) :=
            foldl (setBlob item) (BlobProperty.Values prop, c)
              (setBlobVector.Blobs item) in
          let prop := BlobProperty.set_Values values prop in
          let '(messages, c) :=
            appendMessage (setBlobVector.Message item)
              (BlobProperty.Messages prop) c in
          let prop := BlobProperty.set_Messages messages prop in
          let device :=
            Device.set_BlobProperties
              (<[setBlobVector.Name item := prop]>
                 (Device.BlobProperties device)) device in
          INDIClient.set_devices
            (<[setBlobVector.Device item := device]> (INDIClient.devices c)) c
      end
  end.

(** ** The dispatcher: [message] and [delProperty] *)

Definition message (item : message.t) c : INDIClient.t :=
  let '(device, err) := findDevice (message.Device item) c in
  match err with
  | Some e =>
      Warn [("device", message.Device item)] (Some e)
        "could not find device" c
  | None =>
      let '(t, c) := now c in
      let device :=
        Device.set_Messages
          (Device.Messages device ++ [Message.mk t (message.Message item)])
          device in
      INDIClient.set_devices
        (<[message.Device item := device]> (INDIClient.devices c)) c
  end.

Definition delProperty (item : delProperty.t) c : INDIClient.t :=
  if bool_decide (String.length (delProperty.Device item) = 0)%nat then
    (* c.devices.Range(func(key, value) bool { c.devices.Delete(key); return true }) *)
    INDIClient.set_devices
      (foldr (λ kv devices, delete kv.1 devices) (INDIClient.devices c)
         (map_to_list (INDIClient.devices c))) c
  else if bool_decide (String.length (delProperty.Name item) = 0)%nat then
    INDIClient.set_devices
      (delete (delProperty.Device item) (INDIClient.devices c)) c
  else
    let device := findOrCreateDevice (delProperty.Device item) c in
    let device :=
      Device.set_TextProperties
        (delete (delProperty.Name item) (Device.TextProperties device)) device in
    let device :=
      Device.set_NumberProperties
        (delete (delProperty.Name item) (Device.NumberProperties device)) device in
    let device :=
      Device.set_SwitchProperties
        (delete (delProperty.Name item) (Device.SwitchProperties device)) device in
    let device :=
      Device.set_LightProperties
        (delete (delProperty.Name item) (Device.LightProperties device)) device in
    let device :=
      Device.set_BlobProperties
        (delete (delProperty.Name item) (Device.BlobProperties device)) device in
    INDIClient.set_devices
      (<[delProperty.Device item := device]> (INDIClient.devices c)) c.

(** The type switch of the dispatcher goroutine of [startRead]. *)
Definition dispatch (i : Item) c : INDIClient.t :=
  match i with
  | ItemDefTextVector item => defTextVector item c
  | ItemDefSwitchVector item => defSwitchVector item c
  | ItemDefNumberVector item => defNumberVector item c
  | ItemDefLightVector item => defLightVector item c
  | ItemDefBlobVector item => defBlobVector item c
  | ItemSetSwitchVector item => setSwitchVector item c
  | ItemSetTextVector item => setTextVector item c
  | ItemSetNumberVector item => setNumberVector item c
  | ItemSetLightVector item => setLightVector item c
  | ItemSetBlobVector item => setBlobVector item c
  | ItemMessage item => message item c
  | ItemDelProperty item => delProperty item c
  end.

(** ** The facade *)

(** [c.write <- cmd] *)
Definition send (cmd : Command) c : outcome :=
  match INDIClient.write c with
  | nilChan => Blocks c
  | closedChan _ => Panics c
  | openChan queue =>
      Returns None (INDIClient.set_write (openChan (queue ++ [cmd])) c)
  end.

Definition GetProperties (deviceName propName : string) c : outcome :=
  if bool_decide ((0 < String.length propName)%nat
                  ∧ String.length deviceName = 0%nat)
  then Returns (Some ErrPropertyWithoutDevice) c
  else
    let cmd := getProperties.mk "1.7" deviceName propName in
    send (CmdGetProperties cmd) c.

Definition EnableBlob (deviceName propName : string) (val : BlobEnable) c
  : outcome :=
  if bool_decide (val ≠ BlobEnableAlso ∧ val ≠ BlobEnableNever
                  ∧ val ≠ BlobEnableOnly)
  then Returns (Some ErrInvalidBlobEnable) c
  else
    let '(_, err) := findDevice deviceName c in
    match err with
    | Some e => Returns (Some e) c
    | None =>
        let cmd := enableBlob.mk deviceName propName val in
        send (CmdEnableBlob cmd) c
    end.

Definition SetTextValue (deviceName propName textName textValue : string) c
  : outcome :=
  let '(device, err) := findDevice deviceName c in
  match err with
  | Some e => Returns (Some e) c
  | None =>
      match Device.TextProperties device !! propName with
      | None => Returns (Some ErrPropertyNotFound) c
      | Some prop =>
          if decide (TextProperty.Permissions prop = PropertyPermissionReadOnly)
          then Returns (Some ErrPropertyReadOnly) c
          else
            match TextProperty.Values prop !! textName with
            | None => Returns (Some ErrPropertyValueNotFound) c
            | Some _ =>
                let prop := TextProperty.set_State PropertyStateBusy prop in
                let device :=
                  Device.set_TextProperties
                    (<[propName := prop]> (Device.TextProperties device))
                    device in
                let c :=
                  INDIClient.set_devices
                    (<[deviceName := device]> (INDIClient.devices c)) c in
                let cmd :=
                  newTextVector.mk deviceName propName ""
                    [oneText.mk textName textValue] in
                send (CmdNewTextVector cmd) c
            end
      end
  end.

Definition SetNumberValue (deviceName propName NumberName NumberValue : string)
    c : outcome :=
  let '(device, err) := findDevice deviceName c in
  match err with
  | Some e => Returns (Some e) c
  | None =>
      match Device.NumberProperties device !! propName with
      | None => Returns (Some ErrPropertyNotFound) c
      | Some prop =>
          if decide (NumberProperty.Permissions prop = PropertyPermissionReadOnly)
          then Returns (Some ErrPropertyReadOnly) c
          else
            match NumberProperty.Values prop !! NumberName with
            | None => Returns (Some ErrPropertyValueNotFound) c
            | Some _ =>
                let prop := NumberProperty.set_State PropertyStateBusy prop in
                let device :=
                  Device.set_NumberProperties
                    (<[propName := prop]> (Device.NumberProperties device))
                    device in
                let c :=
                  INDIClient.set_devices
                    (<[deviceName := device]> (INDIClient.devices c)) c in
                let cmd :=
                  newNumberVector.mk deviceName propName ""
                    [oneNumber.mk NumberName NumberValue] in
                send (CmdNewNumberVector cmd) c
            end
      end
  end.

Definition SetSwitchValue (deviceName propName switchName : string)
    (switchValue : SwitchState) c : outcome :=
  let '(device, err) := findDevice deviceName c in
  match err with
  | Some e => Returns (Some e) c
  | None =>
      match Device.SwitchProperties device !! propName with
      | None => Returns (Some ErrPropertyNotFound) c
      | Some prop =>
          if decide (SwitchProperty.Permissions prop = PropertyPermissionReadOnly)
          then Returns (Some ErrPropertyReadOnly) c
          else
            match SwitchProperty.Values prop !! switchName with
            | None => Returns (Some ErrPropertyValueNotFound) c
            | Some _ =>
                let prop := SwitchProperty.set_State PropertyStateBusy prop in
                let device :=
                  Device.set_SwitchProperties
                    (<[propName := prop]> (Device.SwitchProperties device))
                    device in
                let c :=
                  INDIClient.set_devices
                    (<[deviceName := device]> (INDIClient.devices c)) c in
                let cmd :=
                  newSwitchVector.mk deviceName propName ""
                    [oneSwitch.mk switchName switchValue] in
                send (CmdNewSwitchVector cmd) c
            end
      end
  end.

Definition SetBlobValue (deviceName propName blobName blobValue blobFormat : string)
    (blobSize : Z) c : outcome :=
  let '(device, err) := findDevice deviceName c in
  match err with
  | Some e => Returns (Some e) c
  | None =>
      match Device.BlobProperties device !! propName with
      | None => Returns (Some ErrPropertyNotFound) c
      | Some prop =>
          if decide (BlobProperty.Permissions prop = PropertyPermissionReadOnly)
          then Returns (Some ErrPropertyReadOnly) c
          else
            match BlobProperty.Values prop !! blobName with
            | None => Returns (Some ErrPropertyValueNotFound) c
            | Some _ =>
                let prop := BlobProperty.set_State PropertyStateBusy prop in
                let device :=
                  Device.set_BlobProperties
                    (<[propName := prop]> (Device.BlobProperties device))
                    device in
                let c :=
                  INDIClient.set_devices
                    (<[deviceName := device]> (INDIClient.devices c)) c in
                let cmd :=
                  newBlobVector.mk deviceName propName ""
                    [oneBlob.mk blobName blobSize blobFormat blobValue] in
                send (CmdNewBlobVector cmd) c
            end
      end
  end.

End client.

(** ** An environment for the examples

    The clock counts its readings, the parser knows the Unix epoch and
    rejects every other timestamp, and the decoder delivers the bytes of
    [base64.DecodeString] in one block. *)
Definition exampleRuntime : Runtime := {|
  time_Now n := Z.of_nat n;
  time_ParseInLocation _ value :=
    if decide (value = "1970-01-01T00:00:00") then inr 0%Z
    else inl (LibError "parsing time: cannot parse");
  base64_NewDecoder s :=
    let '(out, e) := base64.DecodeString s in io.mkReader [out] e |}.

(** Everything opens in the empty filesystem. *)
Definition emptyFs : afero.Fs := afero.mkFs ∅ (λ _, None).

(** [NewINDIClient(log, dialer, fs, bufferSize)], and the client after a
    successful [Connect]: both channels made, nothing queued. *)
Definition NewINDIClient (fs : afero.Fs) : INDIClient.t :=
  INDIClient.mk [] fs nilChan ∅ ∅ 0.

Definition connected (fs : afero.Fs) : INDIClient.t :=
  INDIClient.set_write (openChan []) (NewINDIClient fs).

(** A device defined by the server: the client after the dispatch of a
    [defTextVector] with [perm="ro"], one of a [defSwitchVector] and one of
    a [defBLOBVector]. *)
Definition cameraInfo : defTextVector.t :=
  defTextVector.mk "Camera" "Info" "Info" "Main" "Idle" "ro" 60 "" ""
    [defText.mk "Model" "Model" " ST-8 "].

Definition cameraBinning : defSwitchVector.t :=
  defSwitchVector.mk "Camera" "Binning" "Binning" "Main" "Ok" "wo"
    "OneOfMany" 0 "" ""
    [defSwitch.mk "One" "1:1" "Off"; defSwitch.mk "Two" "2:1" "On "].

Definition cameraCCD : defBlobVector.t :=
  defBlobVector.mk "Camera" "CCD1" "Image" "Main" "Ok" "ro" 60 "" ""
    [defBlob.mk "CCD1" "Image"].

Definition camera : INDIClient.t :=
  foldl (λ c i, dispatch (runtime := exampleRuntime) i c) (connected emptyFs)
    [ItemDefTextVector cameraInfo; ItemDefSwitchVector cameraBinning;
     ItemDefBlobVector cameraCCD].

(** The last element of [vals] that carries the name [k]. *)
Definition lastNamed {O} (name : O → string) (k : string) (vals : list O)
  : option O :=
  last (filter (λ val, name val = k) vals).

(** The subscriber pipe registered under [key] and [id]. *)
Definition subscriber (key id : string) (c : INDIClient.t)
  : option PipeWriter.t :=
  INDIClient.blobStreams c !! key ≫= λ wss, wss !! id.

(** The subscribers [ids] of [key] are registered and their pipes are open. *)
Definition allOpen (key : string) (ids : list string) (c : INDIClient.t) : Prop :=
  ∀ id, id ∈ ids →
    ∃ pw, subscriber key id c = Some pw ∧ PipeWriter.closed pw = false.

(** What the copies of BLOBs into the sink files [paths] leave as it was:
    the registry, the command queue, the clock, the paths the filesystem
    refuses, every other file, and which subscriber pipes exist and which
    of them are closed. *)
Definition blobFrame (paths : list string) (c c' : INDIClient.t) : Prop :=
  INDIClient.devices c' = INDIClient.devices c
  ∧ INDIClient.write c' = INDIClient.write c
  ∧ INDIClient.clock c' = INDIClient.clock c
  ∧ afero.openErr (INDIClient.fs c') = afero.openErr (INDIClient.fs c)
  ∧ (∀ f, f ∉ paths →
       afero.files (INDIClient.fs c') !! f = afero.files (INDIClient.fs c) !! f)
  ∧ (∀ key id,
       PipeWriter.closed <$> subscriber key id c'
       = PipeWriter.closed <$> subscriber key id c).

(** The sink file of a [oneBLOB] of a [setBLOBVector]. *)
Definition sinkPath (item : setBlobVector.t) (val : oneBlob.t) : string :=
  blobKey (setBlobVector.Device item) (setBlobVector.Name item)
    (oneBlob.Name val) +:+ oneBlob.Format val.

(** The [setBLOBVector] with other [oneBLOB] elements. *)
Definition withBlobs (blobs : list oneBlob.t) (item : setBlobVector.t)
  : setBlobVector.t :=
  setBlobVector.mk (setBlobVector.Device item) (setBlobVector.Name item)
    (setBlobVector.State item) (setBlobVector.Timeout item)
    (setBlobVector.Timestamp item) (setBlobVector.Message item) blobs.

(** The camera sends an image: [1234567890] in base64, surrounded by
    white space and broken into two lines; an element for a value that was
    never defined; and a payload that is not base64. *)
Definition imageBlob : oneBlob.t :=
  oneBlob.mk "CCD1" 10 ".fits" "
  MTIzNDU2
Nzg5MA==
".

Definition strayBlob : oneBlob.t := oneBlob.mk "CCD2" 3 ".fits" "MTIz".

Definition brokenBlob : oneBlob.t := oneBlob.mk "CCD1" 3 ".fits" "!!!!".

Definition cameraImage (blobs : list oneBlob.t) : setBlobVector.t :=
  setBlobVector.mk "Camera" "CCD1" "Ok" 0 "" "" blobs.

(** The camera on a filesystem that refuses every path. *)
Definition readOnlyFs : afero.Fs :=
  afero.mkFs ∅ (λ _, Some (LibError "read-only file system")).

Definition cameraReadOnly : INDIClient.t :=
  dispatch (runtime := exampleRuntime) (ItemDefBlobVector cameraCCD)
    (connected readOnlyFs).

(** The value [k] of the BLOB property [property] of [device]. *)
Definition blobValue (device property k : string) (c : INDIClient.t)
  : option BlobValue.t :=
  d ← INDIClient.devices c !! device;
  p ← Device.BlobProperties d !! property;
  BlobProperty.Values p !! k.

(** The server updates the binning switch of the camera. *)
Definition binningUpdate : setSwitchVector.t :=
  setSwitchVector.mk "Camera" "Binning" "Busy" 5 "" "switching"
    [oneSwitch.mk "One" " On "; oneSwitch.mk "Nine" "On"].

(** The bytes of a string. *)
Definition bytes (s : string) : list byte := String.list_byte_of_string s.

(** The device of [Test_Groups]. *)
Definition testDevice : Device.t :=
  Device.mk "TestDevice"
    {[ "Prop1" := TextProperty.mk "" "" "Group A" "" 0 0%Z [] "" ∅ ]}
    {[ "Prop1" := SwitchProperty.mk "" "" "Group A" "" 0 0%Z [] "" "" ∅ ]}
    {[ "Prop1" := NumberProperty.mk "" "" "Group A" "" 0 0%Z [] "" ∅ ]}
    {[ "Prop1" := BlobProperty.mk "" "" "Group B" "" 0%Z [] "" 0 ∅ ]}
    {[ "Prop1" := LightProperty.mk "" "" "Group B" "" 0%Z [] ∅ ]}
    [].

(** ** The rest of the facade: BLOB files, BLOB streams, the device list *)

Module filepath.

(** [filepath.Base] with the separator [/]: the last element of the path,
    behind its last separator, trailing separators dropped; [.] for the
    empty path and [/] for a path of separators. *)
Definition isSeparator (c : ascii) : bool := bool_decide (c = "/"%char).

Fixpoint dropSeparators (l : list ascii) : list ascii :=
  match l with
  | [] => []
  | c :: l' => if isSeparator c then dropSeparators l' else l
  end.

Fixpoint firstElement (l : list ascii) : list ascii :=
  match l with
  | [] => []
  | c :: l' => if isSeparator c then [] else c :: firstElement l'
  end.

Definition Base (path : string) : string :=
  if decide (path = "") then "."
  else
    let last :=
      firstElement
        (dropSeparators (reverse (String.list_ascii_of_string path))) in
    if decide (last = []) then "/"
    else String.string_of_list_ascii (reverse last).

End filepath.

(** [Fs.Open]: a path the filesystem refuses or a file that does not exist
    gives an error; otherwise the reader, represented by the bytes it
    yields when it is read at once. *)
Definition afero_Open (name : string) (fs : afero.Fs) : error + list byte :=
  match afero.openErr fs name with
  | Some e => inl e
  | None =>
      match afero.files fs !! name with
      | Some content => inr content
      | None => inl os.ErrNotExist
      end
  end.

(** [INDIClient.Devices]: the devices in the order in which [Range] visits
    them, here the order of [map_to_list]. *)
Definition Devices (c : INDIClient.t) : list Device.t :=
  (map_to_list (INDIClient.devices c)).*2.

(** [INDIClient.GetBlob]: the results [rdr], [fileName] and [length], or
    the error. *)
Definition GetBlob (deviceName propName blobName : string) (c : INDIClient.t)
  : error + (list byte * string * Z) :=
  let '(device, err) := findDevice deviceName c in
  match err with
  | Some e => inl e
  | None =>
      match Device.BlobProperties device !! propName with
      | None => inl ErrPropertyNotFound
      | Some prop =>
          match BlobProperty.Values prop !! blobName with
          | None => inl ErrPropertyValueNotFound
          | Some val =>
              match afero_Open (BlobValue.Value val) (INDIClient.fs c) with
              | inl e => inl e
              | inr rdr =>
                  inr (rdr, filepath.Base (BlobValue.Value val),
                       BlobValue.Size val)
              end
          end
      end
  end.

(** [INDIClient.GetBlobStream], with [guid] the string of the identifier
    that [uuid.New] draws.  The reader it returns is the read half of the
    pipe it registers under the key of the value and [guid]: what the
    reader yields is what the pipe has [received]. *)
Definition GetBlobStream (deviceName propName blobName guid : string)
    (c : INDIClient.t) : (error + string) * INDIClient.t :=
  let '(device, err) := findDevice deviceName c in
  match err with
  | Some e => (inl e, c)
  | None =>
      match Device.BlobProperties device !! propName with
      | None => (inl ErrPropertyNotFound, c)
      | Some prop =>
          match BlobProperty.Values prop !! blobName with
          | None => (inl ErrPropertyValueNotFound, c)
          | Some _ =>
              let id := guid in
              let key := blobKey deviceName propName blobName in
              let writers :=
                match INDIClient.blobStreams c !! key with
                | Some ws => ws
                | None => ∅
                end in
              let writers := <[id := PipeWriter.mk [] false]> writers in
              (inr id,
               INDIClient.set_blobStreams
                 (<[key := writers]> (INDIClient.blobStreams c)) c)
          end
      end
  end.

(** [INDIClient.CloseBlobStream]: the pipe is closed and taken out of the
    subscribers of the key. *)
Definition CloseBlobStream (deviceName propName blobName id : string)
    (c : INDIClient.t) : option error * INDIClient.t :=
  let '(device, err) := findDevice deviceName c in
  match err with
  | Some e => (Some e, c)
  | None =>
      match Device.BlobProperties device !! propName with
      | None => (Some ErrPropertyNotFound, c)
      | Some prop =>
          match BlobProperty.Values prop !! blobName with
          | None => (Some ErrPropertyValueNotFound, c)
          | Some _ =>
              let key := blobKey deviceName propName blobName in
              match INDIClient.blobStreams c !! key with
              | Some writers =>
                  match writers !! id with
                  | Some _ =>
                      (None,
                       INDIClient.set_blobStreams
                         (<[key := delete id writers]>
                            (INDIClient.blobStreams c)) c)
                  | None => (None, c)
                  end
              | None => (None, c)
              end
          end
      end
  end.

(** ** The life of a connection

    The fields [conn], [read] and [bufferSize] of the struct, which only
    [NewINDIClient], [Connect], [Disconnect] and [IsConnected] use, beside
    the client.  Of a connection only the error that its [Close] returns
    matters here.  The goroutines that [Connect] starts are the dispatcher
    ([dispatchNext] is one turn of its loop), the XML reader and the XML
    writer ([writerTakes] is the receive of its loop); what the reader and
    the writer do with the connection is not represented. *)
Module Conn.
Record t := mk { closeErr : option error }.
End Conn.

Module Session.
Record t := mk {
  client : INDIClient.t;
  conn : option Conn.t;
  read : chan Item;
  bufferSize : Z }.
End Session.

(** How [Connect] ends: it returns an error or nil, or it panics in
    [make]. *)
Inductive connecting :=
  | Connected (err : option error) (s : Session.t)
  | ConnectPanics (s : Session.t).

(** How [Disconnect] ends: it returns an error or nil, or it panics in the
    [close] of a channel that is closed already. *)
Inductive closing :=
  | Closed (err : option error) (s : Session.t)
  | ClosePanics (s : Session.t).

(** [NewINDIClient] with its [conn], [read] and [bufferSize]. *)
Definition NewSession (fs : afero.Fs) (bufferSize : Z) : Session.t :=
  Session.mk (NewINDIClient fs) None nilChan bufferSize.

(** [make(chan interface{}, n)] panics at run time for a negative [n],
    and for an [n] beyond [maxChan], the largest buffer that the runtime
    of the platform takes ([makechan: size out of range]).  A buffer that
    the runtime takes and the machine cannot hold ends the program, as any
    exhausted memory does; this is not represented. *)
Class Platform := { maxChan : Z }.

(** A 64-bit Linux: elements of two words, at most [2^48] bytes with a
    header of 96. *)
Definition examplePlatform : Platform := {| maxChan := 2 ^ 44 - 6 |}.

Definition makechan_panics {platform : Platform} (n : Z) : bool :=
  bool_decide (n < 0 ∨ maxChan < n)%Z.

(** [INDIClient.Connect], with [dial] what [c.dialer.Dial(network,
    address)] returns: an error, or a connection with a nil error.  The
    registry is cleared and the connection stored before the channels are
    made: a panic of [make] leaves the channels as they were. *)
Definition Connect {platform : Platform} (dial : error + Conn.t)
    (s : Session.t) : connecting :=
  match dial with
  | inl e => Connected (Some e) s
  | inr conn =>
      let client := delProperty (delProperty.mk "" "" "" "") (Session.client s) in
      if makechan_panics (Session.bufferSize s)
      then ConnectPanics
             (Session.mk client (Some conn) (Session.read s)
                (Session.bufferSize s))
      else
        let client := INDIClient.set_write (openChan []) client in
        Connected None
          (Session.mk client (Some conn) (openChan [])
             (Session.bufferSize s))
  end.

(** [INDIClient.Disconnect].  [close] keeps the elements that are
    buffered in the channel. *)
Definition Disconnect (s : Session.t) : closing :=
  let client := delProperty (delProperty.mk "" "" "" "") (Session.client s) in
  let size := Session.bufferSize s in
  match Session.conn s with
  | None => Closed None (Session.mk client None (Session.read s) size)
  | Some conn =>
      let err := Conn.closeErr conn in
      match Session.read s with
      | closedChan _ =>
          ClosePanics (Session.mk client None (Session.read s) size)
      | nilChan | openChan _ =>
          let read :=
            match Session.read s with
            | openChan inbox => closedChan inbox
            | read => read
            end in
          match INDIClient.write client with
          | closedChan _ => ClosePanics (Session.mk client None read size)
          | nilChan => Closed err (Session.mk client None read size)
          | openChan queue =>
              Closed err
                (Session.mk (INDIClient.set_write (closedChan queue) client)
                   None read size)
          end
      end
  end.

Definition IsConnected (s : Session.t) : bool :=
  match Session.conn s with
  | Some _ => true
  | None => false
  end.

(** [log.WithField("item", i).Debug("got message")], with [render] the
    text that the logger makes of the element. *)
Definition gotMessage (render : Item → string) (i : Item)
    (c : INDIClient.t) : INDIClient.t :=
  INDIClient.set_log
    (INDIClient.log c
     ++ [logging.mk logging.Debug [("item", render i)] None "got message"])
    c.

(** The body of the loop of the dispatcher goroutine: the line in the
    log, then the handler of the element. *)
Definition received {runtime : Runtime} (render : Item → string)
    (c : INDIClient.t) (i : Item) : INDIClient.t :=
  dispatch i (gotMessage render i c).

(** One turn of the loop [for i := range r] of the dispatcher goroutine
    that [startRead] starts: it receives the element at the head of the
    read channel, also when the channel was closed behind it, logs and
    dispatches it.  With nothing to receive the session stays as it is
    (the goroutine waits, or on a closed channel ends). *)
Definition dispatchNext {runtime : Runtime} (render : Item → string)
    (s : Session.t) : Session.t :=
  match Session.read s with
  | openChan (i :: inbox) =>
      Session.mk (received render (Session.client s) i) (Session.conn s)
        (openChan inbox) (Session.bufferSize s)
  | closedChan (i :: inbox) =>
      Session.mk (received render (Session.client s) i) (Session.conn s)
        (closedChan inbox) (Session.bufferSize s)
  | _ => s
  end.

(** The receive of the loop [for item := range w] of the writer goroutine
    that [startWrite] starts: it takes the command at the head of the
    write channel, also when the channel was closed behind it.  What the
    goroutine does with the command ([xml.Marshal], [conn.Write], and
    what it logs of them) is not represented. *)
Definition writerTakes (c : INDIClient.t) : option Command * INDIClient.t :=
  match INDIClient.write c with
  | openChan (cmd :: queue) =>
      (Some cmd, INDIClient.set_write (openChan queue) c)
  | closedChan (cmd :: queue) =>
      (Some cmd, INDIClient.set_write (closedChan queue) c)
  | _ => (None, c)
  end.

(** ** Sequences of calls

    The client is changed by the dispatcher, one inbound element at a
    time, and by the calls of the eight methods of the facade that work
    on the registry, the streams and the command queue.  [Connect] and
    [Disconnect] work on the session and are not among the calls. *)
Inductive Call :=
  | CallGetProperties (deviceName propName : string)
  | CallEnableBlob (deviceName propName : string) (val : BlobEnable)
  | CallSetTextValue (deviceName propName textName textValue : string)
  | CallSetNumberValue (deviceName propName NumberName NumberValue : string)
  | CallSetSwitchValue (deviceName propName switchName : string)
      (switchValue : SwitchState)
  | CallSetBlobValue (deviceName propName blobName blobValue blobFormat : string)
      (blobSize : Z)
  | CallGetBlobStream (deviceName propName blobName guid : string)
  | CallCloseBlobStream (deviceName propName blobName id : string).

Inductive Event :=
  | Inbound (i : Item)
  | Called (call : Call).

(** The client that an outcome leaves behind. *)
Definition leaves (o : outcome) : INDIClient.t :=
  match o with
  | Returns _ c | Blocks c | Panics c => c
  end.

Definition call (k : Call) (c : INDIClient.t) : INDIClient.t :=
  match k with
  | CallGetProperties deviceName propName =>
      leaves (GetProperties deviceName propName c)
  | CallEnableBlob deviceName propName val =>
      leaves (EnableBlob deviceName propName val c)
  | CallSetTextValue deviceName propName textName textValue =>
      leaves (SetTextValue deviceName propName textName textValue c)
  | CallSetNumberValue deviceName propName NumberName NumberValue =>
      leaves (SetNumberValue deviceName propName NumberName NumberValue c)
  | CallSetSwitchValue deviceName propName switchName switchValue =>
      leaves (SetSwitchValue deviceName propName switchName switchValue c)
  | CallSetBlobValue deviceName propName blobName blobValue blobFormat blobSize =>
      leaves (SetBlobValue deviceName propName blobName blobValue blobFormat
                blobSize c)
  | CallGetBlobStream deviceName propName blobName guid =>
      (GetBlobStream deviceName propName blobName guid c).2
  | CallCloseBlobStream deviceName propName blobName id =>
      (CloseBlobStream deviceName propName blobName id c).2
  end.

Definition step {runtime : Runtime} (e : Event) (c : INDIClient.t)
  : INDIClient.t :=
  match e with
  | Inbound i => dispatch i c
  | Called k => call k c
  end.

Definition run {runtime : Runtime} (events : list Event) (c : INDIClient.t)
  : INDIClient.t :=
  foldl (λ c e, step e c) c events.


(** ** Invariants of the registry *)

(** Every property of the map [m] is stored under the name it carries, and
    so is every value of every property. *)
Definition keyedProps {P V} (pname : P → string) (values : P → gmap string V)
    (vname : V → string) (m : gmap string P) : Prop :=
  ∀ k p, m !! k = Some p →
    pname p = k ∧ ∀ j v, values p !! j = Some v → vname v = j.

Definition wellNamedDevice (d : Device.t) : Prop :=
  keyedProps TextProperty.Name TextProperty.Values TextValue.Name
    (Device.TextProperties d)
  ∧ keyedProps SwitchProperty.Name SwitchProperty.Values SwitchValue.Name
      (Device.SwitchProperties d)
  ∧ keyedProps NumberProperty.Name NumberProperty.Values NumberValue.Name
      (Device.NumberProperties d)
  ∧ keyedProps BlobProperty.Name BlobProperty.Values BlobValue.Name
      (Device.BlobProperties d)
  ∧ keyedProps LightProperty.Name LightProperty.Values LightValue.Name
      (Device.LightProperties d).

(** Every device of the registry is stored under its name, and its
    properties and values under theirs. *)
Definition wellNamed (c : INDIClient.t) : Prop :=
  ∀ k d, INDIClient.devices c !! k = Some d →
    Device.Name d = k ∧ wellNamedDevice d.

(** No BLOB property of the registry carries a permission. *)
Definition blobsUnrestricted (c : INDIClient.t) : Prop :=
  ∀ k d n p, INDIClient.devices c !! k = Some d →
    Device.BlobProperties d !! n = Some p → BlobProperty.Permissions p = "".

(** ** What the server declares

    The part of a property that only its [def*Vector] sets: the name, the
    label, the group, the permission and the rule, and of each value the
    name, the label and, for a number, the format and the bounds.  The
    state, the timeout, the time of the last update, the messages and the
    values themselves are left out. *)
Definition textDeclared (p : TextProperty.t) :=
  (TextProperty.Name p, TextProperty.Label p, TextProperty.Group p,
   TextProperty.Permissions p,
   (λ v, (TextValue.Name v, TextValue.Label v)) <$> TextProperty.Values p).

Definition switchDeclared (p : SwitchProperty.t) :=
  (SwitchProperty.Name p, SwitchProperty.Label p, SwitchProperty.Group p,
   SwitchProperty.Rule p, SwitchProperty.Permissions p,
   (λ v, (SwitchValue.Name v, SwitchValue.Label v)) <$> SwitchProperty.Values p).

Definition numberDeclared (p : NumberProperty.t) :=
  (NumberProperty.Name p, NumberProperty.Label p, NumberProperty.Group p,
   NumberProperty.Permissions p,
   (λ v, (NumberValue.Name v, NumberValue.Label v, NumberValue.Format v,
          NumberValue.Min v, NumberValue.Max v, NumberValue.Step v))
     <$> NumberProperty.Values p).

Definition blobDeclared (p : BlobProperty.t) :=
  (BlobProperty.Name p, BlobProperty.Label p, BlobProperty.Group p,
   BlobProperty.Permissions p,
   (λ v, (BlobValue.Name v, BlobValue.Label v)) <$> BlobProperty.Values p).

Definition lightDeclared (p : LightProperty.t) :=
  (LightProperty.Name p, LightProperty.Label p, LightProperty.Group p,
   (λ v, (LightValue.Name v, LightValue.Label v)) <$> LightProperty.Values p).

Definition deviceDeclared (d : Device.t) :=
  (Device.Name d,
   textDeclared <$> Device.TextProperties d,
   switchDeclared <$> Device.SwitchProperties d,
   numberDeclared <$> Device.NumberProperties d,
   blobDeclared <$> Device.BlobProperties d,
   lightDeclared <$> Device.LightProperties d).

Definition declared (c : INDIClient.t) :=
  deviceDeclared <$> INDIClient.devices c.

(** The events that change what is declared: the [def*Vector] elements and
    [delProperty]. *)
Definition declares (e : Event) : bool :=
  match e with
  | Inbound (ItemDefTextVector _) | Inbound (ItemDefSwitchVector _)
  | Inbound (ItemDefNumberVector _) | Inbound (ItemDefLightVector _)
  | Inbound (ItemDefBlobVector _) | Inbound (ItemDelProperty _) => true
  | _ => false
  end.

(** ** A subscriber that went away *)

(** The camera with one subscriber of its image whose reader was closed
    without [CloseBlobStream]. *)
Definition cameraAbandoned : INDIClient.t :=
  INDIClient.set_blobStreams
    {[ "Camera_CCD1_CCD1" := {[ "7f3c" := PipeWriter.mk [] true ]} ]} camera.

(** ** The command queue *)

(** What a call leaves in the queue: what was there, and at most one
    command behind it. *)
Definition queued (c c' : INDIClient.t) : Prop :=
  INDIClient.write c' = INDIClient.write c
  ∨ ∃ queue cmd,
      INDIClient.write c = openChan queue
      ∧ INDIClient.write c' = openChan (queue ++ [cmd]).

(** What changes the client between a [Connect] and a [Disconnect]: an
    event, or a receive of the writer goroutine.  The commands that the
    writer has taken are kept beside the client, in the order in which it
    took them. *)
Inductive Activity :=
  | Does (e : Event)
  | WriterTakes.

Definition act {runtime : Runtime} (st : INDIClient.t * list Command)
    (a : Activity) : INDIClient.t * list Command :=
  match a with
  | Does e => (step e st.1, st.2)
  | WriterTakes =>
      let '(cmd, c) := writerTakes st.1 in
      (c, st.2 ++ match cmd with Some cmd => [cmd] | None => [] end)
  end.

Definition activity {runtime : Runtime} (l : list Activity)
    (c : INDIClient.t) : INDIClient.t * list Command :=
  foldl act (c, []) l.

(** The calls of the facade among the activities. *)
Definition isCalled (a : Activity) : bool :=
  match a with
  | Does (Called _) => true
  | _ => false
  end.

(** ** A client that was never connected *)

(** The client of [Test_EnableBlob_InvalidValue]: a device stored in a
    client on which [Connect] was not called, so that its channels were
    never made. *)
Definition unconnected : INDIClient.t :=
  INDIClient.set_devices
    {[ "device1" := Device.mk "device1" ∅ ∅ ∅ ∅ ∅ [] ]}
    (NewINDIClient emptyFs).

(** * Properties *)

(** ** The library functions at work *)

Example TrimSpace_ascii :
  strings.TrimSpace (String "009" " On " +:+ String "013" (String "010" ""))
  = "On".
Proof. reflexivity. Qed.

(** A no-break space (U+00A0) in front and an ideographic space (U+3000)
    behind are trimmed; a lone continuation byte is not a space. *)
Example TrimSpace_unicode :
  strings.TrimSpace
    (String "194" (String "160" "a b"
       +:+ String "227" (String "128" (String "128" ""))))
  = "a b"
  ∧ strings.TrimSpace (String "160" "a") = String "160" "a".
Proof. split; reflexivity. Qed.

Example DecodeString_image :
  base64.DecodeString "MTIzNDU2Nzg5MA==" = (bytes "1234567890", None)
  ∧ base64.DecodeString "MTIzNA==" = (bytes "1234", None)
  ∧ base64.DecodeString "MTIzNDU=" = (bytes "12345", None)
  ∧ base64.DecodeString "MTIz!DU2" = (bytes "123", Some base64.CorruptInputError)
  ∧ base64.DecodeString "MTIzN" = (bytes "123", Some io.ErrUnexpectedEOF).
Proof. repeat split; reflexivity. Qed.

(** ** [Device.Groups] *)

Lemma markGroups_lookup {V} (group : V → string) (m : gmap string V)
    (temp : gmap string bool) (g : string) :
  is_Some (markGroups group m temp !! g) ↔
  is_Some (temp !! g) ∨ ∃ k v, m !! k = Some v ∧ group v = g.
Proof.
  unfold markGroups.
  apply (map_fold_weak_ind (λ r m,
    is_Some (r !! g) ↔ is_Some (temp !! g) ∨ ∃ k v, m !! k = Some v ∧ group v = g)).
  - split; [by left|]. intros [?|(k & v & Hk & _)]; [done|].
    by rewrite lookup_empty in Hk.
  - intros i x m' r Hi IH. destruct (decide (group x = g)) as [<-|Hne].
    + rewrite lookup_insert_eq. split; [|by eauto].
      intros _. right. exists i, x. by rewrite lookup_insert_eq.
    + rewrite lookup_insert_ne by done. rewrite IH. split.
      * intros [?|(k & v & Hk & Hg)]; [by left|]. right. exists k, v.
        split; [|done]. rewrite lookup_insert_ne; [done|]. by intros ->; simplify_eq.
      * intros [?|(k & v & Hk & Hg)]; [by left|]. right.
        destruct (decide (i = k)) as [->|].
        -- rewrite lookup_insert_eq in Hk. by simplify_eq.
        -- rewrite lookup_insert_ne in Hk by done. eauto.
Qed.

Lemma Groups_sorted_nodup (d : Device.t) :
  Sorted String.le (Groups d) ∧ NoDup (Groups d).
Proof.
  unfold Groups, sort.Strings. split.
  - apply Sorted_merge_sort, _.
  - rewrite merge_sort_Permutation. apply NoDup_fst_map_to_list.
Qed.

(** C8. For every device, [Groups] is sorted in ascending lexicographic
    order, has no duplicates, and holds exactly the group labels of the
    properties of the five maps of the device. *)
Theorem Groups_sorted_union (d : Device.t) :
  Sorted String.le (Groups d)
  ∧ NoDup (Groups d)
  ∧ ∀ g : string,
      g ∈ Groups d ↔
        (∃ k p, Device.TextProperties d !! k = Some p ∧ TextProperty.Group p = g)
        ∨ (∃ k p, Device.SwitchProperties d !! k = Some p ∧ SwitchProperty.Group p = g)
        ∨ (∃ k p, Device.NumberProperties d !! k = Some p ∧ NumberProperty.Group p = g)
        ∨ (∃ k p, Device.LightProperties d !! k = Some p ∧ LightProperty.Group p = g)
        ∨ (∃ k p, Device.BlobProperties d !! k = Some p ∧ BlobProperty.Group p = g).
Proof.
  split; [apply Groups_sorted_nodup|]. split; [apply Groups_sorted_nodup|].
  unfold Groups, sort.Strings. intros g. rewrite merge_sort_Permutation.
  rewrite list_elem_of_fmap.
  transitivity (is_Some
    (markGroups NumberProperty.Group (Device.NumberProperties d)
      (markGroups BlobProperty.Group (Device.BlobProperties d)
        (markGroups SwitchProperty.Group (Device.SwitchProperties d)
          (markGroups TextProperty.Group (Device.TextProperties d)
            (markGroups LightProperty.Group (Device.LightProperties d) ∅)))) !! g)).
  { split.
    - intros ([k b] & -> & Hin). apply elem_of_map_to_list in Hin. eauto.
    - intros [b Hb]. exists (g, b). split; [done|].
      by apply elem_of_map_to_list. }
  rewrite !markGroups_lookup, lookup_empty.
  split; [|by intuition].
  intros W. repeat destruct W as [W|W]; [by destruct W|by eauto 6..].
Qed.

(** There is one such list: the result depends neither on the order in
    which the maps are ranged over nor on the sorting algorithm. *)
Lemma Groups_unique (d : Device.t) (l : list string) :
  Sorted String.le l → NoDup l → (∀ g, g ∈ l ↔ g ∈ Groups d) → l = Groups d.
Proof.
  intros Hsorted Hnodup Hsame.
  destruct (Groups_sorted_nodup d) as [Hs Hn].
  apply (Sorted_unique String.le); [done|done|].
  by apply NoDup_Permutation.
Qed.

(** [Test_Groups], scenario S6. *)
Example Groups_testDevice : Groups testDevice = ["Group A"; "Group B"].
Proof. vm_compute. reflexivity. Qed.

(** ** Shared facts *)

Lemma length_zero_iff (s : string) : String.length s = 0%nat ↔ s = "".
Proof. destruct s; simpl; split; (done || lia || congruence). Qed.

Lemma length_pos_iff (s : string) : (0 < String.length s)%nat ↔ s ≠ "".
Proof. destruct s; simpl; split; (done || lia || congruence). Qed.

Lemma findDevice_Some (name : string) (c : INDIClient.t) (d : Device.t) :
  INDIClient.devices c !! name = Some d → findDevice name c = (d, None).
Proof. unfold findDevice. by intros ->. Qed.

Lemma findDevice_None (name : string) (c : INDIClient.t) :
  INDIClient.devices c !! name = None →
  findDevice name c = (Device.zero, Some ErrDeviceNotFound).
Proof. unfold findDevice. by intros ->. Qed.

Lemma findOrCreateDevice_Some (name : string) (c : INDIClient.t) (d : Device.t) :
  INDIClient.devices c !! name = Some d → findOrCreateDevice name c = d.
Proof. unfold findOrCreateDevice. intros Hd. by rewrite (findDevice_Some _ _ _ Hd). Qed.

Lemma findOrCreateDevice_None (name : string) (c : INDIClient.t) :
  INDIClient.devices c !! name = None →
  findOrCreateDevice name c = Device.mk name ∅ ∅ ∅ ∅ ∅ [].
Proof. unfold findOrCreateDevice. intros Hd. by rewrite (findDevice_None _ _ Hd). Qed.

(** ** [delProperty] *)

(** Deleting every key that [Range] visits leaves no key. *)
Lemma range_delete_all {V} (m : gmap string V) :
  foldr (λ kv acc, delete kv.1 acc) m (map_to_list m) = ∅.
Proof.
  apply map_empty. intros k.
  assert (∀ (l : list (string * V)) (m0 : gmap string V),
    foldr (λ kv acc, delete kv.1 acc) m0 l !! k =
      if decide (k ∈ l.*1) then None else m0 !! k) as Hfold.
  { induction l as [|[k' v] l IH]; intros m0.
    - case_decide as Hin; [|done]. by apply elem_of_nil in Hin.
    - rewrite fmap_cons, foldr_cons. simpl fst.
      destruct (decide (k' = k)) as [->|Hne].
      + rewrite lookup_delete_eq. by rewrite decide_True by set_solver.
      + rewrite lookup_delete_ne, IH by done.
        destruct (decide (k ∈ l.*1)) as [Hin|Hin].
        * rewrite decide_True; [done|]. by apply elem_of_cons; right.
        * rewrite decide_False; [done|].
          intros [?|?]%elem_of_cons; [congruence|done]. }
  rewrite Hfold. destruct (decide _) as [|Hnin]; [done|].
  destruct (m !! k) as [v|] eqn:Hk; [|done].
  exfalso. apply Hnin, list_elem_of_fmap. exists (k, v).
  split; [done|]. by apply elem_of_map_to_list.
Qed.

Lemma delProperty_all (item : delProperty.t) (c : INDIClient.t) :
  delProperty.Device item = "" →
  delProperty item c = INDIClient.set_devices ∅ c.
Proof.
  intros Hd. unfold delProperty.
  rewrite bool_decide_eq_true_2 by by apply length_zero_iff.
  by rewrite range_delete_all.
Qed.

Lemma delProperty_device (item : delProperty.t) (c : INDIClient.t) :
  delProperty.Device item ≠ "" → delProperty.Name item = "" →
  delProperty item c =
    INDIClient.set_devices
      (delete (delProperty.Device item) (INDIClient.devices c)) c.
Proof.
  intros Hd Hn. unfold delProperty.
  rewrite bool_decide_eq_false_2 by by rewrite length_zero_iff.
  by rewrite bool_decide_eq_true_2 by by apply length_zero_iff.
Qed.

Lemma delProperty_property (item : delProperty.t) (c : INDIClient.t) :
  delProperty.Device item ≠ "" → delProperty.Name item ≠ "" →
  delProperty item c =
    let device := findOrCreateDevice (delProperty.Device item) c in
    INDIClient.set_devices
      (<[delProperty.Device item :=
           Device.mk (Device.Name device)
             (delete (delProperty.Name item) (Device.TextProperties device))
             (delete (delProperty.Name item) (Device.SwitchProperties device))
             (delete (delProperty.Name item) (Device.NumberProperties device))
             (delete (delProperty.Name item) (Device.BlobProperties device))
             (delete (delProperty.Name item) (Device.LightProperties device))
             (Device.Messages device)]> (INDIClient.devices c)) c.
Proof.
  intros Hd Hn. unfold delProperty.
  rewrite !bool_decide_eq_false_2 by by rewrite length_zero_iff.
  done.
Qed.

(** C4. [delProperty] changes the registry only, and doing it again
    changes nothing more.  With an empty device name the registry is left
    empty.  With a device name and no property name exactly that device is
    removed.  With both names, the device, when it is registered, keeps
    its name and messages and loses the property of that name in each of
    its five property maps, and no other device changes. *)
Theorem delProperty_tiers (item : delProperty.t) (c : INDIClient.t) :
  delProperty item c =
    INDIClient.set_devices (INDIClient.devices (delProperty item c)) c
  ∧ delProperty item (delProperty item c) = delProperty item c
  ∧ (delProperty.Device item = "" →
       INDIClient.devices (delProperty item c) = ∅)
  ∧ (delProperty.Device item ≠ "" → delProperty.Name item = "" →
       INDIClient.devices (delProperty item c)
         = delete (delProperty.Device item) (INDIClient.devices c))
  ∧ (delProperty.Device item ≠ "" → delProperty.Name item ≠ "" →
       (∀ name, name ≠ delProperty.Device item →
          INDIClient.devices (delProperty item c) !! name
            = INDIClient.devices c !! name)
       ∧ ∀ device, INDIClient.devices c !! delProperty.Device item = Some device →
           INDIClient.devices (delProperty item c) !! delProperty.Device item
             = Some (Device.mk (Device.Name device)
                 (delete (delProperty.Name item) (Device.TextProperties device))
                 (delete (delProperty.Name item) (Device.SwitchProperties device))
                 (delete (delProperty.Name item) (Device.NumberProperties device))
                 (delete (delProperty.Name item) (Device.BlobProperties device))
                 (delete (delProperty.Name item) (Device.LightProperties device))
                 (Device.Messages device))).
Proof.
  split_and!.
  - destruct (decide (delProperty.Device item = "")) as [Hd|Hd].
    { by rewrite delProperty_all. }
    destruct (decide (delProperty.Name item = "")) as [Hn|Hn].
    { by rewrite delProperty_device. }
    by rewrite delProperty_property.
  - destruct (decide (delProperty.Device item = "")) as [Hd|Hd].
    { by rewrite !delProperty_all. }
    destruct (decide (delProperty.Name item = "")) as [Hn|Hn].
    { rewrite !delProperty_device by done. simpl. by rewrite delete_delete_eq. }
    rewrite (delProperty_property item (delProperty item c)) by done.
    rewrite (delProperty_property item c) by done. cbn zeta.
    set (device := findOrCreateDevice (delProperty.Device item) c).
    erewrite findOrCreateDevice_Some;
      [|cbn [INDIClient.devices INDIClient.set_devices]; apply lookup_insert_eq].
    cbn [INDIClient.devices INDIClient.set_devices Device.Name
         Device.TextProperties Device.SwitchProperties Device.NumberProperties
         Device.BlobProperties Device.LightProperties Device.Messages].
    rewrite !delete_delete_eq, insert_insert_eq. reflexivity.
  - intros Hd. by rewrite delProperty_all.
  - intros Hd Hn. by rewrite delProperty_device.
  - intros Hd Hn. rewrite delProperty_property by done. simpl. split.
    + intros name Hne. by rewrite lookup_insert_ne.
    + intros device Hdev. rewrite lookup_insert_eq.
      by rewrite (findOrCreateDevice_Some _ _ _ Hdev).
Qed.

(** The theorem at the registered camera: its text property [Info] goes,
    its switch property [Binning] stays. *)
Lemma delProperty_tiers_witness :
  ∃ device,
    INDIClient.devices
      (delProperty (delProperty.mk "Camera" "Info" "" "") camera) !! "Camera"
      = Some device
    ∧ Device.TextProperties device !! "Info" = None
    ∧ is_Some (Device.SwitchProperties device !! "Binning").
Proof.
  destruct (delProperty_tiers (delProperty.mk "Camera" "Info" "" "") camera)
    as (_ & _ & _ & _ & Hprop).
  destruct Hprop as [_ Hdev]; [done|done|].
  eexists. split; [apply Hdev; vm_compute; reflexivity|].
  split; [apply lookup_delete_eq|]. vm_compute. eauto.
Defined.

(** C9. A [delProperty] that names a device and a property, for a device
    that is not registered, registers a fresh device of that name with
    five empty property maps and no messages. *)
Theorem delProperty_unknown_device_creates (item : delProperty.t)
    (c : INDIClient.t) :
  delProperty.Device item ≠ "" → delProperty.Name item ≠ "" →
  INDIClient.devices c !! delProperty.Device item = None →
  delProperty item c =
    INDIClient.set_devices
      (<[delProperty.Device item :=
           Device.mk (delProperty.Device item) ∅ ∅ ∅ ∅ ∅ []]>
         (INDIClient.devices c)) c.
Proof.
  intros Hd Hn Hnone. rewrite delProperty_property by done.
  rewrite (findOrCreateDevice_None _ _ Hnone). simpl.
  by rewrite !delete_empty.
Qed.

Lemma delProperty_unknown_device_creates_witness :
  INDIClient.devices
    (delProperty (delProperty.mk "Mount" "Park" "" "") (connected emptyFs))
    !! "Mount"
  = Some (Device.mk "Mount" ∅ ∅ ∅ ∅ ∅ []).
Proof.
  rewrite (delProperty_unknown_device_creates
             (delProperty.mk "Mount" "Park" "" "") (connected emptyFs));
    [apply lookup_insert_eq|done|done|reflexivity].
Defined.

(** ** The facade: [GetProperties] and [EnableBlob] *)

(** On a client that was never connected the send blocks, and after
    [Disconnect] it panics: the facade enqueues on a connected client. *)
Lemma send_open (cmd : Command) (c : INDIClient.t) (queue : list Command) :
  INDIClient.write c = openChan queue →
  send cmd c = Returns None (INDIClient.set_write (openChan (queue ++ [cmd])) c).
Proof. unfold send. by intros ->. Qed.

Lemma GetProperties_not_connected (fs : afero.Fs) :
  GetProperties "" "" (NewINDIClient fs) = Blocks (NewINDIClient fs).
Proof. reflexivity. Qed.

(** C7 (as the code has it).  [GetProperties] with a property name and no
    device name returns [ErrPropertyWithoutDevice] and leaves the client,
    and so the queue of commands, as it was.  In every other case it sends
    the [getProperties] command of version 1.7 for that device and
    property on the write channel.  On a connected client, whose channel
    is open, it returns nil with the command added at the end of the
    queue.  On a client that was never connected the channel is nil and
    the call blocks in the send; after [Disconnect] the channel is closed
    and the call panics; in both cases the client is left as it was. *)
Theorem GetProperties_spec (deviceName propName : string) (c : INDIClient.t) :
  (propName ≠ "" ∧ deviceName = "" →
     GetProperties deviceName propName c
       = Returns (Some ErrPropertyWithoutDevice) c)
  ∧ (¬ (propName ≠ "" ∧ deviceName = "") →
     let cmd := CmdGetProperties (getProperties.mk "1.7" deviceName propName) in
     GetProperties deviceName propName c = send cmd c
     ∧ (∀ queue, INDIClient.write c = openChan queue →
          GetProperties deviceName propName c
            = Returns None
                (INDIClient.set_write (openChan (queue ++ [cmd])) c))
     ∧ (INDIClient.write c = nilChan →
          GetProperties deviceName propName c = Blocks c)
     ∧ (∀ queue, INDIClient.write c = closedChan queue →
          GetProperties deviceName propName c = Panics c)).
Proof.
  unfold GetProperties. split.
  - intros [Hp Hd]. rewrite bool_decide_eq_true_2; [done|].
    by rewrite length_pos_iff, length_zero_iff.
  - intros Hno. cbv zeta. rewrite bool_decide_eq_false_2.
    + split_and!; [done| | |].
      * intros queue Hq. by apply send_open.
      * intros Hq. unfold send. by rewrite Hq.
      * intros queue Hq. unfold send. by rewrite Hq.
    + by rewrite length_pos_iff, length_zero_iff.
Qed.

Lemma GetProperties_spec_witness :
  GetProperties "" "CCD_EXPOSURE" (connected emptyFs)
    = Returns (Some ErrPropertyWithoutDevice) (connected emptyFs)
  ∧ GetProperties "" "" (connected emptyFs)
    = Returns None
        (INDIClient.set_write
           (openChan [CmdGetProperties (getProperties.mk "1.7" "" "")])
           (connected emptyFs)).
Proof.
  split.
  - apply (GetProperties_spec "" "CCD_EXPOSURE" (connected emptyFs)). done.
  - apply (proj1 (proj2 (proj2 (GetProperties_spec "" "" (connected emptyFs))
                           ltac:(intros [? _]; done))) []). reflexivity.
Defined.

(** C7 as stated fails.  [NewINDIClient] makes no channel, [Connect]
    does: on a new client [GetProperties] with two empty names passes its
    check, blocks in the send on the nil channel and returns nothing; on
    a channel that [Disconnect] has closed it panics. *)
Lemma GetProperties_blocks_before_Connect :
  GetProperties "" "" (NewINDIClient emptyFs) = Blocks (NewINDIClient emptyFs)
  ∧ (∀ err c, GetProperties "" "" (NewINDIClient emptyFs) ≠ Returns err c)
  ∧ GetProperties "" ""
      (INDIClient.set_write (closedChan []) (NewINDIClient emptyFs))
    = Panics (INDIClient.set_write (closedChan []) (NewINDIClient emptyFs)).
Proof. by split_and!. Qed.

Lemma BlobEnable_valid (val : BlobEnable) :
  val ∈ [BlobEnableNever; BlobEnableAlso; BlobEnableOnly] ↔
  ¬ (val ≠ BlobEnableAlso ∧ val ≠ BlobEnableNever ∧ val ≠ BlobEnableOnly).
Proof.
  rewrite !elem_of_cons, elem_of_nil. split.
  - intros [->|[->|[->|[]]]] (? & ? & ?); congruence.
  - intros Hno. destruct (decide (val = BlobEnableNever)); [by left|].
    destruct (decide (val = BlobEnableAlso)); [by right; left|].
    destruct (decide (val = BlobEnableOnly)); [by right; right; left|].
    by destruct Hno.
Qed.

(** C6 (as the code has it).  [EnableBlob] with a mode other than
    [Never], [Also] and [Only] returns [ErrInvalidBlobEnable]; with one of
    these modes and a device that is not registered it returns
    [ErrDeviceNotFound]; in both cases the client is left as it was.
    Otherwise it sends the [enableBLOB] command on the write channel.  On
    a connected client, whose channel is open, it returns nil with the
    command added at the end of the queue.  On a client that was never
    connected the channel is nil and the call blocks in the send; after
    [Disconnect] the channel is closed and the call panics; in both cases
    the client is left as it was. *)
Theorem EnableBlob_spec (deviceName propName : string) (val : BlobEnable)
    (c : INDIClient.t) :
  (val ∉ [BlobEnableNever; BlobEnableAlso; BlobEnableOnly] →
     EnableBlob deviceName propName val c
       = Returns (Some ErrInvalidBlobEnable) c)
  ∧ (val ∈ [BlobEnableNever; BlobEnableAlso; BlobEnableOnly] →
     INDIClient.devices c !! deviceName = None →
     EnableBlob deviceName propName val c
       = Returns (Some ErrDeviceNotFound) c)
  ∧ (val ∈ [BlobEnableNever; BlobEnableAlso; BlobEnableOnly] →
     is_Some (INDIClient.devices c !! deviceName) →
     let cmd := CmdEnableBlob (enableBlob.mk deviceName propName val) in
     EnableBlob deviceName propName val c = send cmd c
     ∧ (∀ queue, INDIClient.write c = openChan queue →
          EnableBlob deviceName propName val c
            = Returns None
                (INDIClient.set_write (openChan (queue ++ [cmd])) c))
     ∧ (INDIClient.write c = nilChan →
          EnableBlob deviceName propName val c = Blocks c)
     ∧ (∀ queue, INDIClient.write c = closedChan queue →
          EnableBlob deviceName propName val c = Panics c)).
Proof.
  unfold EnableBlob. split; [|split].
  - intros Hval. rewrite bool_decide_eq_true_2; [done|].
    rewrite BlobEnable_valid in Hval. by apply dec_stable.
  - intros Hval Hdev. rewrite bool_decide_eq_false_2.
    + by rewrite (findDevice_None _ _ Hdev).
    + by apply BlobEnable_valid.
  - intros Hval [d Hdev]. cbv zeta. rewrite bool_decide_eq_false_2.
    + rewrite (findDevice_Some _ _ _ Hdev). split_and!; [done| | |].
      * intros queue Hq. by apply send_open.
      * intros Hq. unfold send. by rewrite Hq.
      * intros queue Hq. unfold send. by rewrite Hq.
    + by apply BlobEnable_valid.
Qed.

Lemma EnableBlob_spec_witness :
  EnableBlob "Camera" "" "bogus" camera = Returns (Some ErrInvalidBlobEnable) camera
  ∧ EnableBlob "X" "" BlobEnableAlso (connected emptyFs)
    = Returns (Some ErrDeviceNotFound) (connected emptyFs)
  ∧ EnableBlob "Camera" "" BlobEnableAlso camera
    = Returns None
        (INDIClient.set_write
           (openChan [CmdEnableBlob (enableBlob.mk "Camera" "" BlobEnableAlso)])
           camera).
Proof.
  split; [|split].
  - apply (EnableBlob_spec "Camera" "" "bogus" camera).
    rewrite !not_elem_of_cons. repeat split; try discriminate. apply not_elem_of_nil.
  - apply (EnableBlob_spec "X" "" BlobEnableAlso (connected emptyFs)).
    + apply elem_of_cons; right. apply elem_of_cons; by left.
    + reflexivity.
  - apply (proj1 (proj2 (proj2 (proj2 (EnableBlob_spec "Camera" ""
                                          BlobEnableAlso camera))
                           ltac:(apply elem_of_cons; right;
                                 apply elem_of_cons; by left)
                           ltac:(vm_compute; eauto))) []).
    reflexivity.
Defined.

(** C6 as stated fails.  The device is registered and the mode is valid,
    but [Connect] was not called: the call blocks in the send on the nil
    channel and returns nothing; on a channel that [Disconnect] has closed
    it panics. *)
Lemma EnableBlob_blocks_before_Connect :
  INDIClient.devices unconnected !! "device1"
  = Some (Device.mk "device1" ∅ ∅ ∅ ∅ ∅ [])
  ∧ EnableBlob "device1" "" BlobEnableAlso unconnected = Blocks unconnected
  ∧ (∀ err c,
       EnableBlob "device1" "" BlobEnableAlso unconnected ≠ Returns err c)
  ∧ EnableBlob "device1" "" BlobEnableAlso
      (INDIClient.set_write (closedChan []) unconnected)
    = Panics (INDIClient.set_write (closedChan []) unconnected).
Proof. by split_and!. Qed.

(** C10. [EnableBlob] checks the mode before it looks the device up: with
    a mode other than [Never], [Also] and [Only] and a device that is not
    registered, the error is [ErrInvalidBlobEnable], not
    [ErrDeviceNotFound]. *)
Theorem EnableBlob_mode_checked_first (deviceName propName : string)
    (val : BlobEnable) (c : INDIClient.t) :
  val ∉ [BlobEnableNever; BlobEnableAlso; BlobEnableOnly] →
  INDIClient.devices c !! deviceName = None →
  EnableBlob deviceName propName val c = Returns (Some ErrInvalidBlobEnable) c
  ∧ EnableBlob deviceName propName val c ≠ Returns (Some ErrDeviceNotFound) c.
Proof.
  intros Hval _. unfold EnableBlob.
  rewrite bool_decide_eq_true_2.
  - split; [done|]. intros [=].
  - rewrite BlobEnable_valid in Hval. by apply dec_stable.
Qed.

Lemma EnableBlob_mode_checked_first_witness :
  EnableBlob "unknown" "" "bogus" (connected emptyFs)
    = Returns (Some ErrInvalidBlobEnable) (connected emptyFs).
Proof.
  apply (EnableBlob_mode_checked_first "unknown" "" "bogus" (connected emptyFs)).
  - rewrite !not_elem_of_cons. repeat split; try discriminate. apply not_elem_of_nil.
  - reflexivity.
Defined.

(** ** The facade: [SetTextValue], [SetNumberValue], [SetSwitchValue],
    [SetBlobValue] *)

Ltac set_value_cases :=
  repeat match goal with
    | |- _ ∧ _ => split
    | |- ∀ _, _ => intro
    | H : is_Some _ |- _ => destruct H
    | H : INDIClient.devices _ !! _ = Some _ |- _ =>
        rewrite (findDevice_Some _ _ _ H); clear H
    | H : INDIClient.devices _ !! _ = None |- _ =>
        rewrite (findDevice_None _ _ H); clear H
    | H : ?m !! ?k = _ |- context [?m !! ?k] => rewrite H; clear H
    | H : ?x = ?y |- context [decide (?x = ?y)] => rewrite (decide_True _ _ H)
    | H : ?x ≠ ?y |- context [decide (?x = ?y)] => rewrite (decide_False _ _ H)
    | |- send _ _ = Returns _ _ => by apply send_open
    end;
  try done.

(** C5 (as the code has it).  For [SetTextValue], [SetNumberValue],
    [SetSwitchValue] and [SetBlobValue]: a device that is not registered
    gives [ErrDeviceNotFound]; a property that the device does not have
    in the map of that kind gives [ErrPropertyNotFound]; a property with
    permission [ro] gives [ErrPropertyReadOnly], whether or not it has the
    value; a property that is not [ro] and does not have the value gives
    [ErrPropertyValueNotFound]; in all four cases the client, and so the
    queue of commands, is left as it was.  Otherwise the state of the
    property is [Busy] in the registry when the command is sent, and on a
    connected client the call returns nil with the [new*Vector] command,
    which carries the one changed value, added at the end of the queue. *)
Theorem SetValue_spec :
  (∀ (deviceName propName textName textValue : string) (c : INDIClient.t),
     (INDIClient.devices c !! deviceName = None →
        SetTextValue deviceName propName textName textValue c
          = Returns (Some ErrDeviceNotFound) c)
     ∧ ∀ device, INDIClient.devices c !! deviceName = Some device →
         (Device.TextProperties device !! propName = None →
            SetTextValue deviceName propName textName textValue c
              = Returns (Some ErrPropertyNotFound) c)
         ∧ ∀ prop, Device.TextProperties device !! propName = Some prop →
             (TextProperty.Permissions prop = PropertyPermissionReadOnly →
                SetTextValue deviceName propName textName textValue c
                  = Returns (Some ErrPropertyReadOnly) c)
             ∧ (TextProperty.Permissions prop ≠ PropertyPermissionReadOnly →
                TextProperty.Values prop !! textName = None →
                SetTextValue deviceName propName textName textValue c
                  = Returns (Some ErrPropertyValueNotFound) c)
             ∧ (TextProperty.Permissions prop ≠ PropertyPermissionReadOnly →
                is_Some (TextProperty.Values prop !! textName) →
                let busy :=
                  INDIClient.set_devices
                    (<[deviceName :=
                         Device.set_TextProperties
                           (<[propName := TextProperty.set_State PropertyStateBusy prop]>
                              (Device.TextProperties device)) device]>
                       (INDIClient.devices c)) c in
                let cmd :=
                  CmdNewTextVector
                    (newTextVector.mk deviceName propName ""
                       [oneText.mk textName textValue]) in
                SetTextValue deviceName propName textName textValue c = send cmd busy
                ∧ ∀ queue, INDIClient.write c = openChan queue →
                    SetTextValue deviceName propName textName textValue c
                      = Returns None
                          (INDIClient.set_write (openChan (queue ++ [cmd])) busy)))
  ∧
  (∀ (deviceName propName NumberName NumberValue : string) (c : INDIClient.t),
     (INDIClient.devices c !! deviceName = None →
        SetNumberValue deviceName propName NumberName NumberValue c
          = Returns (Some ErrDeviceNotFound) c)
     ∧ ∀ device, INDIClient.devices c !! deviceName = Some device →
         (Device.NumberProperties device !! propName = None →
            SetNumberValue deviceName propName NumberName NumberValue c
              = Returns (Some ErrPropertyNotFound) c)
         ∧ ∀ prop, Device.NumberProperties device !! propName = Some prop →
             (NumberProperty.Permissions prop = PropertyPermissionReadOnly →
                SetNumberValue deviceName propName NumberName NumberValue c
                  = Returns (Some ErrPropertyReadOnly) c)
             ∧ (NumberProperty.Permissions prop ≠ PropertyPermissionReadOnly →
                NumberProperty.Values prop !! NumberName = None →
                SetNumberValue deviceName propName NumberName NumberValue c
                  = Returns (Some ErrPropertyValueNotFound) c)
             ∧ (NumberProperty.Permissions prop ≠ PropertyPermissionReadOnly →
                is_Some (NumberProperty.Values prop !! NumberName) →
                let busy :=
                  INDIClient.set_devices
                    (<[deviceName :=
                         Device.set_NumberProperties
                           (<[propName := NumberProperty.set_State PropertyStateBusy prop]>
                              (Device.NumberProperties device)) device]>
                       (INDIClient.devices c)) c in
                let cmd :=
                  CmdNewNumberVector
                    (newNumberVector.mk deviceName propName ""
                       [oneNumber.mk NumberName NumberValue]) in
                SetNumberValue deviceName propName NumberName NumberValue c
                  = send cmd busy
                ∧ ∀ queue, INDIClient.write c = openChan queue →
                    SetNumberValue deviceName propName NumberName NumberValue c
                      = Returns None
                          (INDIClient.set_write (openChan (queue ++ [cmd])) busy)))
  ∧
  (∀ (deviceName propName switchName : string) (switchValue : SwitchState) (c : INDIClient.t),
     (INDIClient.devices c !! deviceName = None →
        SetSwitchValue deviceName propName switchName switchValue c
          = Returns (Some ErrDeviceNotFound) c)
     ∧ ∀ device, INDIClient.devices c !! deviceName = Some device →
         (Device.SwitchProperties device !! propName = None →
            SetSwitchValue deviceName propName switchName switchValue c
              = Returns (Some ErrPropertyNotFound) c)
         ∧ ∀ prop, Device.SwitchProperties device !! propName = Some prop →
             (SwitchProperty.Permissions prop = PropertyPermissionReadOnly →
                SetSwitchValue deviceName propName switchName switchValue c
                  = Returns (Some ErrPropertyReadOnly) c)
             ∧ (SwitchProperty.Permissions prop ≠ PropertyPermissionReadOnly →
                SwitchProperty.Values prop !! switchName = None →
                SetSwitchValue deviceName propName switchName switchValue c
                  = Returns (Some ErrPropertyValueNotFound) c)
             ∧ (SwitchProperty.Permissions prop ≠ PropertyPermissionReadOnly →
                is_Some (SwitchProperty.Values prop !! switchName) →
                let busy :=
                  INDIClient.set_devices
                    (<[deviceName :=
                         Device.set_SwitchProperties
                           (<[propName := SwitchProperty.set_State PropertyStateBusy prop]>
                              (Device.SwitchProperties device)) device]>
                       (INDIClient.devices c)) c in
                let cmd :=
                  CmdNewSwitchVector
                    (newSwitchVector.mk deviceName propName ""
                       [oneSwitch.mk switchName switchValue]) in
                SetSwitchValue deviceName propName switchName switchValue c
                  = send cmd busy
                ∧ ∀ queue, INDIClient.write c = openChan queue →
                    SetSwitchValue deviceName propName switchName switchValue c
                      = Returns None
                          (INDIClient.set_write (openChan (queue ++ [cmd])) busy)))
  ∧
  (∀ (deviceName propName blobName blobValue blobFormat : string) (blobSize : Z) (c : INDIClient.t),
     (INDIClient.devices c !! deviceName = None →
        SetBlobValue deviceName propName blobName blobValue blobFormat blobSize c
          = Returns (Some ErrDeviceNotFound) c)
     ∧ ∀ device, INDIClient.devices c !! deviceName = Some device →
         (Device.BlobProperties device !! propName = None →
            SetBlobValue deviceName propName blobName blobValue blobFormat blobSize c
              = Returns (Some ErrPropertyNotFound) c)
         ∧ ∀ prop, Device.BlobProperties device !! propName = Some prop →
             (BlobProperty.Permissions prop = PropertyPermissionReadOnly →
                SetBlobValue deviceName propName blobName blobValue blobFormat blobSize c
                  = Returns (Some ErrPropertyReadOnly) c)
             ∧ (BlobProperty.Permissions prop ≠ PropertyPermissionReadOnly →
                BlobProperty.Values prop !! blobName = None →
                SetBlobValue deviceName propName blobName blobValue blobFormat blobSize c
                  = Returns (Some ErrPropertyValueNotFound) c)
             ∧ (BlobProperty.Permissions prop ≠ PropertyPermissionReadOnly →
                is_Some (BlobProperty.Values prop !! blobName) →
                let busy :=
                  INDIClient.set_devices
                    (<[deviceName :=
                         Device.set_BlobProperties
                           (<[propName := BlobProperty.set_State PropertyStateBusy prop]>
                              (Device.BlobProperties device)) device]>
                       (INDIClient.devices c)) c in
                let cmd :=
                  CmdNewBlobVector
                    (newBlobVector.mk deviceName propName ""
                       [oneBlob.mk blobName blobSize blobFormat blobValue]) in
                SetBlobValue deviceName propName blobName blobValue blobFormat blobSize c
                  = send cmd busy
                ∧ ∀ queue, INDIClient.write c = openChan queue →
                    SetBlobValue deviceName propName blobName blobValue blobFormat
                      blobSize c
                      = Returns None
                          (INDIClient.set_write (openChan (queue ++ [cmd])) busy))).
Proof.
  split; [|split; [|split]]; intros until c;
    [unfold SetTextValue|unfold SetNumberValue|unfold SetSwitchValue
    |unfold SetBlobValue]; set_value_cases.
Qed.

(** The theorem at the camera: its switch property [Binning] is [wo] and
    has the value [Two]. *)
Lemma SetValue_spec_witness :
  ∃ device prop,
    INDIClient.devices camera !! "Camera" = Some device
    ∧ Device.SwitchProperties device !! "Binning" = Some prop
    ∧ SetSwitchValue "Camera" "Binning" "Two" SwitchStateOn camera
      = Returns None
          (INDIClient.set_write
             (openChan
                [CmdNewSwitchVector
                   (newSwitchVector.mk "Camera" "Binning" ""
                      [oneSwitch.mk "Two" SwitchStateOn])])
             (INDIClient.set_devices
                (<["Camera" :=
                     Device.set_SwitchProperties
                       (<["Binning" :=
                            SwitchProperty.set_State PropertyStateBusy prop]>
                          (Device.SwitchProperties device)) device]>
                   (INDIClient.devices camera)) camera)).
Proof.
  destruct SetValue_spec as (_ & _ & Hswitch & _).
  destruct (Hswitch "Camera" "Binning" "Two" SwitchStateOn camera) as [_ Hdev].
  eexists. eexists. split; [vm_compute; reflexivity|].
  split; [vm_compute; reflexivity|].
  eapply (proj2 (proj2 (proj2 (proj2 (Hdev _ ltac:(vm_compute; reflexivity)) _
            ltac:(vm_compute; reflexivity)))
            ltac:(discriminate) ltac:(vm_compute; eauto)) []).
  reflexivity.
Defined.

(** C5 as stated fails.  The text property [Info] of the camera is [ro]
    and has no value [Serial]: the call returns [ErrPropertyReadOnly], not
    [ErrPropertyValueNotFound], because the permission is checked before
    the value is looked up. *)
Lemma SetTextValue_read_only_before_value :
  ∃ device prop,
    INDIClient.devices camera !! "Camera" = Some device
    ∧ Device.TextProperties device !! "Info" = Some prop
    ∧ TextProperty.Values prop !! "Serial" = None
    ∧ SetTextValue "Camera" "Info" "Serial" "42" camera
      = Returns (Some ErrPropertyReadOnly) camera
    ∧ SetTextValue "Camera" "Info" "Serial" "42" camera
      ≠ Returns (Some ErrPropertyValueNotFound) camera.
Proof.
  eexists. eexists. split; [vm_compute; reflexivity|].
  split; [vm_compute; reflexivity|].
  split; [vm_compute; reflexivity|].
  assert (SetTextValue "Camera" "Info" "Serial" "42" camera
          = Returns (Some ErrPropertyReadOnly) camera) as Hro
    by (vm_compute; reflexivity).
  split; [exact Hro|]. rewrite Hro. intros [=].
Qed.

(** ** The dispatcher: [set*Vector] *)

Lemma rangeSet_lookup {O V} (name : O → string) (upd : O → V → V)
    (vals : list O) (values : gmap string V) (k : string) :
  rangeSet name upd vals values !! k =
    (λ v, foldl (λ v val, if decide (name val = k) then upd val v else v) v vals)
      <$> values !! k.
Proof.
  unfold rangeSet. revert values.
  induction vals as [|val vals IH]; intros values; simpl.
  - by destruct (values !! k).
  - rewrite IH. destruct (values !! name val) as [v|] eqn:Hv.
    + destruct (decide (name val = k)) as [<-|Hne].
      * by rewrite lookup_insert_eq, Hv.
      * rewrite lookup_insert_ne by done. by destruct (values !! k).
    + destruct (decide (name val = k)) as [<-|Hne].
      * by rewrite Hv.
      * by destruct (values !! k).
Qed.

Lemma foldl_last_named {O V} (name : O → string) (upd : O → V → V)
    (vals : list O) (k : string) (v : V) :
  (∀ val val' v, upd val (upd val' v) = upd val v) →
  foldl (λ v val, if decide (name val = k) then upd val v else v) v vals =
    match lastNamed name k vals with
    | Some val => upd val v
    | None => v
    end.
Proof.
  intros Hupd. unfold lastNamed.
  induction vals as [|val vals IH] using rev_ind; [done|].
  rewrite foldl_app, filter_app, IH. cbn [foldl].
  destruct (decide (name val = k)) as [Hk|Hk].
  - rewrite filter_cons_True by done. rewrite filter_nil, last_snoc.
    by destruct (last _).
  - rewrite filter_cons_False by done. by rewrite filter_nil, app_nil_r.
Qed.

(** The values of a property after the loop of a [set*Vector] handler. *)
Lemma rangeSet_last {O V} (name : O → string) (upd : O → V → V)
    (vals : list O) (values : gmap string V) (k : string) :
  (∀ val val' v, upd val (upd val' v) = upd val v) →
  rangeSet name upd vals values !! k =
    (λ v, match lastNamed name k vals with
          | Some val => upd val v
          | None => v
          end) <$> values !! k.
Proof.
  intros Hupd. rewrite rangeSet_lookup. destruct (values !! k); [|done].
  simpl. by rewrite foldl_last_named.
Qed.

Section handlers.
Context {runtime : Runtime}.

(** What [time.Now], the computation of [LastUpdated] and the message
    block leave unchanged. *)
Lemma updateTime_spec (timestamp : string) (c : INDIClient.t) :
  (updateTime timestamp c).1
    = (if decide (timestamp = "") then time_Now (INDIClient.clock c)
       else match time_ParseInLocation "2006-01-02T15:04:05.9" timestamp with
            | inr t => t
            | inl _ => time_Now (INDIClient.clock c)
            end)
  ∧ INDIClient.devices (updateTime timestamp c).2 = INDIClient.devices c
  ∧ INDIClient.fs (updateTime timestamp c).2 = INDIClient.fs c
  ∧ INDIClient.write (updateTime timestamp c).2 = INDIClient.write c
  ∧ INDIClient.blobStreams (updateTime timestamp c).2 = INDIClient.blobStreams c.
Proof.
  unfold updateTime. destruct (decide (timestamp = "")) as [->|Hne].
  - done.
  - rewrite bool_decide_eq_false_2 by by rewrite length_zero_iff.
    by destruct (time_ParseInLocation _ _).
Qed.

Lemma appendMessage_spec (text : string) (messages : list Message.t)
    (c : INDIClient.t) :
  (text = "" → (appendMessage text messages c).1 = messages)
  ∧ (text ≠ "" →
     ∃ t, (appendMessage text messages c).1 = messages ++ [Message.mk t text])
  ∧ INDIClient.devices (appendMessage text messages c).2 = INDIClient.devices c
  ∧ INDIClient.fs (appendMessage text messages c).2 = INDIClient.fs c
  ∧ INDIClient.write (appendMessage text messages c).2 = INDIClient.write c
  ∧ INDIClient.blobStreams (appendMessage text messages c).2
    = INDIClient.blobStreams c
  ∧ INDIClient.log (appendMessage text messages c).2 = INDIClient.log c.
Proof.
  unfold appendMessage. destruct (decide (text = "")) as [->|Hne].
  - by repeat split.
  - rewrite bool_decide_eq_true_2 by by rewrite length_pos_iff.
    repeat split; try done. intros _. by eexists.
Qed.

End handlers.

(** ** The BLOB sink *)

Lemma blobFrame_refl (paths : list string) (c : INDIClient.t) :
  blobFrame paths c c.
Proof. by repeat split. Qed.

Lemma blobFrame_trans (paths : list string) (c1 c2 c3 : INDIClient.t) :
  blobFrame paths c1 c2 → blobFrame paths c2 c3 → blobFrame paths c1 c3.
Proof.
  intros (? & ? & ? & ? & Hf1 & Hs1) (? & ? & ? & ? & Hf2 & Hs2).
  split; [congruence|]. split; [congruence|]. split; [congruence|].
  split; [congruence|]. split.
  - intros f Hne. by rewrite Hf2, Hf1.
  - intros key id. by rewrite Hs2, Hs1.
Qed.

Lemma blobFrame_mono (paths paths' : list string) (c c' : INDIClient.t) :
  paths ⊆ paths' → blobFrame paths c c' → blobFrame paths' c c'.
Proof.
  intros Hsub (? & ? & ? & ? & Hf & ?). unfold blobFrame. split_and!; try done.
  intros f Hnin. apply Hf. intros Hin. by apply Hnin, Hsub.
Qed.

Lemma blobFrame_Warn (paths : list string) fields err msg (c : INDIClient.t) :
  blobFrame paths c (Warn fields err msg c).
Proof. by repeat split. Qed.

Lemma subscriber_insert (key id key' id' : string) (pw : PipeWriter.t)
    (wss : gmap string PipeWriter.t) (c c' : INDIClient.t) :
  INDIClient.blobStreams c !! key = Some wss →
  INDIClient.blobStreams c' = <[key := <[id := pw]> wss]> (INDIClient.blobStreams c) →
  subscriber key' id' c'
  = if decide (key' = key ∧ id' = id) then Some pw else subscriber key' id' c.
Proof.
  intros Hwss Hc'. unfold subscriber. rewrite Hc'.
  destruct (decide (key' = key)) as [->|Hk].
  - rewrite lookup_insert_eq, Hwss. simpl.
    destruct (decide (id' = id)) as [->|Hi].
    + rewrite lookup_insert_eq. by rewrite decide_True.
    + rewrite lookup_insert_ne by done. rewrite decide_False; [done|]. by intros [_ ?].
  - rewrite lookup_insert_ne by done. rewrite decide_False; [done|]. by intros [? _].
Qed.

Lemma Writer_Write_frame (f : string) (w : Writer) (p : list byte)
    (c : INDIClient.t) :
  (∀ f', w = FileW f' → f' = f) →
  blobFrame [f] c (Writer_Write w p c).2.
Proof.
  intros Hf. destruct w as [key id|f']; simpl.
  - destruct (INDIClient.blobStreams c !! key) as [wss|] eqn:Hwss;
      [|apply blobFrame_refl].
    destruct (wss !! id) as [pw|] eqn:Hpw; [|apply blobFrame_refl].
    destruct (PipeWriter.closed pw) eqn:Hclosed; [apply blobFrame_refl|].
    unfold blobFrame. split_and!; try done. intros key' id'.
    erewrite (subscriber_insert key id key' id' _ wss c);
      [|exact Hwss|reflexivity].
    destruct (decide _) as [[-> ->]|]; [|done].
    unfold subscriber. rewrite Hwss. simpl. by rewrite Hpw, <-Hclosed.
  - rewrite (Hf f' eq_refl). unfold blobFrame. split_and!; try done.
    intros f'' Hne. simpl. rewrite lookup_insert_ne; [done|].
    intros <-. apply Hne. by left.
Qed.

Lemma MultiWriter_Write_frame (f : string) (writers : list Writer)
    (p : list byte) (c : INDIClient.t) :
  Forall (λ w, ∀ f', w = FileW f' → f' = f) writers →
  blobFrame [f] c (MultiWriter_Write writers p c).2.
Proof.
  intros Hws. revert c. induction Hws as [|w writers Hw _ IH]; intros c; simpl.
  - apply blobFrame_refl.
  - pose proof (Writer_Write_frame f w p c Hw) as Hfr.
    destruct (Writer_Write w p c) as [[n [e|]] c1]; simpl in *; [done|].
    case_bool_decide; simpl; [done|].
    eapply blobFrame_trans; [done|apply IH].
Qed.

Lemma Copy_loop_frame (f : string) (dst : list Writer)
    (chunks : list (list byte)) (rerr : option error) (written : Z)
    (c : INDIClient.t) :
  Forall (λ w, ∀ f', w = FileW f' → f' = f) dst →
  blobFrame [f] c (Copy_loop dst chunks rerr written c).2.
Proof.
  intros Hws. revert written c.
  induction chunks as [|p chunks IH]; intros written c; simpl.
  - apply blobFrame_refl.
  - case_bool_decide; [|apply IH].
    pose proof (MultiWriter_Write_frame f dst p c Hws) as Hfr.
    destruct (MultiWriter_Write dst p c) as [[nw [e|]] c1]; simpl in *; [done|].
    case_bool_decide; simpl; [done|].
    eapply blobFrame_trans; [done|apply IH].
Qed.

Lemma sink_writers (key f : string) (ids : list string) :
  Forall (λ w, ∀ f', w = FileW f' → f' = f) ((PipeW key <$> ids) ++ [FileW f]).
Proof.
  apply Forall_app. split.
  - apply Forall_fmap, Forall_forall. by intros id _ f' [=].
  - apply Forall_singleton. by intros f' [= ->].
Qed.

Lemma allOpen_frame (paths : list string) (key : string) (ids : list string)
    (c c' : INDIClient.t) :
  blobFrame paths c c' → allOpen key ids c → allOpen key ids c'.
Proof.
  intros (_ & _ & _ & _ & _ & Hsub) Hopen id Hin.
  destruct (Hopen id Hin) as (pw & Hpw & Hcl).
  specialize (Hsub key id). rewrite Hpw in Hsub.
  destruct (subscriber key id c') as [pw'|]; [|done].
  exists pw'. split; [done|]. simpl in Hsub. congruence.
Qed.

(** When every subscriber is open, a block reaches each of them and is
    added at the end of the sink file. *)
Lemma MultiWriter_Write_ok (key f : string) (ids : list string)
    (p : list byte) (c : INDIClient.t) :
  allOpen key ids c →
  (MultiWriter_Write ((PipeW key <$> ids) ++ [FileW f]) p c).1
    = (Z.of_nat (length p), None)
  ∧ INDIClient.fs (MultiWriter_Write ((PipeW key <$> ids) ++ [FileW f]) p c).2
    = afero.Write f p (INDIClient.fs c).
Proof.
  revert c. induction ids as [|id ids IH]; intros c Hopen.
  - simpl. by rewrite bool_decide_eq_false_2 by (by intros []).
  - rewrite fmap_cons. cbn [app MultiWriter_Write].
    pose proof (Writer_Write_frame f (PipeW key id) p c ltac:(done)) as Hfr.
    destruct (Hopen id) as (pw & Hpw & Hcl); [by left|].
    assert (∃ c1, Writer_Write (PipeW key id) p c
                  = ((Z.of_nat (length p), None), c1)
                  ∧ INDIClient.fs c1 = INDIClient.fs c) as (c1 & Hw & Hfs).
    { unfold subscriber in Hpw. simpl.
      destruct (INDIClient.blobStreams c !! key) as [wss|]; [|done].
      simpl in Hpw. rewrite Hpw, Hcl. by eexists. }
    rewrite Hw in Hfr |- *. simpl in Hfr.
    rewrite bool_decide_eq_false_2 by (by intros []).
    rewrite <-Hfs. apply IH.
    eapply allOpen_frame; [done|]. intros id' Hin. apply Hopen. by right.
Qed.

Lemma Copy_loop_ok (key f : string) (ids : list string)
    (chunks : list (list byte)) (rerr : option error) (written : Z)
    (c : INDIClient.t) (content : list byte) :
  allOpen key ids c →
  afero.files (INDIClient.fs c) !! f = Some content →
  (Copy_loop ((PipeW key <$> ids) ++ [FileW f]) chunks rerr written c).1
    = ((written + Z.of_nat (length (concat chunks)))%Z, rerr)
  ∧ afero.files
      (INDIClient.fs
         (Copy_loop ((PipeW key <$> ids) ++ [FileW f]) chunks rerr written c).2)
      !! f = Some (content ++ concat chunks).
Proof.
  revert written c content.
  induction chunks as [|p chunks IH]; intros written c content Hopen Hf.
  - simpl. rewrite Z.add_0_r, app_nil_r. done.
  - cbn [Copy_loop concat]. case_bool_decide as Hp.
    + destruct (MultiWriter_Write_ok key f ids p c Hopen) as [Hres Hfs].
      pose proof (MultiWriter_Write_frame f _ p c (sink_writers key f ids)) as Hfr.
      destruct (MultiWriter_Write _ p c) as [[nw ew] c1]. simpl in *.
      injection Hres as -> ->.
      rewrite bool_decide_eq_false_2 by (by intros []).
      destruct (IH (written + Z.of_nat (length p))%Z c1 (content ++ p))
        as [IH1 IH2].
      { by eapply allOpen_frame. }
      { rewrite Hfs. unfold afero.Write. cbn [afero.files].
        by rewrite lookup_insert_eq, Hf. }
      rewrite IH1, IH2. rewrite length_app, <-app_assoc. split; [|done].
      f_equal. lia.
    + assert (p = []) as -> by (destruct p; [done|simpl in Hp; lia]).
      simpl. by apply IH.
Qed.

Lemma OpenFile_create_trunc (name : string) (fs : afero.Fs) :
  afero.openErr fs name = None →
  afero.OpenFile name (Z.lor (Z.lor os.O_CREATE os.O_WRONLY) os.O_TRUNC) 438 fs
    = inr (name, afero.mkFs (<[name := []]> (afero.files fs)) (afero.openErr fs)).
Proof.
  intros He. unfold afero.OpenFile. rewrite He.
  by destruct (afero.files fs !! name).
Qed.

Lemma OpenFile_refused (name : string) (flag perm : Z) (fs : afero.Fs) (e : error) :
  afero.openErr fs name = Some e → afero.OpenFile name flag perm fs = inl e.
Proof. intros He. unfold afero.OpenFile. by rewrite He. Qed.

Section sink.
Context {runtime : Runtime}.

(** The subscribers [setBlob] collects for a key. *)
Lemma sink_ids (key : string) (c : INDIClient.t) :
  ∃ ids,
    match INDIClient.blobStreams c !! key with
    | Some wss => PipeW key <$> (map_to_list wss).*1
    | None => []
    end = PipeW key <$> ids
    ∧ ∀ id, id ∈ ids → is_Some (subscriber key id c).
Proof.
  unfold subscriber. destruct (INDIClient.blobStreams c !! key) as [wss|].
  - exists ((map_to_list wss).*1). split; [done|]. intros id Hin. simpl.
    apply list_elem_of_fmap in Hin as ([id' pw] & -> & Hin).
    apply elem_of_map_to_list in Hin. eauto.
  - exists []. split; [done|]. intros id Hin. by apply elem_of_nil in Hin.
Qed.

Lemma open_truncates (f : string) (fs : afero.Fs) (c : INDIClient.t) :
  afero.openErr fs = afero.openErr (INDIClient.fs c) →
  afero.files fs = <[f := []]> (afero.files (INDIClient.fs c)) →
  blobFrame [f] c (INDIClient.set_fs fs c).
Proof.
  intros He Hf. unfold blobFrame. split_and!; try done.
  intros f' Hnin. simpl. rewrite Hf, lookup_insert_ne; [done|].
  intros <-. apply Hnin. by left.
Qed.

(** One turn of the loop of [setBlobVector]: it touches one sink file
    and one value, never adds a value, and keeps the name and label of
    the value it touches. *)
Lemma setBlob_frame (item : setBlobVector.t)
    (values : gmap string BlobValue.t) (c : INDIClient.t) (val : oneBlob.t) :
  blobFrame [sinkPath item val] c (setBlob item (values, c) val).2
  ∧ (∀ k, k ≠ oneBlob.Name val →
       (setBlob item (values, c) val).1 !! k = values !! k)
  ∧ (values !! oneBlob.Name val = None →
       setBlob item (values, c) val = (values, c))
  ∧ (∀ v, values !! oneBlob.Name val = Some v →
       ∃ v', (setBlob item (values, c) val).1 !! oneBlob.Name val = Some v'
             ∧ BlobValue.Name v' = BlobValue.Name v
             ∧ BlobValue.Label v' = BlobValue.Label v).
Proof.
  unfold setBlob. fold (sinkPath item val).
  destruct (values !! oneBlob.Name val) as [v|] eqn:Hv; cbv beta iota.
  2:{ split_and!; try done; apply blobFrame_refl. }
  destruct (afero.openErr (INDIClient.fs c) (sinkPath item val)) as [e|] eqn:He.
  { rewrite (OpenFile_refused _ _ _ _ _ He). simpl.
    split_and!;
      first [done | apply blobFrame_Warn | by intros ? [= <-]; eauto]. }
  rewrite (OpenFile_create_trunc _ _ He).
  set (c0 := INDIClient.set_fs _ c).
  assert (blobFrame [sinkPath item val] c c0) as Hfr0 by by apply open_truncates.
  destruct (sink_ids
    (blobKey (setBlobVector.Device item) (setBlobVector.Name item)
       (oneBlob.Name val)) c0) as (ids & -> & _).
  unfold io_Copy. unfold afero.Name.
  pose proof (Copy_loop_frame (sinkPath item val) _
    (io.chunks (base64_NewDecoder (strings.TrimSpace (oneBlob.Value val))))
    (io.rerr (base64_NewDecoder (strings.TrimSpace (oneBlob.Value val)))) 0 c0
    (sink_writers
       (blobKey (setBlobVector.Device item) (setBlobVector.Name item)
          (oneBlob.Name val)) (sinkPath item val) ids)) as Hfr1.
  destruct (Copy_loop _ _ _ _ c0) as [[written [e|]] c1]; simpl in *.
  - split_and!;
      first [ done
            | by intros ? [= <-]; eauto
            | eapply blobFrame_trans; [done|];
              eapply blobFrame_trans; [done|apply blobFrame_Warn] ].
  - split_and!;
      first [ done
            | by eapply blobFrame_trans
            | by intros k Hk; rewrite lookup_insert_ne
            | by intros ? [= <-]; rewrite lookup_insert_eq; eauto ].
Qed.

(** A turn of the loop for a value that is defined, with a sink file
    that opens, open subscribers and a payload that decodes: the file
    holds the decoded payload and nothing else, the value holds the path
    of the file and the number of bytes. *)
Lemma setBlob_ok (item : setBlobVector.t)
    (values : gmap string BlobValue.t) (c : INDIClient.t) (val : oneBlob.t)
    (v : BlobValue.t) :
  let r := base64_NewDecoder (strings.TrimSpace (oneBlob.Value val)) in
  values !! oneBlob.Name val = Some v →
  afero.openErr (INDIClient.fs c) (sinkPath item val) = None →
  (∀ id pw,
     subscriber
       (blobKey (setBlobVector.Device item) (setBlobVector.Name item)
          (oneBlob.Name val)) id c = Some pw →
     PipeWriter.closed pw = false) →
  io.rerr r = None →
  (setBlob item (values, c) val).1
    = <[oneBlob.Name val :=
          BlobValue.mk (BlobValue.Name v) (BlobValue.Label v)
            (sinkPath item val)
            (Z.of_nat (length (concat (io.chunks r))))]> values
  ∧ afero.files (INDIClient.fs (setBlob item (values, c) val).2)
      !! sinkPath item val = Some (concat (io.chunks r)).
Proof.
  intros r Hv He Hopen Hr. unfold setBlob. fold (sinkPath item val).
  rewrite Hv. rewrite (OpenFile_create_trunc _ _ He).
  set (c0 := INDIClient.set_fs _ c).
  destruct (sink_ids
    (blobKey (setBlobVector.Device item) (setBlobVector.Name item)
       (oneBlob.Name val)) c0) as (ids & -> & Hids).
  unfold io_Copy. fold r.
  destruct (Copy_loop_ok
    (blobKey (setBlobVector.Device item) (setBlobVector.Name item)
       (oneBlob.Name val))
    (sinkPath item val) ids (io.chunks r) (io.rerr r) 0 c0 [])
    as [Hres Hfile].
  { intros id Hin. destruct (Hids id Hin) as [pw Hpw].
    exists pw. split; [done|]. by apply (Hopen id). }
  { subst c0. simpl. by rewrite lookup_insert_eq. }
  destruct (Copy_loop _ _ _ _ c0) as [[written e] c1]. simpl in *.
  injection Hres as -> ->. rewrite Hr. simpl. done.
Qed.

(** The loop of [setBlobVector]. *)
Lemma setBlobs_frame (item : setBlobVector.t) (vals : list oneBlob.t)
    (values : gmap string BlobValue.t) (c : INDIClient.t) :
  blobFrame (sinkPath item <$> vals) c (foldl (setBlob item) (values, c) vals).2
  ∧ (∀ k, k ∉ oneBlob.Name <$> vals →
       (foldl (setBlob item) (values, c) vals).1 !! k = values !! k)
  ∧ (∀ k, values !! k = None →
       (foldl (setBlob item) (values, c) vals).1 !! k = None)
  ∧ (∀ k v, values !! k = Some v →
       ∃ v', (foldl (setBlob item) (values, c) vals).1 !! k = Some v'
             ∧ BlobValue.Name v' = BlobValue.Name v
             ∧ BlobValue.Label v' = BlobValue.Label v).
Proof.
  revert values c. induction vals as [|val vals IH]; intros values c.
  { simpl. split_and!; eauto using blobFrame_refl. }
  cbn [foldl]. rewrite !fmap_cons.
  destruct (setBlob_frame item values c val) as (Hfr & Hother & Hnone & Hsome).
  destruct (setBlob item (values, c) val) as [values1 c1] eqn:Hstep.
  simpl in Hfr, Hother, Hsome.
  destruct (IH values1 c1) as (IHfr & IHother & IHnone & IHsome).
  split_and!.
  - eapply blobFrame_trans.
    + eapply blobFrame_mono; [|exact Hfr]. intros f Hf. apply elem_of_cons.
      left. by apply list_elem_of_singleton in Hf.
    + eapply blobFrame_mono; [|exact IHfr]. intros f Hf. by right.
  - intros k Hk. apply not_elem_of_cons in Hk as [Hk1 Hk2].
    rewrite IHother by done. by apply Hother.
  - intros k Hk. apply IHnone.
    destruct (decide (k = oneBlob.Name val)) as [->|Hne].
    + specialize (Hnone Hk). by injection Hnone as -> _.
    + by rewrite Hother.
  - intros k v Hk.
    destruct (decide (k = oneBlob.Name val)) as [->|Hne].
    + destruct (Hsome v Hk) as (v1 & Hv1 & Hn1 & Hl1).
      destruct (IHsome _ _ Hv1) as (v2 & Hv2 & Hn2 & Hl2).
      exists v2. split; [done|]. split; congruence.
    + apply IHsome. by rewrite Hother.
Qed.

End sink.

Section set_vectors.
Context {runtime : Runtime}.

(** The handlers on a property that is registered, with the three
    stages named: the time stamp, the loop over the values, the
    message. *)
Lemma setTextVector_known (item : setTextVector.t) (c : INDIClient.t)
    (device : Device.t) (prop : TextProperty.t) :
  INDIClient.devices c !! setTextVector.Device item = Some device →
  Device.TextProperties device !! setTextVector.Name item = Some prop →
  let u := updateTime (setTextVector.Timestamp item) c in
  let m := appendMessage (setTextVector.Message item)
             (TextProperty.Messages prop) u.2 in
  setTextVector item c =
    INDIClient.set_devices
      (<[setTextVector.Device item :=
           Device.set_TextProperties
             (<[setTextVector.Name item :=
                  TextProperty.mk (TextProperty.Name prop)
                    (TextProperty.Label prop) (TextProperty.Group prop)
                    (setTextVector.State item) (setTextVector.Timeout item)
                    u.1 m.1 (TextProperty.Permissions prop)
                    (rangeSet oneText.Name
                       (λ val, TextValue.set_Value
                                 (strings.TrimSpace (oneText.Value val)))
                       (setTextVector.Texts item) (TextProperty.Values prop))]>
                (Device.TextProperties device)) device]>
         (INDIClient.devices m.2)) m.2.
Proof.
  intros Hdev Hprop u m. unfold setTextVector.
  rewrite (findDevice_Some _ _ _ Hdev), Hprop. subst u m.
  destruct (updateTime _ c) as [t c1]. simpl.
  by destruct (appendMessage _ _ c1) as [messages c2].
Qed.

Lemma setNumberVector_known (item : setNumberVector.t) (c : INDIClient.t)
    (device : Device.t) (prop : NumberProperty.t) :
  INDIClient.devices c !! setNumberVector.Device item = Some device →
  Device.NumberProperties device !! setNumberVector.Name item = Some prop →
  let u := updateTime (setNumberVector.Timestamp item) c in
  let m := appendMessage (setNumberVector.Message item)
             (NumberProperty.Messages prop) u.2 in
  setNumberVector item c =
    INDIClient.set_devices
      (<[setNumberVector.Device item :=
           Device.set_NumberProperties
             (<[setNumberVector.Name item :=
                  NumberProperty.mk (NumberProperty.Name prop)
                    (NumberProperty.Label prop) (NumberProperty.Group prop)
                    (setNumberVector.State item) (setNumberVector.Timeout item)
                    u.1 m.1 (NumberProperty.Permissions prop)
                    (rangeSet oneNumber.Name
                       (λ val, NumberValue.set_Value
                                 (strings.TrimSpace (oneNumber.Value val)))
                       (setNumberVector.Numbers item)
                       (NumberProperty.Values prop))]>
                (Device.NumberProperties device)) device]>
         (INDIClient.devices m.2)) m.2.
Proof.
  intros Hdev Hprop u m. unfold setNumberVector.
  rewrite (findDevice_Some _ _ _ Hdev), Hprop. subst u m.
  destruct (updateTime _ c) as [t c1]. simpl.
  by destruct (appendMessage _ _ c1) as [messages c2].
Qed.

Lemma setSwitchVector_known (item : setSwitchVector.t) (c : INDIClient.t)
    (device : Device.t) (prop : SwitchProperty.t) :
  INDIClient.devices c !! setSwitchVector.Device item = Some device →
  Device.SwitchProperties device !! setSwitchVector.Name item = Some prop →
  let u := updateTime (setSwitchVector.Timestamp item) c in
  let m := appendMessage (setSwitchVector.Message item)
             (SwitchProperty.Messages prop) u.2 in
  setSwitchVector item c =
    INDIClient.set_devices
      (<[setSwitchVector.Device item :=
           Device.set_SwitchProperties
             (<[setSwitchVector.Name item :=
                  SwitchProperty.mk (SwitchProperty.Name prop)
                    (SwitchProperty.Label prop) (SwitchProperty.Group prop)
                    (setSwitchVector.State item) (setSwitchVector.Timeout item)
                    u.1 m.1 (SwitchProperty.Rule prop)
                    (SwitchProperty.Permissions prop)
                    (rangeSet oneSwitch.Name
                       (λ val, SwitchValue.set_Value
                                 (strings.TrimSpace (oneSwitch.Value val)))
                       (setSwitchVector.Switches item)
                       (SwitchProperty.Values prop))]>
                (Device.SwitchProperties device)) device]>
         (INDIClient.devices m.2)) m.2.
Proof.
  intros Hdev Hprop u m. unfold setSwitchVector.
  rewrite (findDevice_Some _ _ _ Hdev), Hprop. subst u m.
  destruct (updateTime _ c) as [t c1]. simpl.
  by destruct (appendMessage _ _ c1) as [messages c2].
Qed.

Lemma setLightVector_known (item : setLightVector.t) (c : INDIClient.t)
    (device : Device.t) (prop : LightProperty.t) :
  INDIClient.devices c !! setLightVector.Device item = Some device →
  Device.LightProperties device !! setLightVector.Name item = Some prop →
  let u := updateTime (setLightVector.Timestamp item) c in
  let m := appendMessage (setLightVector.Message item)
             (LightProperty.Messages prop) u.2 in
  setLightVector item c =
    INDIClient.set_devices
      (<[setLightVector.Device item :=
           Device.set_LightProperties
             (<[setLightVector.Name item :=
                  LightProperty.mk (LightProperty.Name prop)
                    (LightProperty.Label prop) (LightProperty.Group prop)
                    (setLightVector.State item) u.1 m.1
                    (rangeSet oneLight.Name
                       (λ val, LightValue.set_Value
                                 (strings.TrimSpace (oneLight.Value val)))
                       (setLightVector.Lights item)
                       (LightProperty.Values prop))]>
                (Device.LightProperties device)) device]>
         (INDIClient.devices m.2)) m.2.
Proof.
  intros Hdev Hprop u m. unfold setLightVector.
  rewrite (findDevice_Some _ _ _ Hdev), Hprop. subst u m.
  destruct (updateTime _ c) as [t c1]. simpl.
  by destruct (appendMessage _ _ c1) as [messages c2].
Qed.

Lemma setBlobVector_known (item : setBlobVector.t) (c : INDIClient.t)
    (device : Device.t) (prop : BlobProperty.t) :
  INDIClient.devices c !! setBlobVector.Device item = Some device →
  Device.BlobProperties device !! setBlobVector.Name item = Some prop →
  let u := updateTime (setBlobVector.Timestamp item) c in
  let l := foldl (setBlob item) (BlobProperty.Values prop, u.2)
             (setBlobVector.Blobs item) in
  let m := appendMessage (setBlobVector.Message item)
             (BlobProperty.Messages prop) l.2 in
  setBlobVector item c =
    INDIClient.set_devices
      (<[setBlobVector.Device item :=
           Device.set_BlobProperties
             (<[setBlobVector.Name item :=
                  BlobProperty.mk (BlobProperty.Name prop)
                    (BlobProperty.Label prop) (BlobProperty.Group prop)
                    (setBlobVector.State item) u.1 m.1
                    (BlobProperty.Permissions prop)
                    (setBlobVector.Timeout item) l.1]>
                (Device.BlobProperties device)) device]>
         (INDIClient.devices m.2)) m.2.
Proof.
  intros Hdev Hprop u l m. unfold setBlobVector.
  rewrite (findDevice_Some _ _ _ Hdev), Hprop. subst u l m.
  destruct (updateTime _ c) as [t c1]. simpl.
  destruct (foldl _ _ _) as [values c2]. simpl.
  by destruct (appendMessage _ _ c2) as [messages c3].
Qed.

End set_vectors.

Section sink_vector.
Context {runtime : Runtime}.

(** Elements that name a value the property does not have change
    nothing, because the loop never adds a value. *)
Lemma setBlobs_skip (item : setBlobVector.t) (vals : list oneBlob.t)
    (values0 values : gmap string BlobValue.t) (c : INDIClient.t) :
  (∀ k, is_Some (values !! k) ↔ is_Some (values0 !! k)) →
  foldl (setBlob item) (values, c) vals
  = foldl (setBlob item) (values, c)
      (filter (λ val, is_Some (values0 !! oneBlob.Name val)) vals).
Proof.
  revert values c. induction vals as [|val vals IH]; intros values c Hdom.
  { done. }
  destruct (setBlob_frame item values c val) as (_ & Hother & Hnone & Hsome).
  destruct (decide (is_Some (values0 !! oneBlob.Name val))) as [Hdef|Hdef].
  - rewrite filter_cons_True by done. cbn [foldl].
    destruct (setBlob item (values, c) val) as [values1 c1].
    apply IH. intros k. rewrite <-Hdom.
    destruct (decide (k = oneBlob.Name val)) as [->|Hne].
    + apply Hdom in Hdef as [v Hv]. destruct (Hsome v Hv) as (v' & Hv' & _).
      simpl in Hv'. rewrite Hv, Hv'. by split; eauto.
    + simpl in Hother. by rewrite Hother.
  - rewrite filter_cons_False by done. cbn [foldl].
    rewrite Hnone; [by apply IH|].
    apply eq_None_not_Some. by rewrite Hdom.
Qed.

(** The final state for one element of the vector: behind any elements,
    and with no later element for the same value or the same file. *)
Lemma setBlobVector_stores (item : setBlobVector.t) (c : INDIClient.t)
    (device : Device.t) (prop : BlobProperty.t)
    (before after : list oneBlob.t) (val : oneBlob.t) (v : BlobValue.t) :
  INDIClient.devices c !! setBlobVector.Device item = Some device →
  Device.BlobProperties device !! setBlobVector.Name item = Some prop →
  setBlobVector.Blobs item = before ++ val :: after →
  BlobProperty.Values prop !! oneBlob.Name val = Some v →
  (∀ val', val' ∈ after →
     oneBlob.Name val' ≠ oneBlob.Name val
     ∧ sinkPath item val' ≠ sinkPath item val) →
  afero.openErr (INDIClient.fs c) (sinkPath item val) = None →
  (∀ id pw,
     subscriber
       (blobKey (setBlobVector.Device item) (setBlobVector.Name item)
          (oneBlob.Name val)) id c = Some pw →
     PipeWriter.closed pw = false) →
  io.rerr (base64_NewDecoder (strings.TrimSpace (oneBlob.Value val))) = None →
  let payload :=
    concat (io.chunks
              (base64_NewDecoder (strings.TrimSpace (oneBlob.Value val)))) in
  afero.files (INDIClient.fs (setBlobVector item c)) !! sinkPath item val
    = Some payload
  ∧ blobValue (setBlobVector.Device item) (setBlobVector.Name item)
      (oneBlob.Name val) (setBlobVector item c)
    = Some (BlobValue.mk (BlobValue.Name v) (BlobValue.Label v)
              (sinkPath item val) (Z.of_nat (length payload))).
Proof.
  intros Hdev Hprop Hblobs Hv Hafter Hopen Hsubs Hdec payload.
  rewrite (setBlobVector_known item c device prop Hdev Hprop).
  destruct (updateTime_spec (setBlobVector.Timestamp item) c)
    as (_ & _ & Hfs0 & _ & Hstreams0).
  set (u := updateTime (setBlobVector.Timestamp item) c) in *.
  rewrite Hblobs, foldl_app. cbn [foldl].
  destruct (setBlobs_frame item before (BlobProperty.Values prop) u.2)
    as (Hfr1 & _ & _ & Hsome1).
  destruct (foldl (setBlob item) (BlobProperty.Values prop, u.2) before)
    as [values1 c1]. simpl in Hfr1, Hsome1.
  destruct (Hsome1 _ _ Hv) as (v1 & Hv1 & Hname1 & Hlabel1).
  destruct Hfr1 as (_ & _ & _ & Herr1 & _ & Hsubs1).
  destruct (setBlob_ok item values1 c1 val v1 Hv1) as [Hvalues2 Hfile2].
  { by rewrite Herr1, Hfs0. }
  { intros id pw Hpw. specialize (Hsubs1
      (blobKey (setBlobVector.Device item) (setBlobVector.Name item)
         (oneBlob.Name val)) id).
    rewrite Hpw in Hsubs1. unfold subscriber in Hsubs1 at 1.
    rewrite Hstreams0 in Hsubs1. fold (subscriber
      (blobKey (setBlobVector.Device item) (setBlobVector.Name item)
         (oneBlob.Name val)) id c) in Hsubs1.
    destruct (subscriber _ id c) as [pw0|] eqn:Hpw0; [|done].
    simpl in Hsubs1. injection Hsubs1 as ->. by apply (Hsubs id). }
  { done. }
  destruct (setBlob item (values1, c1) val) as [values2 c2].
  simpl in Hvalues2, Hfile2.
  destruct (setBlobs_frame item after values2 c2)
    as ((_ & _ & _ & _ & Hfiles3 & _) & Hother3 & _).
  destruct (foldl (setBlob item) (values2, c2) after) as [values3 c3].
  simpl in Hfiles3, Hother3.
  destruct (appendMessage_spec (setBlobVector.Message item)
              (BlobProperty.Messages prop) c3)
    as (_ & _ & _ & Hfs4 & _).
  cbn [fst snd]. split.
  - cbn [INDIClient.fs INDIClient.set_devices]. rewrite Hfs4, Hfiles3.
    + by rewrite Hfile2.
    + intros Hin. apply list_elem_of_fmap in Hin as (val' & Heq & Hin).
      by destruct (Hafter val' Hin) as [_ []].
  - unfold blobValue. cbn [INDIClient.devices INDIClient.set_devices].
    rewrite lookup_insert_eq. simpl. rewrite lookup_insert_eq. simpl.
    rewrite Hother3.
    + by rewrite Hvalues2, lookup_insert_eq, Hname1, Hlabel1.
    + intros Hin. apply list_elem_of_fmap in Hin as (val' & Heq & Hin).
      by destruct (Hafter val' Hin) as [[] _].
Qed.

(** C1 (as the code has it).  For a [setBLOBVector] whose device and
    BLOB property are registered: the elements that name a value the
    property does not have are skipped, the client ends as it would
    without them.  For an element that names a value of the property,
    with a sink file [<device>_<property>_<value><format>] that the
    filesystem opens, with subscribers of the value that are all open,
    with a payload that, trimmed, decodes without error, and with no
    later element of the vector for the same value or the same file:
    after the dispatch the file holds exactly the decoded payload, and
    the value holds the path of the file and the number of bytes of the
    payload, with its name and label unchanged. *)
Theorem setBlobVector_sink (item : setBlobVector.t) (c : INDIClient.t)
    (device : Device.t) (prop : BlobProperty.t) :
  INDIClient.devices c !! setBlobVector.Device item = Some device →
  Device.BlobProperties device !! setBlobVector.Name item = Some prop →
  setBlobVector item c
    = setBlobVector
        (withBlobs
           (filter (λ val, is_Some (BlobProperty.Values prop !! oneBlob.Name val))
              (setBlobVector.Blobs item)) item) c
  ∧ ∀ (before after : list oneBlob.t) (val : oneBlob.t) (v : BlobValue.t),
      setBlobVector.Blobs item = before ++ val :: after →
      BlobProperty.Values prop !! oneBlob.Name val = Some v →
      (∀ val', val' ∈ after →
         oneBlob.Name val' ≠ oneBlob.Name val
         ∧ sinkPath item val' ≠ sinkPath item val) →
      afero.openErr (INDIClient.fs c) (sinkPath item val) = None →
      (∀ id pw,
         subscriber
           (blobKey (setBlobVector.Device item) (setBlobVector.Name item)
              (oneBlob.Name val)) id c = Some pw →
         PipeWriter.closed pw = false) →
      io.rerr (base64_NewDecoder (strings.TrimSpace (oneBlob.Value val)))
        = None →
      let payload :=
        concat (io.chunks
                  (base64_NewDecoder (strings.TrimSpace (oneBlob.Value val)))) in
      afero.files (INDIClient.fs (setBlobVector item c)) !! sinkPath item val
        = Some payload
      ∧ blobValue (setBlobVector.Device item) (setBlobVector.Name item)
          (oneBlob.Name val) (setBlobVector item c)
        = Some (BlobValue.mk (BlobValue.Name v) (BlobValue.Label v)
                  (sinkPath item val) (Z.of_nat (length payload))).
Proof.
  intros Hdev Hprop. split.
  - rewrite (setBlobVector_known item c device prop Hdev Hprop).
    rewrite (setBlobVector_known (withBlobs _ item) c device prop Hdev Hprop).
    cbn [withBlobs setBlobVector.Device setBlobVector.Name
         setBlobVector.State setBlobVector.Timeout setBlobVector.Timestamp
         setBlobVector.Message setBlobVector.Blobs].
    change (setBlob (withBlobs _ item)) with (setBlob item).
    by rewrite <-(setBlobs_skip item _ (BlobProperty.Values prop)).
  - intros before after val v. by apply (setBlobVector_stores item c device prop).
Qed.

End sink_vector.

(** The theorem at the camera: behind a stray element and a broken
    payload for the same value, the image [1234567890] reaches the sink
    file, and the value records the path and ten bytes. *)
Lemma setBlobVector_sink_witness :
  afero.files
    (INDIClient.fs
       (setBlobVector (runtime := exampleRuntime)
          (cameraImage [strayBlob; brokenBlob; imageBlob]) camera))
    !! "Camera_CCD1_CCD1.fits" = Some (bytes "1234567890")
  ∧ blobValue "Camera" "CCD1" "CCD1"
      (setBlobVector (runtime := exampleRuntime)
         (cameraImage [strayBlob; brokenBlob; imageBlob]) camera)
    = Some (BlobValue.mk "CCD1" "Image" "Camera_CCD1_CCD1.fits" 10).
Proof.
  edestruct (setBlobVector_sink (runtime := exampleRuntime)
               (cameraImage [strayBlob; brokenBlob; imageBlob]) camera)
    as [_ Hsink]; [vm_compute; reflexivity|vm_compute; reflexivity|].
  edestruct (Hsink [strayBlob; brokenBlob] [] imageBlob) as [Hfile Hvalue].
  - reflexivity.
  - vm_compute. reflexivity.
  - intros val' Hin. by apply elem_of_nil in Hin.
  - reflexivity.
  - intros id pw Hpw. vm_compute in Hpw. discriminate.
  - vm_compute. reflexivity.
  - split.
    + etrans; [exact Hfile|]. vm_compute. reflexivity.
    + etrans; [exact Hvalue|]. vm_compute. reflexivity.
Defined.

(** C1 as stated fails.  The element names the value [CCD1], which the
    [defBLOBVector] of the camera introduced, but its payload is not
    base64: the sink file is created and left empty, the copy fails with a
    warning, and the value keeps its empty path and its size 0. *)
Lemma setBlobVector_broken_payload :
  blobValue "Camera" "CCD1" "CCD1" camera
    = Some (BlobValue.mk "CCD1" "Image" "" 0)
  ∧ afero.files
      (INDIClient.fs
         (setBlobVector (runtime := exampleRuntime) (cameraImage [brokenBlob]) camera))
      !! "Camera_CCD1_CCD1.fits" = Some []
  ∧ blobValue "Camera" "CCD1" "CCD1"
      (setBlobVector (runtime := exampleRuntime) (cameraImage [brokenBlob]) camera)
    = Some (BlobValue.mk "CCD1" "Image" "" 0)
  ∧ INDIClient.log
      (setBlobVector (runtime := exampleRuntime) (cameraImage [brokenBlob]) camera)
    = [logging.mk logging.Warn [] (Some base64.CorruptInputError)
         "error in io.Copy"].
Proof. vm_compute. done. Qed.

Ltac set_vector_dropped handler :=
  unfold handler;
  repeat match goal with
    | H : INDIClient.devices _ !! _ = Some _ |- _ =>
        rewrite (findDevice_Some _ _ _ H); clear H
    | H : INDIClient.devices _ !! _ = None |- _ =>
        rewrite (findDevice_None _ _ H); clear H
    | H : ?m !! ?k = None |- context [?m !! ?k] => rewrite H; clear H
    end;
  reflexivity.

Ltac set_vector_applied known timestamp text messages c :=
  rewrite known;
  destruct (updateTime_spec timestamp c) as (? & Hdevices1 & _);
  destruct (appendMessage_spec text messages (updateTime timestamp c).2)
    as (? & ? & Hdevices2 & _);
  eexists; split;
    [cbn [INDIClient.devices INDIClient.set_devices];
     rewrite Hdevices2, Hdevices1; reflexivity|];
  split_and!; try done;
  intros k; apply rangeSet_last; done.

(** C2 (as the code has it).  A [set*Vector] for a device that is not
    registered, or for a property that the device does not have in the map
    of that kind, adds one warning to the log and changes nothing else.
    Otherwise the property is stored again under its name with the state
    and, except for a light property, which has none, the timeout of the
    element, and with [LastUpdated] the time stamp of the element, or the
    reading of the clock when there is none or when it does not parse;
    the field [Message] of the element, when it is not empty, is added at
    the end of the messages of the property (by its struct tag this field
    is not filled from the XML attribute [message], see the wire model).
    For text, number, switch and light properties every value
    that the property has keeps its name and label and takes the trimmed
    value of the last element of that name, when there is one; no value is
    added.  For a BLOB property no value is added either, every value
    keeps its name and label, and a value that no element names is
    unchanged; the value that an element names takes the path of the sink
    file and the number of bytes of the decoded payload when the file
    opens, the subscribers are open, the payload decodes, and no later
    element is for the same value or the same file. *)
Theorem set_vector_spec {runtime : Runtime} :
  (∀ (item : setTextVector.t) (c : INDIClient.t),
     (INDIClient.devices c !! setTextVector.Device item = None →
        setTextVector item c
          = Warn [("device", setTextVector.Device item)]
              (Some ErrDeviceNotFound) "could not find device" c)
     ∧ ∀ device,
         INDIClient.devices c !! setTextVector.Device item = Some device →
         (Device.TextProperties device !! setTextVector.Name item = None →
            setTextVector item c
              = Warn [("device", setTextVector.Device item);
                      ("property", setTextVector.Name item)] None
                  "could not find property" c)
         ∧ ∀ prop,
             Device.TextProperties device !! setTextVector.Name item = Some prop →
             ∃ prop',
               INDIClient.devices (setTextVector item c)
                 = <[setTextVector.Device item :=
                       Device.set_TextProperties
                         (<[setTextVector.Name item := prop']>
                            (Device.TextProperties device)) device]>
                     (INDIClient.devices c)
               ∧ TextProperty.State prop' = setTextVector.State item
               ∧ TextProperty.Timeout prop' = setTextVector.Timeout item
               ∧ TextProperty.LastUpdated prop'
                 = (if decide (setTextVector.Timestamp item = "")
                    then time_Now (INDIClient.clock c)
                    else match time_ParseInLocation "2006-01-02T15:04:05.9"
                                 (setTextVector.Timestamp item) with
                         | inr t => t
                         | inl _ => time_Now (INDIClient.clock c)
                         end)
               ∧ (∀ k, TextProperty.Values prop' !! k
                    = (λ v, match lastNamed oneText.Name k
                                    (setTextVector.Texts item) with
                            | Some val =>
                                TextValue.set_Value
                                  (strings.TrimSpace (oneText.Value val)) v
                            | None => v
                            end) <$> TextProperty.Values prop !! k)
               ∧ (setTextVector.Message item = "" →
                    TextProperty.Messages prop' = TextProperty.Messages prop)
               ∧ (setTextVector.Message item ≠ "" →
                    ∃ t, TextProperty.Messages prop'
                         = TextProperty.Messages prop
                           ++ [Message.mk t (setTextVector.Message item)]))
  ∧
  (∀ (item : setNumberVector.t) (c : INDIClient.t),
     (INDIClient.devices c !! setNumberVector.Device item = None →
        setNumberVector item c
          = Warn [("device", setNumberVector.Device item)]
              (Some ErrDeviceNotFound) "could not find device" c)
     ∧ ∀ device,
         INDIClient.devices c !! setNumberVector.Device item = Some device →
         (Device.NumberProperties device !! setNumberVector.Name item = None →
            setNumberVector item c
              = Warn [("device", setNumberVector.Device item);
                      ("property", setNumberVector.Name item)] None
                  "could not find property" c)
         ∧ ∀ prop,
             Device.NumberProperties device !! setNumberVector.Name item
               = Some prop →
             ∃ prop',
               INDIClient.devices (setNumberVector item c)
                 = <[setNumberVector.Device item :=
                       Device.set_NumberProperties
                         (<[setNumberVector.Name item := prop']>
                            (Device.NumberProperties device)) device]>
                     (INDIClient.devices c)
               ∧ NumberProperty.State prop' = setNumberVector.State item
               ∧ NumberProperty.Timeout prop' = setNumberVector.Timeout item
               ∧ NumberProperty.LastUpdated prop'
                 = (if decide (setNumberVector.Timestamp item = "")
                    then time_Now (INDIClient.clock c)
                    else match time_ParseInLocation "2006-01-02T15:04:05.9"
                                 (setNumberVector.Timestamp item) with
                         | inr t => t
                         | inl _ => time_Now (INDIClient.clock c)
                         end)
               ∧ (∀ k, NumberProperty.Values prop' !! k
                    = (λ v, match lastNamed oneNumber.Name k
                                    (setNumberVector.Numbers item) with
                            | Some val =>
                                NumberValue.set_Value
                                  (strings.TrimSpace (oneNumber.Value val)) v
                            | None => v
                            end) <$> NumberProperty.Values prop !! k)
               ∧ (setNumberVector.Message item = "" →
                    NumberProperty.Messages prop' = NumberProperty.Messages prop)
               ∧ (setNumberVector.Message item ≠ "" →
                    ∃ t, NumberProperty.Messages prop'
                         = NumberProperty.Messages prop
                           ++ [Message.mk t (setNumberVector.Message item)]))
  ∧
  (∀ (item : setSwitchVector.t) (c : INDIClient.t),
     (INDIClient.devices c !! setSwitchVector.Device item = None →
        setSwitchVector item c
          = Warn [("device", setSwitchVector.Device item)]
              (Some ErrDeviceNotFound) "could not find device" c)
     ∧ ∀ device,
         INDIClient.devices c !! setSwitchVector.Device item = Some device →
         (Device.SwitchProperties device !! setSwitchVector.Name item = None →
            setSwitchVector item c
              = Warn [("device", setSwitchVector.Device item);
                      ("property", setSwitchVector.Name item)] None
                  "could not find property" c)
         ∧ ∀ prop,
             Device.SwitchProperties device !! setSwitchVector.Name item
               = Some prop →
             ∃ prop',
               INDIClient.devices (setSwitchVector item c)
                 = <[setSwitchVector.Device item :=
                       Device.set_SwitchProperties
                         (<[setSwitchVector.Name item := prop']>
                            (Device.SwitchProperties device)) device]>
                     (INDIClient.devices c)
               ∧ SwitchProperty.State prop' = setSwitchVector.State item
               ∧ SwitchProperty.Timeout prop' = setSwitchVector.Timeout item
               ∧ SwitchProperty.LastUpdated prop'
                 = (if decide (setSwitchVector.Timestamp item = "")
                    then time_Now (INDIClient.clock c)
                    else match time_ParseInLocation "2006-01-02T15:04:05.9"
                                 (setSwitchVector.Timestamp item) with
                         | inr t => t
                         | inl _ => time_Now (INDIClient.clock c)
                         end)
               ∧ (∀ k, SwitchProperty.Values prop' !! k
                    = (λ v, match lastNamed oneSwitch.Name k
                                    (setSwitchVector.Switches item) with
                            | Some val =>
                                SwitchValue.set_Value
                                  (strings.TrimSpace (oneSwitch.Value val)) v
                            | None => v
                            end) <$> SwitchProperty.Values prop !! k)
               ∧ (setSwitchVector.Message item = "" →
                    SwitchProperty.Messages prop' = SwitchProperty.Messages prop)
               ∧ (setSwitchVector.Message item ≠ "" →
                    ∃ t, SwitchProperty.Messages prop'
                         = SwitchProperty.Messages prop
                           ++ [Message.mk t (setSwitchVector.Message item)]))
  ∧
  (∀ (item : setLightVector.t) (c : INDIClient.t),
     (INDIClient.devices c !! setLightVector.Device item = None →
        setLightVector item c
          = Warn [("device", setLightVector.Device item)]
              (Some ErrDeviceNotFound) "could not find device" c)
     ∧ ∀ device,
         INDIClient.devices c !! setLightVector.Device item = Some device →
         (Device.LightProperties device !! setLightVector.Name item = None →
            setLightVector item c
              = Warn [("device", setLightVector.Device item);
                      ("property", setLightVector.Name item)] None
                  "could not find property" c)
         ∧ ∀ prop,
             Device.LightProperties device !! setLightVector.Name item
               = Some prop →
             ∃ prop',
               INDIClient.devices (setLightVector item c)
                 = <[setLightVector.Device item :=
                       Device.set_LightProperties
                         (<[setLightVector.Name item := prop']>
                            (Device.LightProperties device)) device]>
                     (INDIClient.devices c)
               ∧ LightProperty.State prop' = setLightVector.State item
               ∧ LightProperty.LastUpdated prop'
                 = (if decide (setLightVector.Timestamp item = "")
                    then time_Now (INDIClient.clock c)
                    else match time_ParseInLocation "2006-01-02T15:04:05.9"
                                 (setLightVector.Timestamp item) with
                         | inr t => t
                         | inl _ => time_Now (INDIClient.clock c)
                         end)
               ∧ (∀ k, LightProperty.Values prop' !! k
                    = (λ v, match lastNamed oneLight.Name k
                                    (setLightVector.Lights item) with
                            | Some val =>
                                LightValue.set_Value
                                  (strings.TrimSpace (oneLight.Value val)) v
                            | None => v
                            end) <$> LightProperty.Values prop !! k)
               ∧ (setLightVector.Message item = "" →
                    LightProperty.Messages prop' = LightProperty.Messages prop)
               ∧ (setLightVector.Message item ≠ "" →
                    ∃ t, LightProperty.Messages prop'
                         = LightProperty.Messages prop
                           ++ [Message.mk t (setLightVector.Message item)]))
  ∧
  (∀ (item : setBlobVector.t) (c : INDIClient.t),
     (INDIClient.devices c !! setBlobVector.Device item = None →
        setBlobVector item c
          = Warn [("device", setBlobVector.Device item)]
              (Some ErrDeviceNotFound) "could not find device" c)
     ∧ ∀ device,
         INDIClient.devices c !! setBlobVector.Device item = Some device →
         (Device.BlobProperties device !! setBlobVector.Name item = None →
            setBlobVector item c
              = Warn [("device", setBlobVector.Device item);
                      ("property", setBlobVector.Name item)] None
                  "could not find property" c)
         ∧ ∀ prop,
             Device.BlobProperties device !! setBlobVector.Name item
               = Some prop →
             ∃ prop',
               INDIClient.devices (setBlobVector item c)
                 = <[setBlobVector.Device item :=
                       Device.set_BlobProperties
                         (<[setBlobVector.Name item := prop']>
                            (Device.BlobProperties device)) device]>
                     (INDIClient.devices c)
               ∧ BlobProperty.State prop' = setBlobVector.State item
               ∧ BlobProperty.Timeout prop' = setBlobVector.Timeout item
               ∧ BlobProperty.LastUpdated prop'
                 = (if decide (setBlobVector.Timestamp item = "")
                    then time_Now (INDIClient.clock c)
                    else match time_ParseInLocation "2006-01-02T15:04:05.9"
                                 (setBlobVector.Timestamp item) with
                         | inr t => t
                         | inl _ => time_Now (INDIClient.clock c)
                         end)
               ∧ (∀ k, BlobProperty.Values prop !! k = None →
                       BlobProperty.Values prop' !! k = None)
               ∧ (∀ k v, BlobProperty.Values prop !! k = Some v →
                    ∃ v', BlobProperty.Values prop' !! k = Some v'
                          ∧ BlobValue.Name v' = BlobValue.Name v
                          ∧ BlobValue.Label v' = BlobValue.Label v)
               ∧ (∀ k, k ∉ oneBlob.Name <$> setBlobVector.Blobs item →
                       BlobProperty.Values prop' !! k
                       = BlobProperty.Values prop !! k)
               ∧ (∀ before after val v,
                    setBlobVector.Blobs item = before ++ val :: after →
                    BlobProperty.Values prop !! oneBlob.Name val = Some v →
                    (∀ val', val' ∈ after →
                       oneBlob.Name val' ≠ oneBlob.Name val
                       ∧ sinkPath item val' ≠ sinkPath item val) →
                    afero.openErr (INDIClient.fs c) (sinkPath item val) = None →
                    (∀ id pw,
                       subscriber
                         (blobKey (setBlobVector.Device item)
                            (setBlobVector.Name item) (oneBlob.Name val)) id c
                         = Some pw →
                       PipeWriter.closed pw = false) →
                    io.rerr (base64_NewDecoder
                               (strings.TrimSpace (oneBlob.Value val))) = None →
                    BlobProperty.Values prop' !! oneBlob.Name val
                    = Some (BlobValue.mk (BlobValue.Name v) (BlobValue.Label v)
                              (sinkPath item val)
                              (Z.of_nat
                                 (length
                                    (concat
                                       (io.chunks
                                          (base64_NewDecoder
                                             (strings.TrimSpace
                                                (oneBlob.Value val)))))))))
               ∧ (setBlobVector.Message item = "" →
                    BlobProperty.Messages prop' = BlobProperty.Messages prop)
               ∧ (setBlobVector.Message item ≠ "" →
                    ∃ t, BlobProperty.Messages prop'
                         = BlobProperty.Messages prop
                           ++ [Message.mk t (setBlobVector.Message item)])).
Proof.
  split_and!; intros item c; (split; [intros Hdev|intros device Hdev; split;
    [intros Hprop|intros prop Hprop]]).
  - set_vector_dropped (@setTextVector).
  - set_vector_dropped (@setTextVector).
  - set_vector_applied (setTextVector_known item c device prop Hdev Hprop)
      (setTextVector.Timestamp item)
      (setTextVector.Message item) (TextProperty.Messages prop) c.
  - set_vector_dropped (@setNumberVector).
  - set_vector_dropped (@setNumberVector).
  - set_vector_applied (setNumberVector_known item c device prop Hdev Hprop)
      (setNumberVector.Timestamp item)
      (setNumberVector.Message item) (NumberProperty.Messages prop) c.
  - set_vector_dropped (@setSwitchVector).
  - set_vector_dropped (@setSwitchVector).
  - set_vector_applied (setSwitchVector_known item c device prop Hdev Hprop)
      (setSwitchVector.Timestamp item)
      (setSwitchVector.Message item) (SwitchProperty.Messages prop) c.
  - set_vector_dropped (@setLightVector).
  - set_vector_dropped (@setLightVector).
  - set_vector_applied (setLightVector_known item c device prop Hdev Hprop)
      (setLightVector.Timestamp item)
      (setLightVector.Message item) (LightProperty.Messages prop) c.
  - set_vector_dropped (@setBlobVector).
  - set_vector_dropped (@setBlobVector).
  - pose proof (setBlobVector_stores item c device prop) as Hstores.
    unfold blobValue in Hstores.
    rewrite (setBlobVector_known item c device prop Hdev Hprop) in Hstores |- *.
    destruct (updateTime_spec (setBlobVector.Timestamp item) c)
      as (? & Hdevices1 & _).
    set (u := updateTime (setBlobVector.Timestamp item) c) in *.
    destruct (setBlobs_frame item (setBlobVector.Blobs item)
                (BlobProperty.Values prop) u.2)
      as ((Hdevices2 & _) & Hother & Hnone & Hsome).
    set (l := foldl (setBlob item) _ _) in *.
    destruct (appendMessage_spec (setBlobVector.Message item)
                (BlobProperty.Messages prop) l.2)
      as (? & ? & Hdevices3 & _).
    eexists. split.
    { cbn [INDIClient.devices INDIClient.set_devices].
      rewrite Hdevices3, Hdevices2, Hdevices1. reflexivity. }
    split_and!; try done.
    intros before after val v Hblobs Hv Hafter Hopen Hsubs Hdec.
    destruct (Hstores before after val v Hdev Hprop Hblobs Hv Hafter Hopen
                Hsubs Hdec) as [_ Hvalue].
    cbn [INDIClient.devices INDIClient.set_devices] in Hvalue.
    rewrite lookup_insert_eq in Hvalue. simpl in Hvalue.
    rewrite lookup_insert_eq in Hvalue. exact Hvalue.
Qed.


(** The theorem at the camera: the server reports the binning switch
    busy, with a value for [One] and one for [Nine], which the property
    does not have. *)
Lemma set_vector_spec_witness :
  ∃ device prop',
    INDIClient.devices camera !! "Camera" = Some device
    ∧ INDIClient.devices (setSwitchVector (runtime := exampleRuntime) binningUpdate camera)
      = <["Camera" :=
            Device.set_SwitchProperties
              (<["Binning" := prop']> (Device.SwitchProperties device)) device]>
          (INDIClient.devices camera)
    ∧ SwitchProperty.State prop' = "Busy"
    ∧ SwitchProperty.Timeout prop' = 5%Z
    ∧ SwitchProperty.Values prop' !! "One" = Some (SwitchValue.mk "One" "1:1" "On")
    ∧ SwitchProperty.Values prop' !! "Nine" = None
    ∧ ∃ t, SwitchProperty.Messages prop' = [Message.mk t "switching"].
Proof.
  destruct (set_vector_spec (runtime := exampleRuntime)) as (_ & _ & Hswitch & _).
  destruct (Hswitch binningUpdate camera) as [_ Hdevice].
  edestruct Hdevice as [_ Hprop]; [vm_compute; reflexivity|].
  edestruct Hprop as (prop' & Hdevices & Hstate & Htimeout & _ & Hvalues & _ & Hmsg);
    [vm_compute; reflexivity|].
  eexists. exists prop'. split; [vm_compute; reflexivity|].
  split; [exact Hdevices|]. split; [exact Hstate|]. split; [exact Htimeout|].
  split; [rewrite Hvalues; vm_compute; reflexivity|].
  split; [rewrite Hvalues; vm_compute; reflexivity|].
  destruct Hmsg as [t Ht]; [discriminate|]. exists t. exact Ht.
Defined.

(** C2 as stated fails.  On a filesystem that refuses to open the sink
    file, a [setBLOBVector] for the registered property [CCD1] with a
    payload for its value [CCD1] leaves the value as it was: it is not
    replaced. *)
Lemma setBlobVector_refused_keeps_value :
  blobValue "Camera" "CCD1" "CCD1" cameraReadOnly
    = Some (BlobValue.mk "CCD1" "Image" "" 0)
  ∧ blobValue "Camera" "CCD1" "CCD1"
      (setBlobVector (runtime := exampleRuntime) (cameraImage [imageBlob])
         cameraReadOnly)
    = Some (BlobValue.mk "CCD1" "Image" "" 0)
  ∧ INDIClient.log
      (setBlobVector (runtime := exampleRuntime) (cameraImage [imageBlob])
         cameraReadOnly)
    = [logging.mk logging.Warn [("file", "Camera_CCD1_CCD1.fits")]
         (Some (LibError "read-only file system")) "error in c.fs.OpenFile"].
Proof. vm_compute. done. Qed.

(** ** The dispatcher: [def*Vector] *)

Lemma rangeDef_lookup {O V} (name : O → string) (new : O → V)
    (vals : list O) (values : gmap string V) (k : string) :
  rangeDef name new vals values !! k =
    match lastNamed name k vals with
    | Some val => Some (new val)
    | None => values !! k
    end.
Proof.
  unfold rangeDef, lastNamed. revert values.
  induction vals as [|val vals IH] using rev_ind; intros values; [done|].
  rewrite foldl_app, filter_app. cbn [foldl].
  destruct (decide (name val = k)) as [Hk|Hk].
  - rewrite filter_cons_True by done. rewrite filter_nil, last_snoc.
    by rewrite <-Hk, lookup_insert_eq.
  - rewrite filter_cons_False by done. rewrite filter_nil, app_nil_r.
    by rewrite lookup_insert_ne, IH.
Qed.

(** Scenario S1: the switch vector of the camera, with the character data
    of its second switch trimmed.  The [timeout] of the element is 0. *)
Example defSwitchVector_registers :
  INDIClient.devices
    (defSwitchVector (runtime := exampleRuntime) cameraBinning (connected emptyFs))
  = {[ "Camera" :=
         Device.mk "Camera" ∅
           {[ "Binning" :=
                SwitchProperty.mk "Binning" "Binning" "Main" "Ok" 0 0%Z []
                  "OneOfMany" "wo"
                  (<["Two" := SwitchValue.mk "Two" "2:1" "On"]>
                     {[ "One" := SwitchValue.mk "One" "1:1" "Off" ]}) ]}
           ∅ ∅ ∅ [] ]}.
Proof. vm_compute. reflexivity. Qed.

(** No [def*Vector] handler stores the timeout of the element, and
    [defBlobVector] does not store its permission either. *)
Lemma def_vector_drops_attributes {runtime : Runtime} :
  (∀ (item : defTextVector.t) (c : INDIClient.t),
     ∃ device prop,
       INDIClient.devices (defTextVector item c) !! defTextVector.Device item
         = Some device
       ∧ Device.TextProperties device !! defTextVector.Name item = Some prop
       ∧ TextProperty.Timeout prop = 0%Z)
  ∧ (∀ (item : defNumberVector.t) (c : INDIClient.t),
       ∃ device prop,
         INDIClient.devices (defNumberVector item c) !! defNumberVector.Device item
           = Some device
         ∧ Device.NumberProperties device !! defNumberVector.Name item = Some prop
         ∧ NumberProperty.Timeout prop = 0%Z)
  ∧ (∀ (item : defSwitchVector.t) (c : INDIClient.t),
       ∃ device prop,
         INDIClient.devices (defSwitchVector item c) !! defSwitchVector.Device item
           = Some device
         ∧ Device.SwitchProperties device !! defSwitchVector.Name item = Some prop
         ∧ SwitchProperty.Timeout prop = 0%Z)
  ∧ (∀ (item : defBlobVector.t) (c : INDIClient.t),
       ∃ device prop,
         INDIClient.devices (defBlobVector item c) !! defBlobVector.Device item
           = Some device
         ∧ Device.BlobProperties device !! defBlobVector.Name item = Some prop
         ∧ BlobProperty.Timeout prop = 0%Z
         ∧ BlobProperty.Permissions prop = "").
Proof.
  split_and!; intros item c;
    [unfold defTextVector|unfold defNumberVector|unfold defSwitchVector
    |unfold defBlobVector];
    destruct (now c) as [t c1];
    destruct (appendMessage _ [] c1) as [messages c2];
    cbn [INDIClient.devices INDIClient.set_devices];
    eexists; eexists; (split; [apply lookup_insert_eq|]);
    (split; [apply lookup_insert_eq|]); done.
Qed.

(** C3, where the code departs from it.  The server defines the BLOB
    property [CCD1] of the camera with [perm="ro"] and [timeout="60"]: the
    property is registered under its name with its label, group, state and
    value, but with an empty permission and the timeout 0.  The text
    property [Info], defined with [timeout="60"], is registered with the
    timeout 0 as well, its value trimmed. *)
Theorem defBlobVector_loses_perm_and_timeout :
  defBlobVector.Perm cameraCCD = "ro"
  ∧ defBlobVector.Timeout cameraCCD = 60%Z
  ∧ INDIClient.devices
      (defBlobVector (runtime := exampleRuntime) cameraCCD (connected emptyFs))
    = {[ "Camera" :=
           Device.mk "Camera" ∅ ∅ ∅
             {[ "CCD1" :=
                  BlobProperty.mk "CCD1" "Image" "Main" "Ok" 0%Z [] "" 0
                    {[ "CCD1" := BlobValue.mk "CCD1" "Image" "" 0 ]} ]}
             ∅ [] ]}
  ∧ defTextVector.Timeout cameraInfo = 60%Z
  ∧ INDIClient.devices
      (defTextVector (runtime := exampleRuntime) cameraInfo (connected emptyFs))
    = {[ "Camera" :=
           Device.mk "Camera"
             {[ "Info" :=
                  TextProperty.mk "Info" "Info" "Main" "Idle" 0 0%Z [] "ro"
                    {[ "Model" := TextValue.mk "Model" "Model" "ST-8" ]} ]}
             ∅ ∅ ∅ ∅ [] ]}.
Proof. vm_compute. done. Qed.

(** * More properties *)

(** ** The dispatcher: [message] and [def*Vector] *)

Lemma findOrCreateDevice_default (name : string) (c : INDIClient.t) :
  findOrCreateDevice name c
  = default (Device.mk name ∅ ∅ ∅ ∅ ∅ []) (INDIClient.devices c !! name).
Proof.
  destruct (INDIClient.devices c !! name) as [d|] eqn:Hd.
  - by rewrite (findOrCreateDevice_Some _ _ _ Hd).
  - by rewrite (findOrCreateDevice_None _ _ Hd).
Qed.

(** X1. A [message] for a device that is not registered adds one warning
    to the log and changes nothing else.  For a registered device it adds
    one message with the text of the element, empty or not, at the end of
    the messages of the device, stamped with the reading of the clock; the
    properties of the device, their messages included, and the other
    devices stay as they were. *)
Theorem message_appends {runtime : Runtime} (item : message.t)
    (c : INDIClient.t) :
  (INDIClient.devices c !! message.Device item = None →
     message item c
       = Warn [("device", message.Device item)] (Some ErrDeviceNotFound)
           "could not find device" c)
  ∧ ∀ device,
      INDIClient.devices c !! message.Device item = Some device →
      INDIClient.devices (message item c)
        = <[message.Device item :=
              Device.mk (Device.Name device) (Device.TextProperties device)
                (Device.SwitchProperties device) (Device.NumberProperties device)
                (Device.BlobProperties device) (Device.LightProperties device)
                (Device.Messages device
                 ++ [Message.mk (time_Now (INDIClient.clock c))
                       (message.Message item)])]>
            (INDIClient.devices c)
      ∧ INDIClient.log (message item c) = INDIClient.log c
      ∧ INDIClient.fs (message item c) = INDIClient.fs c
      ∧ INDIClient.write (message item c) = INDIClient.write c
      ∧ INDIClient.blobStreams (message item c) = INDIClient.blobStreams c.
Proof.
  unfold message. split.
  - intros Hdev. by rewrite (findDevice_None _ _ Hdev).
  - intros device Hdev. by rewrite (findDevice_Some _ _ _ Hdev).
Qed.

Lemma message_appends_witness :
  ∃ device,
    INDIClient.devices
      (message (runtime := exampleRuntime) (message.mk "Camera" "" "") camera)
      !! "Camera" = Some device
    ∧ Message.Message <$> Device.Messages device = [""].
Proof.
  destruct (message_appends (runtime := exampleRuntime)
              (message.mk "Camera" "" "") camera) as [_ Hknown].
  edestruct Hknown as (Hdevices & _); [vm_compute; reflexivity|].
  eexists. split; [rewrite Hdevices; apply lookup_insert_eq|].
  vm_compute. reflexivity.
Defined.

Lemma lastNamed_name {O} (name : O → string) (k : string) (vals : list O)
    (val : O) :
  lastNamed name k vals = Some val → name val = k ∧ val ∈ vals.
Proof.
  unfold lastNamed. intros Hlast.
  assert (val ∈ filter (λ val, name val = k) vals) as Hin.
  { apply last_Some in Hlast as [l ->]. apply elem_of_app. right. by left. }
  by apply list_elem_of_filter in Hin.
Qed.

Lemma lastNamed_None {O} (name : O → string) (k : string) (vals : list O) :
  lastNamed name k vals = None ↔ k ∉ name <$> vals.
Proof.
  unfold lastNamed. rewrite last_None. split.
  - intros Hnil Hin. apply list_elem_of_fmap in Hin as (val & -> & Hin).
    assert (val ∈ filter (λ val', name val' = name val) vals) as Hf
      by by apply list_elem_of_filter.
    rewrite Hnil in Hf. by apply elem_of_nil in Hf.
  - intros Hnin. destruct (filter _ vals) as [|val l] eqn:Hf; [done|].
    exfalso. apply Hnin.
    assert (val ∈ filter (λ val', name val' = k) vals) as Hin
      by (rewrite Hf; by left).
    apply list_elem_of_filter in Hin as [<- Hin].
    apply list_elem_of_fmap. eauto.
Qed.

Lemma rangeDef_empty {O V} (name : O → string) (new : O → V) (vals : list O)
    (k : string) :
  rangeDef name new vals ∅ !! k = new <$> lastNamed name k vals.
Proof. rewrite rangeDef_lookup, lookup_empty. by destruct (lastNamed _ _ _). Qed.

Ltac def_vector_registers handler text c device :=
  unfold handler; rewrite findOrCreateDevice_default;
  fold device; unfold now;
  destruct (appendMessage_spec text []
              (INDIClient.set_clock (S (INDIClient.clock c)) c))
    as (? & ? & Hdevices & _);
  destruct (appendMessage text []
              (INDIClient.set_clock (S (INDIClient.clock c)) c))
    as [messages c2];
  eexists; split;
    [cbn [fst snd INDIClient.devices INDIClient.set_devices
          INDIClient.set_clock] in *;
     rewrite Hdevices; reflexivity|];
  cbn [fst snd] in *;
  split_and!; try done; intros k; apply rangeDef_empty.

(** X2. Every [def*Vector] stores one property under the name of the
    element in the map of its kind, in the registered device of that name
    or in a fresh device with five empty maps, and leaves the other
    properties of the device and the other devices as they were.  The
    stored property replaces any earlier one altogether: it has the name,
    label, group and state of the element (and its permission and rule,
    except that a BLOB property gets none), the reading of the clock as
    [LastUpdated], no messages but the message of the element, and as
    values exactly those of the element, by name; of two elements with one
    name the later one counts.  Values carry the name and label of their
    element and its trimmed character data; the values of a BLOB start
    with an empty path and size 0. *)
Theorem def_vector_registers {runtime : Runtime} :
  (∀ (item : defTextVector.t) (c : INDIClient.t),
     let device :=
       default (Device.mk (defTextVector.Device item) ∅ ∅ ∅ ∅ ∅ [])
         (INDIClient.devices c !! defTextVector.Device item) in
     ∃ prop,
       INDIClient.devices (defTextVector item c)
         = <[defTextVector.Device item :=
               Device.set_TextProperties
                 (<[defTextVector.Name item := prop]> (Device.TextProperties device))
                 device]> (INDIClient.devices c)
       ∧ TextProperty.Name prop = defTextVector.Name item
       ∧ TextProperty.Label prop = defTextVector.Label item
       ∧ TextProperty.Group prop = defTextVector.Group item
       ∧ TextProperty.State prop = defTextVector.State item
       ∧ TextProperty.Permissions prop = defTextVector.Perm item
       ∧ TextProperty.LastUpdated prop = time_Now (INDIClient.clock c)
       ∧ (∀ k, TextProperty.Values prop !! k
            = (λ val, TextValue.mk (defText.Name val) (defText.Label val)
                       (strings.TrimSpace (defText.Value val)))
                <$> lastNamed defText.Name k (defTextVector.Texts item))
       ∧ (defTextVector.Message item = "" → TextProperty.Messages prop = [])
       ∧ (defTextVector.Message item ≠ "" →
            ∃ t, TextProperty.Messages prop = [Message.mk t (defTextVector.Message item)]))
  ∧
  (∀ (item : defNumberVector.t) (c : INDIClient.t),
     let device :=
       default (Device.mk (defNumberVector.Device item) ∅ ∅ ∅ ∅ ∅ [])
         (INDIClient.devices c !! defNumberVector.Device item) in
     ∃ prop,
       INDIClient.devices (defNumberVector item c)
         = <[defNumberVector.Device item :=
               Device.set_NumberProperties
                 (<[defNumberVector.Name item := prop]> (Device.NumberProperties device))
                 device]> (INDIClient.devices c)
       ∧ NumberProperty.Name prop = defNumberVector.Name item
       ∧ NumberProperty.Label prop = defNumberVector.Label item
       ∧ NumberProperty.Group prop = defNumberVector.Group item
       ∧ NumberProperty.State prop = defNumberVector.State item
       ∧ NumberProperty.Permissions prop = defNumberVector.Perm item
       ∧ NumberProperty.LastUpdated prop = time_Now (INDIClient.clock c)
       ∧ (∀ k, NumberProperty.Values prop !! k
            = (λ val, NumberValue.mk (defNumber.Name val) (defNumber.Label val)
                       (strings.TrimSpace (defNumber.Value val))
                       (defNumber.Format val) (defNumber.Min val)
                       (defNumber.Max val) (defNumber.Step val))
                <$> lastNamed defNumber.Name k (defNumberVector.Numbers item))
       ∧ (defNumberVector.Message item = "" → NumberProperty.Messages prop = [])
       ∧ (defNumberVector.Message item ≠ "" →
            ∃ t, NumberProperty.Messages prop = [Message.mk t (defNumberVector.Message item)]))
  ∧
  (∀ (item : defSwitchVector.t) (c : INDIClient.t),
     let device :=
       default (Device.mk (defSwitchVector.Device item) ∅ ∅ ∅ ∅ ∅ [])
         (INDIClient.devices c !! defSwitchVector.Device item) in
     ∃ prop,
       INDIClient.devices (defSwitchVector item c)
         = <[defSwitchVector.Device item :=
               Device.set_SwitchProperties
                 (<[defSwitchVector.Name item := prop]> (Device.SwitchProperties device))
                 device]> (INDIClient.devices c)
       ∧ SwitchProperty.Name prop = defSwitchVector.Name item
       ∧ SwitchProperty.Label prop = defSwitchVector.Label item
       ∧ SwitchProperty.Group prop = defSwitchVector.Group item
       ∧ SwitchProperty.State prop = defSwitchVector.State item
       ∧ SwitchProperty.Permissions prop = defSwitchVector.Perm item
       ∧ SwitchProperty.Rule prop = defSwitchVector.Rule item
       ∧ SwitchProperty.LastUpdated prop = time_Now (INDIClient.clock c)
       ∧ (∀ k, SwitchProperty.Values prop !! k
            = (λ val, SwitchValue.mk (defSwitch.Name val) (defSwitch.Label val)
                       (strings.TrimSpace (defSwitch.Value val)))
                <$> lastNamed defSwitch.Name k (defSwitchVector.Switches item))
       ∧ (defSwitchVector.Message item = "" → SwitchProperty.Messages prop = [])
       ∧ (defSwitchVector.Message item ≠ "" →
            ∃ t, SwitchProperty.Messages prop = [Message.mk t (defSwitchVector.Message item)]))
  ∧
  (∀ (item : defLightVector.t) (c : INDIClient.t),
     let device :=
       default (Device.mk (defLightVector.Device item) ∅ ∅ ∅ ∅ ∅ [])
         (INDIClient.devices c !! defLightVector.Device item) in
     ∃ prop,
       INDIClient.devices (defLightVector item c)
         = <[defLightVector.Device item :=
               Device.set_LightProperties
                 (<[defLightVector.Name item := prop]> (Device.LightProperties device))
                 device]> (INDIClient.devices c)
       ∧ LightProperty.Name prop = defLightVector.Name item
       ∧ LightProperty.Label prop = defLightVector.Label item
       ∧ LightProperty.Group prop = defLightVector.Group item
       ∧ LightProperty.State prop = defLightVector.State item
       ∧ LightProperty.LastUpdated prop = time_Now (INDIClient.clock c)
       ∧ (∀ k, LightProperty.Values prop !! k
            = (λ val, LightValue.mk (defLight.Name val) (defLight.Label val)
                       (strings.TrimSpace (defLight.Value val)))
                <$> lastNamed defLight.Name k (defLightVector.Lights item))
       ∧ (defLightVector.Message item = "" → LightProperty.Messages prop = [])
       ∧ (defLightVector.Message item ≠ "" →
            ∃ t, LightProperty.Messages prop = [Message.mk t (defLightVector.Message item)]))
  ∧
  (∀ (item : defBlobVector.t) (c : INDIClient.t),
     let device :=
       default (Device.mk (defBlobVector.Device item) ∅ ∅ ∅ ∅ ∅ [])
         (INDIClient.devices c !! defBlobVector.Device item) in
     ∃ prop,
       INDIClient.devices (defBlobVector item c)
         = <[defBlobVector.Device item :=
               Device.set_BlobProperties
                 (<[defBlobVector.Name item := prop]> (Device.BlobProperties device))
                 device]> (INDIClient.devices c)
       ∧ BlobProperty.Name prop = defBlobVector.Name item
       ∧ BlobProperty.Label prop = defBlobVector.Label item
       ∧ BlobProperty.Group prop = defBlobVector.Group item
       ∧ BlobProperty.State prop = defBlobVector.State item
       ∧ BlobProperty.LastUpdated prop = time_Now (INDIClient.clock c)
       ∧ (∀ k, BlobProperty.Values prop !! k
            = (λ val, BlobValue.mk (defBlob.Name val) (defBlob.Label val) "" 0)
                <$> lastNamed defBlob.Name k (defBlobVector.Blobs item))
       ∧ (defBlobVector.Message item = "" → BlobProperty.Messages prop = [])
       ∧ (defBlobVector.Message item ≠ "" →
            ∃ t, BlobProperty.Messages prop = [Message.mk t (defBlobVector.Message item)])).
Proof.
  split_and!; intros item c device.
  - def_vector_registers (@defTextVector) (defTextVector.Message item) c device.
  - def_vector_registers (@defNumberVector) (defNumberVector.Message item) c
      device.
  - def_vector_registers (@defSwitchVector) (defSwitchVector.Message item) c
      device.
  - def_vector_registers (@defLightVector) (defLightVector.Message item) c
      device.
  - def_vector_registers (@defBlobVector) (defBlobVector.Message item) c device.
Qed.

Lemma def_vector_registers_witness :
  ∃ prop,
    INDIClient.devices
      (defSwitchVector (runtime := exampleRuntime) cameraBinning
         (connected emptyFs)) !! "Camera"
    = Some (Device.set_SwitchProperties {[ "Binning" := prop ]}
              (Device.mk "Camera" ∅ ∅ ∅ ∅ ∅ []))
    ∧ SwitchProperty.Values prop !! "Two"
      = Some (SwitchValue.mk "Two" "2:1" "On")
    ∧ SwitchProperty.Values prop !! "Three" = None
    ∧ SwitchProperty.Messages prop = [].
Proof.
  destruct (def_vector_registers (runtime := exampleRuntime))
    as (_ & _ & Hswitch & _).
  destruct (Hswitch cameraBinning (connected emptyFs))
    as (prop & Hdevices & _ & _ & _ & _ & _ & _ & _ & Hvalues & Hmessages & _).
  exists prop. split; [rewrite Hdevices; apply lookup_insert_eq|].
  split; [rewrite Hvalues; vm_compute; reflexivity|].
  split; [rewrite Hvalues; vm_compute; reflexivity|].
  by apply Hmessages.
Defined.
(** ** What each event does to the registry *)

Section effects.
Context {runtime : Runtime}.

Lemma defTextVector_devices (item : defTextVector.t) (c : INDIClient.t) :
  ∃ t messages,
    INDIClient.devices (defTextVector item c)
    = <[defTextVector.Device item :=
          Device.set_TextProperties
            (<[defTextVector.Name item :=
                 TextProperty.mk (defTextVector.Name item)
                   (defTextVector.Label item) (defTextVector.Group item)
                   (defTextVector.State item) 0 t messages
                   (defTextVector.Perm item)
                   (rangeDef defText.Name
                      (λ val, TextValue.mk (defText.Name val) (defText.Label val)
                                (strings.TrimSpace (defText.Value val)))
                      (defTextVector.Texts item) ∅)]>
               (Device.TextProperties
                  (findOrCreateDevice (defTextVector.Device item) c)))
            (findOrCreateDevice (defTextVector.Device item) c)]>
        (INDIClient.devices c).
Proof.
  unfold defTextVector, now.
  destruct (appendMessage_spec (defTextVector.Message item) []
              (INDIClient.set_clock (S (INDIClient.clock c)) c))
    as (_ & _ & Hdevices & _).
  destruct (appendMessage _ [] _) as [messages c2]. simpl in *.
  eexists _, _. by rewrite Hdevices.
Qed.

Lemma defNumberVector_devices (item : defNumberVector.t) (c : INDIClient.t) :
  ∃ t messages,
    INDIClient.devices (defNumberVector item c)
    = <[defNumberVector.Device item :=
          Device.set_NumberProperties
            (<[defNumberVector.Name item :=
                 NumberProperty.mk (defNumberVector.Name item)
                   (defNumberVector.Label item) (defNumberVector.Group item)
                   (defNumberVector.State item) 0 t messages
                   (defNumberVector.Perm item)
                   (rangeDef defNumber.Name
                      (λ val, NumberValue.mk (defNumber.Name val)
                                (defNumber.Label val)
                                (strings.TrimSpace (defNumber.Value val))
                                (defNumber.Format val) (defNumber.Min val)
                                (defNumber.Max val) (defNumber.Step val))
                      (defNumberVector.Numbers item) ∅)]>
               (Device.NumberProperties
                  (findOrCreateDevice (defNumberVector.Device item) c)))
            (findOrCreateDevice (defNumberVector.Device item) c)]>
        (INDIClient.devices c).
Proof.
  unfold defNumberVector, now.
  destruct (appendMessage_spec (defNumberVector.Message item) []
              (INDIClient.set_clock (S (INDIClient.clock c)) c))
    as (_ & _ & Hdevices & _).
  destruct (appendMessage _ [] _) as [messages c2]. simpl in *.
  eexists _, _. by rewrite Hdevices.
Qed.

Lemma defSwitchVector_devices (item : defSwitchVector.t) (c : INDIClient.t) :
  ∃ t messages,
    INDIClient.devices (defSwitchVector item c)
    = <[defSwitchVector.Device item :=
          Device.set_SwitchProperties
            (<[defSwitchVector.Name item :=
                 SwitchProperty.mk (defSwitchVector.Name item)
                   (defSwitchVector.Label item) (defSwitchVector.Group item)
                   (defSwitchVector.State item) 0 t messages
                   (defSwitchVector.Rule item) (defSwitchVector.Perm item)
                   (rangeDef defSwitch.Name
                      (λ val, SwitchValue.mk (defSwitch.Name val)
                                (defSwitch.Label val)
                                (strings.TrimSpace (defSwitch.Value val)))
                      (defSwitchVector.Switches item) ∅)]>
               (Device.SwitchProperties
                  (findOrCreateDevice (defSwitchVector.Device item) c)))
            (findOrCreateDevice (defSwitchVector.Device item) c)]>
        (INDIClient.devices c).
Proof.
  unfold defSwitchVector, now.
  destruct (appendMessage_spec (defSwitchVector.Message item) []
              (INDIClient.set_clock (S (INDIClient.clock c)) c))
    as (_ & _ & Hdevices & _).
  destruct (appendMessage _ [] _) as [messages c2]. simpl in *.
  eexists _, _. by rewrite Hdevices.
Qed.

Lemma defLightVector_devices (item : defLightVector.t) (c : INDIClient.t) :
  ∃ t messages,
    INDIClient.devices (defLightVector item c)
    = <[defLightVector.Device item :=
          Device.set_LightProperties
            (<[defLightVector.Name item :=
                 LightProperty.mk (defLightVector.Name item)
                   (defLightVector.Label item) (defLightVector.Group item)
                   (defLightVector.State item) t messages
                   (rangeDef defLight.Name
                      (λ val, LightValue.mk (defLight.Name val)
                                (defLight.Label val)
                                (strings.TrimSpace (defLight.Value val)))
                      (defLightVector.Lights item) ∅)]>
               (Device.LightProperties
                  (findOrCreateDevice (defLightVector.Device item) c)))
            (findOrCreateDevice (defLightVector.Device item) c)]>
        (INDIClient.devices c).
Proof.
  unfold defLightVector, now.
  destruct (appendMessage_spec (defLightVector.Message item) []
              (INDIClient.set_clock (S (INDIClient.clock c)) c))
    as (_ & _ & Hdevices & _).
  destruct (appendMessage _ [] _) as [messages c2]. simpl in *.
  eexists _, _. by rewrite Hdevices.
Qed.

Lemma defBlobVector_devices (item : defBlobVector.t) (c : INDIClient.t) :
  ∃ t messages,
    INDIClient.devices (defBlobVector item c)
    = <[defBlobVector.Device item :=
          Device.set_BlobProperties
            (<[defBlobVector.Name item :=
                 BlobProperty.mk (defBlobVector.Name item)
                   (defBlobVector.Label item) (defBlobVector.Group item)
                   (defBlobVector.State item) t messages "" 0
                   (rangeDef defBlob.Name
                      (λ val, BlobValue.mk (defBlob.Name val)
                                (defBlob.Label val) "" 0)
                      (defBlobVector.Blobs item) ∅)]>
               (Device.BlobProperties
                  (findOrCreateDevice (defBlobVector.Device item) c)))
            (findOrCreateDevice (defBlobVector.Device item) c)]>
        (INDIClient.devices c).
Proof.
  unfold defBlobVector, now.
  destruct (appendMessage_spec (defBlobVector.Message item) []
              (INDIClient.set_clock (S (INDIClient.clock c)) c))
    as (_ & _ & Hdevices & _).
  destruct (appendMessage _ [] _) as [messages c2]. simpl in *.
  eexists _, _. by rewrite Hdevices.
Qed.

Lemma setTextVector_devices (item : setTextVector.t) (c : INDIClient.t) :
  INDIClient.devices (setTextVector item c) = INDIClient.devices c
  ∨ ∃ device prop t messages,
      INDIClient.devices c !! setTextVector.Device item = Some device
      ∧ Device.TextProperties device !! setTextVector.Name item = Some prop
      ∧ INDIClient.devices (setTextVector item c)
        = <[setTextVector.Device item :=
             Device.set_TextProperties
               (<[setTextVector.Name item :=
                    TextProperty.mk (TextProperty.Name prop)
                      (TextProperty.Label prop) (TextProperty.Group prop)
                      (setTextVector.State item) (setTextVector.Timeout item)
                      t messages (TextProperty.Permissions prop)
                      (rangeSet oneText.Name
                         (λ val, TextValue.set_Value
                                   (strings.TrimSpace (oneText.Value val)))
                         (setTextVector.Texts item) (TextProperty.Values prop))]>
                  (Device.TextProperties device)) device]>
            (INDIClient.devices c).
Proof.
  destruct (INDIClient.devices c !! setTextVector.Device item)
    as [device|] eqn:Hdev;
    [destruct (Device.TextProperties device !! setTextVector.Name item)
       as [prop|] eqn:Hprop|].
  - right. eexists device, prop, _, _. split_and!; [done..|].
    rewrite (setTextVector_known item c device prop Hdev Hprop).
    cbn [INDIClient.devices INDIClient.set_devices].
    destruct (updateTime_spec (setTextVector.Timestamp item) c)
      as (_ & Hdevices1 & _).
    destruct (appendMessage_spec (setTextVector.Message item)
                (TextProperty.Messages prop)
                (updateTime (setTextVector.Timestamp item) c).2)
      as (_ & _ & Hdevices2 & _).
    by rewrite Hdevices2, Hdevices1.
  - left. unfold setTextVector.
    by rewrite (findDevice_Some _ _ _ Hdev), Hprop.
  - left. unfold setTextVector. by rewrite (findDevice_None _ _ Hdev).
Qed.

Lemma setNumberVector_devices (item : setNumberVector.t) (c : INDIClient.t) :
  INDIClient.devices (setNumberVector item c) = INDIClient.devices c
  ∨ ∃ device prop t messages,
      INDIClient.devices c !! setNumberVector.Device item = Some device
      ∧ Device.NumberProperties device !! setNumberVector.Name item = Some prop
      ∧ INDIClient.devices (setNumberVector item c)
        = <[setNumberVector.Device item :=
             Device.set_NumberProperties
               (<[setNumberVector.Name item :=
                    NumberProperty.mk (NumberProperty.Name prop)
                      (NumberProperty.Label prop) (NumberProperty.Group prop)
                      (setNumberVector.State item) (setNumberVector.Timeout item)
                      t messages (NumberProperty.Permissions prop)
                      (rangeSet oneNumber.Name
                         (λ val, NumberValue.set_Value
                                   (strings.TrimSpace (oneNumber.Value val)))
                         (setNumberVector.Numbers item)
                         (NumberProperty.Values prop))]>
                  (Device.NumberProperties device)) device]>
            (INDIClient.devices c).
Proof.
  destruct (INDIClient.devices c !! setNumberVector.Device item)
    as [device|] eqn:Hdev;
    [destruct (Device.NumberProperties device !! setNumberVector.Name item)
       as [prop|] eqn:Hprop|].
  - right. eexists device, prop, _, _. split_and!; [done..|].
    rewrite (setNumberVector_known item c device prop Hdev Hprop).
    cbn [INDIClient.devices INDIClient.set_devices].
    destruct (updateTime_spec (setNumberVector.Timestamp item) c)
      as (_ & Hdevices1 & _).
    destruct (appendMessage_spec (setNumberVector.Message item)
                (NumberProperty.Messages prop)
                (updateTime (setNumberVector.Timestamp item) c).2)
      as (_ & _ & Hdevices2 & _).
    by rewrite Hdevices2, Hdevices1.
  - left. unfold setNumberVector.
    by rewrite (findDevice_Some _ _ _ Hdev), Hprop.
  - left. unfold setNumberVector. by rewrite (findDevice_None _ _ Hdev).
Qed.

Lemma setSwitchVector_devices (item : setSwitchVector.t) (c : INDIClient.t) :
  INDIClient.devices (setSwitchVector item c) = INDIClient.devices c
  ∨ ∃ device prop t messages,
      INDIClient.devices c !! setSwitchVector.Device item = Some device
      ∧ Device.SwitchProperties device !! setSwitchVector.Name item = Some prop
      ∧ INDIClient.devices (setSwitchVector item c)
        = <[setSwitchVector.Device item :=
             Device.set_SwitchProperties
               (<[setSwitchVector.Name item :=
                    SwitchProperty.mk (SwitchProperty.Name prop)
                      (SwitchProperty.Label prop) (SwitchProperty.Group prop)
                      (setSwitchVector.State item) (setSwitchVector.Timeout item)
                      t messages (SwitchProperty.Rule prop)
                      (SwitchProperty.Permissions prop)
                      (rangeSet oneSwitch.Name
                         (λ val, SwitchValue.set_Value
                                   (strings.TrimSpace (oneSwitch.Value val)))
                         (setSwitchVector.Switches item)
                         (SwitchProperty.Values prop))]>
                  (Device.SwitchProperties device)) device]>
            (INDIClient.devices c).
Proof.
  destruct (INDIClient.devices c !! setSwitchVector.Device item)
    as [device|] eqn:Hdev;
    [destruct (Device.SwitchProperties device !! setSwitchVector.Name item)
       as [prop|] eqn:Hprop|].
  - right. eexists device, prop, _, _. split_and!; [done..|].
    rewrite (setSwitchVector_known item c device prop Hdev Hprop).
    cbn [INDIClient.devices INDIClient.set_devices].
    destruct (updateTime_spec (setSwitchVector.Timestamp item) c)
      as (_ & Hdevices1 & _).
    destruct (appendMessage_spec (setSwitchVector.Message item)
                (SwitchProperty.Messages prop)
                (updateTime (setSwitchVector.Timestamp item) c).2)
      as (_ & _ & Hdevices2 & _).
    by rewrite Hdevices2, Hdevices1.
  - left. unfold setSwitchVector.
    by rewrite (findDevice_Some _ _ _ Hdev), Hprop.
  - left. unfold setSwitchVector. by rewrite (findDevice_None _ _ Hdev).
Qed.

Lemma setLightVector_devices (item : setLightVector.t) (c : INDIClient.t) :
  INDIClient.devices (setLightVector item c) = INDIClient.devices c
  ∨ ∃ device prop t messages,
      INDIClient.devices c !! setLightVector.Device item = Some device
      ∧ Device.LightProperties device !! setLightVector.Name item = Some prop
      ∧ INDIClient.devices (setLightVector item c)
        = <[setLightVector.Device item :=
             Device.set_LightProperties
               (<[setLightVector.Name item :=
                    LightProperty.mk (LightProperty.Name prop)
                      (LightProperty.Label prop) (LightProperty.Group prop)
                      (setLightVector.State item) t messages
                      (rangeSet oneLight.Name
                         (λ val, LightValue.set_Value
                                   (strings.TrimSpace (oneLight.Value val)))
                         (setLightVector.Lights item)
                         (LightProperty.Values prop))]>
                  (Device.LightProperties device)) device]>
            (INDIClient.devices c).
Proof.
  destruct (INDIClient.devices c !! setLightVector.Device item)
    as [device|] eqn:Hdev;
    [destruct (Device.LightProperties device !! setLightVector.Name item)
       as [prop|] eqn:Hprop|].
  - right. eexists device, prop, _, _. split_and!; [done..|].
    rewrite (setLightVector_known item c device prop Hdev Hprop).
    cbn [INDIClient.devices INDIClient.set_devices].
    destruct (updateTime_spec (setLightVector.Timestamp item) c)
      as (_ & Hdevices1 & _).
    destruct (appendMessage_spec (setLightVector.Message item)
                (LightProperty.Messages prop)
                (updateTime (setLightVector.Timestamp item) c).2)
      as (_ & _ & Hdevices2 & _).
    by rewrite Hdevices2, Hdevices1.
  - left. unfold setLightVector.
    by rewrite (findDevice_Some _ _ _ Hdev), Hprop.
  - left. unfold setLightVector. by rewrite (findDevice_None _ _ Hdev).
Qed.

Lemma setBlobVector_devices (item : setBlobVector.t) (c : INDIClient.t) :
  INDIClient.devices (setBlobVector item c) = INDIClient.devices c
  ∨ ∃ device prop t messages values,
      INDIClient.devices c !! setBlobVector.Device item = Some device
      ∧ Device.BlobProperties device !! setBlobVector.Name item = Some prop
      ∧ values
        = (foldl (setBlob item)
             (BlobProperty.Values prop,
              (updateTime (setBlobVector.Timestamp item) c).2)
             (setBlobVector.Blobs item)).1
      ∧ INDIClient.devices (setBlobVector item c)
        = <[setBlobVector.Device item :=
             Device.set_BlobProperties
               (<[setBlobVector.Name item :=
                    BlobProperty.mk (BlobProperty.Name prop)
                      (BlobProperty.Label prop) (BlobProperty.Group prop)
                      (setBlobVector.State item) t messages
                      (BlobProperty.Permissions prop)
                      (setBlobVector.Timeout item) values]>
                  (Device.BlobProperties device)) device]>
            (INDIClient.devices c).
Proof.
  destruct (INDIClient.devices c !! setBlobVector.Device item)
    as [device|] eqn:Hdev;
    [destruct (Device.BlobProperties device !! setBlobVector.Name item)
       as [prop|] eqn:Hprop|].
  - right. eexists device, prop, _, _, _. split_and!; [done..|].
    rewrite (setBlobVector_known item c device prop Hdev Hprop).
    cbn [INDIClient.devices INDIClient.set_devices].
    destruct (updateTime_spec (setBlobVector.Timestamp item) c)
      as (_ & Hdevices1 & _).
    destruct (setBlobs_frame item (setBlobVector.Blobs item)
                (BlobProperty.Values prop)
                (updateTime (setBlobVector.Timestamp item) c).2)
      as ((Hdevices2 & _) & _).
    destruct (appendMessage_spec (setBlobVector.Message item)
                (BlobProperty.Messages prop)
                (foldl (setBlob item)
                   (BlobProperty.Values prop,
                    (updateTime (setBlobVector.Timestamp item) c).2)
                   (setBlobVector.Blobs item)).2)
      as (_ & _ & Hdevices3 & _).
    by rewrite Hdevices3, Hdevices2, Hdevices1.
  - left. unfold setBlobVector.
    by rewrite (findDevice_Some _ _ _ Hdev), Hprop.
  - left. unfold setBlobVector. by rewrite (findDevice_None _ _ Hdev).
Qed.

Lemma send_devices (cmd : Command) (c : INDIClient.t) :
  INDIClient.devices (leaves (send cmd c)) = INDIClient.devices c.
Proof. unfold send. by destruct (INDIClient.write c). Qed.

Lemma SetTextValue_devices (deviceName propName textName textValue : string) (c : INDIClient.t) :
  INDIClient.devices (leaves (SetTextValue deviceName propName textName textValue c)) = INDIClient.devices c
  ∨ ∃ device prop,
      INDIClient.devices c !! deviceName = Some device
      ∧ Device.TextProperties device !! propName = Some prop
      ∧ TextProperty.Permissions prop ≠ PropertyPermissionReadOnly
      ∧ INDIClient.devices (leaves (SetTextValue deviceName propName textName textValue c))
        = <[deviceName :=
              Device.set_TextProperties
                (<[propName := TextProperty.set_State PropertyStateBusy prop]>
                   (Device.TextProperties device)) device]>
            (INDIClient.devices c).
Proof.
  unfold SetTextValue.
  destruct (INDIClient.devices c !! deviceName) as [device|] eqn:Hdev;
    [rewrite (findDevice_Some _ _ _ Hdev)
    |rewrite (findDevice_None _ _ Hdev); by left].
  destruct (Device.TextProperties device !! propName) as [prop|] eqn:Hprop;
    [|by left].
  case_decide; [by left|].
  destruct (TextProperty.Values prop !! _); [|by left].
  right. exists device, prop. split_and!; [done..|].
  by rewrite send_devices.
Qed.

Lemma SetNumberValue_devices (deviceName propName NumberName NumberValue : string) (c : INDIClient.t) :
  INDIClient.devices (leaves (SetNumberValue deviceName propName NumberName NumberValue c)) = INDIClient.devices c
  ∨ ∃ device prop,
      INDIClient.devices c !! deviceName = Some device
      ∧ Device.NumberProperties device !! propName = Some prop
      ∧ NumberProperty.Permissions prop ≠ PropertyPermissionReadOnly
      ∧ INDIClient.devices (leaves (SetNumberValue deviceName propName NumberName NumberValue c))
        = <[deviceName :=
              Device.set_NumberProperties
                (<[propName := NumberProperty.set_State PropertyStateBusy prop]>
                   (Device.NumberProperties device)) device]>
            (INDIClient.devices c).
Proof.
  unfold SetNumberValue.
  destruct (INDIClient.devices c !! deviceName) as [device|] eqn:Hdev;
    [rewrite (findDevice_Some _ _ _ Hdev)
    |rewrite (findDevice_None _ _ Hdev); by left].
  destruct (Device.NumberProperties device !! propName) as [prop|] eqn:Hprop;
    [|by left].
  case_decide; [by left|].
  destruct (NumberProperty.Values prop !! _); [|by left].
  right. exists device, prop. split_and!; [done..|].
  by rewrite send_devices.
Qed.

Lemma SetSwitchValue_devices (deviceName propName switchName switchValue : string) (c : INDIClient.t) :
  INDIClient.devices (leaves (SetSwitchValue deviceName propName switchName switchValue c)) = INDIClient.devices c
  ∨ ∃ device prop,
      INDIClient.devices c !! deviceName = Some device
      ∧ Device.SwitchProperties device !! propName = Some prop
      ∧ SwitchProperty.Permissions prop ≠ PropertyPermissionReadOnly
      ∧ INDIClient.devices (leaves (SetSwitchValue deviceName propName switchName switchValue c))
        = <[deviceName :=
              Device.set_SwitchProperties
                (<[propName := SwitchProperty.set_State PropertyStateBusy prop]>
                   (Device.SwitchProperties device)) device]>
            (INDIClient.devices c).
Proof.
  unfold SetSwitchValue.
  destruct (INDIClient.devices c !! deviceName) as [device|] eqn:Hdev;
    [rewrite (findDevice_Some _ _ _ Hdev)
    |rewrite (findDevice_None _ _ Hdev); by left].
  destruct (Device.SwitchProperties device !! propName) as [prop|] eqn:Hprop;
    [|by left].
  case_decide; [by left|].
  destruct (SwitchProperty.Values prop !! _); [|by left].
  right. exists device, prop. split_and!; [done..|].
  by rewrite send_devices.
Qed.

Lemma SetBlobValue_devices (deviceName propName blobName blobValue blobFormat : string)
    (blobSize : Z) (c : INDIClient.t) :
  INDIClient.devices (leaves (SetBlobValue deviceName propName blobName blobValue blobFormat blobSize c)) = INDIClient.devices c
  ∨ ∃ device prop,
      INDIClient.devices c !! deviceName = Some device
      ∧ Device.BlobProperties device !! propName = Some prop
      ∧ BlobProperty.Permissions prop ≠ PropertyPermissionReadOnly
      ∧ INDIClient.devices (leaves (SetBlobValue deviceName propName blobName blobValue blobFormat blobSize c))
        = <[deviceName :=
              Device.set_BlobProperties
                (<[propName := BlobProperty.set_State PropertyStateBusy prop]>
                   (Device.BlobProperties device)) device]>
            (INDIClient.devices c).
Proof.
  unfold SetBlobValue.
  destruct (INDIClient.devices c !! deviceName) as [device|] eqn:Hdev;
    [rewrite (findDevice_Some _ _ _ Hdev)
    |rewrite (findDevice_None _ _ Hdev); by left].
  destruct (Device.BlobProperties device !! propName) as [prop|] eqn:Hprop;
    [|by left].
  case_decide; [by left|].
  destruct (BlobProperty.Values prop !! _); [|by left].
  right. exists device, prop. split_and!; [done..|].
  by rewrite send_devices.
Qed.

Lemma message_devices (item : message.t) (c : INDIClient.t) :
  INDIClient.devices (message item c) = INDIClient.devices c
  ∨ ∃ device t,
      INDIClient.devices c !! message.Device item = Some device
      ∧ INDIClient.devices (message item c)
        = <[message.Device item :=
              Device.set_Messages
                (Device.Messages device ++ [Message.mk t (message.Message item)])
                device]>
            (INDIClient.devices c).
Proof.
  unfold message.
  destruct (INDIClient.devices c !! message.Device item) as [device|] eqn:Hdev;
    [rewrite (findDevice_Some _ _ _ Hdev)
    |rewrite (findDevice_None _ _ Hdev); by left].
  right. by exists device, (time_Now (INDIClient.clock c)).
Qed.

Lemma GetProperties_devices (deviceName propName : string) (c : INDIClient.t) :
  INDIClient.devices (leaves (GetProperties deviceName propName c))
  = INDIClient.devices c.
Proof.
  unfold GetProperties. case_bool_decide; [done|]. apply send_devices.
Qed.

Lemma EnableBlob_devices (deviceName propName : string) (val : BlobEnable)
    (c : INDIClient.t) :
  INDIClient.devices (leaves (EnableBlob deviceName propName val c))
  = INDIClient.devices c.
Proof.
  unfold EnableBlob. case_bool_decide; [done|].
  destruct (findDevice deviceName c) as [device [e|]]; [done|].
  apply send_devices.
Qed.

Lemma GetBlobStream_devices (deviceName propName blobName guid : string)
    (c : INDIClient.t) :
  INDIClient.devices (GetBlobStream deviceName propName blobName guid c).2
  = INDIClient.devices c.
Proof.
  unfold GetBlobStream.
  destruct (findDevice deviceName c) as [device [e|]]; [done|].
  destruct (Device.BlobProperties device !! propName) as [prop|]; [|done].
  by destruct (BlobProperty.Values prop !! blobName).
Qed.

Lemma CloseBlobStream_devices (deviceName propName blobName id : string)
    (c : INDIClient.t) :
  INDIClient.devices (CloseBlobStream deviceName propName blobName id c).2
  = INDIClient.devices c.
Proof.
  unfold CloseBlobStream.
  destruct (findDevice deviceName c) as [device [e|]]; [done|].
  destruct (Device.BlobProperties device !! propName) as [prop|]; [|done].
  destruct (BlobProperty.Values prop !! blobName); [|done].
  destruct (INDIClient.blobStreams c !! _) as [writers|]; [|done].
  by destruct (writers !! id).
Qed.

End effects.

(** ** Invariants of the registry *)

Section invariants.
Context {runtime : Runtime}.

Lemma keyedProps_insert {P V} (pname : P → string)
    (values : P → gmap string V) (vname : V → string) (m : gmap string P)
    (k : string) (p : P) :
  keyedProps pname values vname m → pname p = k →
  (∀ j v, values p !! j = Some v → vname v = j) →
  keyedProps pname values vname (<[k := p]> m).
Proof.
  intros Hm Hp Hv k' p'. rewrite lookup_insert.
  case_decide; [|apply Hm]. intros [= <-]. by subst.
Qed.

Lemma keyedProps_delete {P V} (pname : P → string)
    (values : P → gmap string V) (vname : V → string) (m : gmap string P)
    (k : string) :
  keyedProps pname values vname m → keyedProps pname values vname (delete k m).
Proof.
  intros Hm k' p'. rewrite lookup_delete. case_decide; [done|apply Hm].
Qed.

Lemma keyedProps_empty {P V} (pname : P → string)
    (values : P → gmap string V) (vname : V → string) :
  keyedProps pname values vname ∅.
Proof. intros k p. by rewrite lookup_empty. Qed.

Lemma keyed_rangeDef {O V} (name : O → string) (new : O → V)
    (vname : V → string) (vals : list O) :
  (∀ val, vname (new val) = name val) →
  ∀ j v, rangeDef name new vals ∅ !! j = Some v → vname v = j.
Proof.
  intros Hnew j v. rewrite rangeDef_empty.
  destruct (lastNamed name j vals) as [val|] eqn:Hlast; [|done].
  intros [= <-]. rewrite Hnew. by apply lastNamed_name in Hlast as [? _].
Qed.

Lemma keyed_rangeSet {O V} (name : O → string) (upd : O → V → V)
    (vname : V → string) (vals : list O) (values : gmap string V) :
  (∀ val v, vname (upd val v) = vname v) →
  (∀ j v, values !! j = Some v → vname v = j) →
  ∀ j v, rangeSet name upd vals values !! j = Some v → vname v = j.
Proof.
  intros Hupd Hvalues j v. rewrite rangeSet_lookup.
  destruct (values !! j) as [v0|] eqn:Hv0; [|done]. intros [= <-].
  transitivity (vname v0); [|by apply Hvalues]. clear Hv0. revert v0.
  induction vals as [|val vals IH]; intros v0; [done|]. simpl.
  rewrite IH. case_decide; [apply Hupd|done].
Qed.

Lemma keyed_setBlobs (item : setBlobVector.t) (vals : list oneBlob.t)
    (values : gmap string BlobValue.t) (c : INDIClient.t) :
  (∀ j v, values !! j = Some v → BlobValue.Name v = j) →
  ∀ j v, (foldl (setBlob item) (values, c) vals).1 !! j = Some v →
    BlobValue.Name v = j.
Proof.
  intros Hvalues j v Hv.
  destruct (setBlobs_frame item vals values c) as (_ & _ & Hnone & Hsome).
  destruct (values !! j) as [v0|] eqn:Hv0.
  - destruct (Hsome j v0 Hv0) as (v' & Hv' & Hname & _).
    rewrite Hv in Hv'. injection Hv' as <-. rewrite Hname. by apply Hvalues.
  - by rewrite (Hnone j Hv0) in Hv.
Qed.

Lemma wellNamed_findOrCreateDevice (name : string) (c : INDIClient.t) :
  wellNamed c →
  Device.Name (findOrCreateDevice name c) = name
  ∧ wellNamedDevice (findOrCreateDevice name c).
Proof.
  intros Hc. rewrite findOrCreateDevice_default.
  destruct (INDIClient.devices c !! name) as [d|] eqn:Hd; simpl.
  - by apply Hc.
  - split; [done|]. split_and!; apply keyedProps_empty.
Qed.

Lemma wellNamed_same (c c' : INDIClient.t) :
  INDIClient.devices c' = INDIClient.devices c → wellNamed c → wellNamed c'.
Proof. unfold wellNamed. by intros ->. Qed.

Lemma wellNamed_insert (c c' : INDIClient.t) (name : string) (d : Device.t) :
  wellNamed c →
  INDIClient.devices c' = <[name := d]> (INDIClient.devices c) →
  Device.Name d = name → wellNamedDevice d → wellNamed c'.
Proof.
  intros Hc Hd Hname Hwf k d'. rewrite Hd, lookup_insert.
  case_decide; [|apply Hc]. intros [= <-]. by subst.
Qed.

Lemma keyedProps_update {P V} (pname : P → string)
    (values : P → gmap string V) (vname : V → string) (m : gmap string P)
    (k : string) (p p' : P) :
  keyedProps pname values vname m → m !! k = Some p → pname p' = pname p →
  (∀ j v, values p' !! j = Some v → vname v = j) →
  keyedProps pname values vname (<[k := p']> m).
Proof.
  intros Hm Hp Hname Hv. apply keyedProps_insert; [done| |done].
  rewrite Hname. by apply (Hm k p).
Qed.

Lemma keyedProps_values {P V} (pname : P → string)
    (values : P → gmap string V) (vname : V → string) (m : gmap string P)
    (k : string) (p : P) :
  keyedProps pname values vname m → m !! k = Some p →
  ∀ j v, values p !! j = Some v → vname v = j.
Proof. intros Hm Hp. by apply (Hm k p). Qed.

Ltac wellNamed_def Hc lemma :=
  let Hd := fresh "Hd" in
  destruct lemma as (t & messages & Hd);
  match type of Hd with
  | _ = <[?name := _ _ (findOrCreateDevice ?name ?c)]> _ =>
      destruct (wellNamed_findOrCreateDevice name c Hc) as (? & ? & ? & ? & ? & ?)
  end;
  eapply wellNamed_insert; [exact Hc|exact Hd|assumption|];
  split_and!; try assumption;
  apply keyedProps_insert; [assumption|done|];
  by apply keyed_rangeDef.

Ltac wellNamed_known Hc Hdev Hprop Hd :=
  destruct (Hc _ _ Hdev) as (? & ? & ? & ? & ? & ?);
  eapply wellNamed_insert; [exact Hc|exact Hd|assumption|];
  split_and!; try assumption;
  eapply keyedProps_update; [eassumption|exact Hprop|done|].

Lemma dispatch_wellNamed (i : Item) (c : INDIClient.t) :
  wellNamed c → wellNamed (dispatch i c).
Proof.
  intros Hc. destruct i as [item|item|item|item|item|item|item|item|item|item
                            |item|item]; cbn [dispatch].
  - wellNamed_def Hc (defTextVector_devices item c).
  - wellNamed_def Hc (defSwitchVector_devices item c).
  - wellNamed_def Hc (defNumberVector_devices item c).
  - wellNamed_def Hc (defLightVector_devices item c).
  - wellNamed_def Hc (defBlobVector_devices item c).
  - destruct (setSwitchVector_devices item c)
      as [Hd|(device & prop & t & messages & Hdev & Hprop & Hd)];
      [by eapply wellNamed_same|].
    wellNamed_known Hc Hdev Hprop Hd.
    apply keyed_rangeSet; [done|]. by eapply keyedProps_values.
  - destruct (setTextVector_devices item c)
      as [Hd|(device & prop & t & messages & Hdev & Hprop & Hd)];
      [by eapply wellNamed_same|].
    wellNamed_known Hc Hdev Hprop Hd.
    apply keyed_rangeSet; [done|]. by eapply keyedProps_values.
  - destruct (setNumberVector_devices item c)
      as [Hd|(device & prop & t & messages & Hdev & Hprop & Hd)];
      [by eapply wellNamed_same|].
    wellNamed_known Hc Hdev Hprop Hd.
    apply keyed_rangeSet; [done|]. by eapply keyedProps_values.
  - destruct (setLightVector_devices item c)
      as [Hd|(device & prop & t & messages & Hdev & Hprop & Hd)];
      [by eapply wellNamed_same|].
    wellNamed_known Hc Hdev Hprop Hd.
    apply keyed_rangeSet; [done|]. by eapply keyedProps_values.
  - destruct (setBlobVector_devices item c)
      as [Hd|(device & prop & t & messages & values & Hdev & Hprop & -> & Hd)];
      [by eapply wellNamed_same|].
    wellNamed_known Hc Hdev Hprop Hd.
    apply keyed_setBlobs. by eapply keyedProps_values.
  - destruct (message_devices item c) as [Hd|(device & t & Hdev & Hd)];
      [by eapply wellNamed_same|].
    destruct (Hc _ _ Hdev) as (Hname & Hwf).
    by eapply wellNamed_insert.
  - destruct (decide (delProperty.Device item = "")) as [Hdevice|Hdevice];
      [|destruct (decide (delProperty.Name item = "")) as [Hprop|Hprop]].
    + rewrite delProperty_all by done. intros k d. simpl.
      by rewrite lookup_empty.
    + rewrite delProperty_device by done. intros k d. simpl.
      rewrite lookup_delete. case_decide; [done|apply Hc].
    + rewrite delProperty_property by done.
      destruct (wellNamed_findOrCreateDevice (delProperty.Device item) c Hc)
        as (Hname & Htext & Hswitch & Hnumber & Hblob & Hlight).
      eapply wellNamed_insert; [exact Hc|reflexivity|exact Hname|].
      split_and!; by apply keyedProps_delete.
Qed.

Lemma call_wellNamed (k : Call) (c : INDIClient.t) :
  wellNamed c → wellNamed (call k c).
Proof.
  intros Hc.
  destruct k as [dn pn|dn pn val|dn pn vn v|dn pn vn v|dn pn vn v
                |dn pn vn v format size|dn pn vn guid|dn pn vn id];
    cbn [call].
  - eapply wellNamed_same; [apply GetProperties_devices|done].
  - eapply wellNamed_same; [apply EnableBlob_devices|done].
  - destruct (SetTextValue_devices dn pn vn v c)
      as [Hd|(device & prop & Hdev & Hprop & _ & Hd)];
      [by eapply wellNamed_same|].
    wellNamed_known Hc Hdev Hprop Hd. simpl. by eapply keyedProps_values.
  - destruct (SetNumberValue_devices dn pn vn v c)
      as [Hd|(device & prop & Hdev & Hprop & _ & Hd)];
      [by eapply wellNamed_same|].
    wellNamed_known Hc Hdev Hprop Hd. simpl. by eapply keyedProps_values.
  - destruct (SetSwitchValue_devices dn pn vn v c)
      as [Hd|(device & prop & Hdev & Hprop & _ & Hd)];
      [by eapply wellNamed_same|].
    wellNamed_known Hc Hdev Hprop Hd. simpl. by eapply keyedProps_values.
  - destruct (SetBlobValue_devices dn pn vn v format size c)
      as [Hd|(device & prop & Hdev & Hprop & _ & Hd)];
      [by eapply wellNamed_same|].
    wellNamed_known Hc Hdev Hprop Hd. simpl. by eapply keyedProps_values.
  - eapply wellNamed_same; [apply GetBlobStream_devices|done].
  - eapply wellNamed_same; [apply CloseBlobStream_devices|done].
Qed.

Lemma run_snoc (events : list Event) (e : Event) (c : INDIClient.t) :
  run (events ++ [e]) c = step e (run events c).
Proof. unfold run. by rewrite foldl_app. Qed.

Lemma run_wellNamed (events : list Event) (c : INDIClient.t) :
  wellNamed c → wellNamed (run events c).
Proof.
  intros Hc. induction events as [|e events IH] using rev_ind; [done|].
  rewrite run_snoc. destruct e; [by apply dispatch_wellNamed|].
  by apply call_wellNamed.
Qed.

Lemma blobsUnrestricted_same (c c' : INDIClient.t) :
  INDIClient.devices c' = INDIClient.devices c →
  blobsUnrestricted c → blobsUnrestricted c'.
Proof. unfold blobsUnrestricted. by intros ->. Qed.

Lemma blobsUnrestricted_insert (c c' : INDIClient.t) (name : string)
    (d : Device.t) :
  blobsUnrestricted c →
  INDIClient.devices c' = <[name := d]> (INDIClient.devices c) →
  (∀ n p, Device.BlobProperties d !! n = Some p →
     BlobProperty.Permissions p = "") →
  blobsUnrestricted c'.
Proof.
  intros Hc Hd Hblob k d' n p. rewrite Hd, lookup_insert.
  case_decide; [|apply Hc]. intros [= <-]. apply Hblob.
Qed.

Lemma blobsUnrestricted_findOrCreateDevice (name : string) (c : INDIClient.t) :
  blobsUnrestricted c →
  ∀ n p, Device.BlobProperties (findOrCreateDevice name c) !! n = Some p →
    BlobProperty.Permissions p = "".
Proof.
  intros Hc n p. rewrite findOrCreateDevice_default.
  destruct (INDIClient.devices c !! name) as [d|] eqn:Hd; simpl.
  - by apply (Hc name d).
  - by rewrite lookup_empty.
Qed.

Ltac blobsUnrestricted_def Hc lemma :=
  let Hd := fresh "Hd" in
  destruct lemma as (t & messages & Hd);
  eapply blobsUnrestricted_insert; [exact Hc|exact Hd|];
  by apply blobsUnrestricted_findOrCreateDevice.

Ltac blobsUnrestricted_known Hc Hdev Hd :=
  eapply blobsUnrestricted_insert; [exact Hc|exact Hd|];
  intros n p; by apply (Hc _ _ n p Hdev).

Lemma dispatch_blobsUnrestricted (i : Item) (c : INDIClient.t) :
  blobsUnrestricted c → blobsUnrestricted (dispatch i c).
Proof.
  intros Hc. destruct i as [item|item|item|item|item|item|item|item|item|item
                            |item|item]; cbn [dispatch].
  - blobsUnrestricted_def Hc (defTextVector_devices item c).
  - blobsUnrestricted_def Hc (defSwitchVector_devices item c).
  - blobsUnrestricted_def Hc (defNumberVector_devices item c).
  - blobsUnrestricted_def Hc (defLightVector_devices item c).
  - destruct (defBlobVector_devices item c) as (t & messages & Hd).
    eapply blobsUnrestricted_insert; [exact Hc|exact Hd|].
    intros n p. simpl. rewrite lookup_insert. case_decide.
    + by intros [= <-].
    + by apply blobsUnrestricted_findOrCreateDevice.
  - destruct (setSwitchVector_devices item c)
      as [Hd|(device & prop & t & messages & Hdev & Hprop & Hd)];
      [by eapply blobsUnrestricted_same|].
    blobsUnrestricted_known Hc Hdev Hd.
  - destruct (setTextVector_devices item c)
      as [Hd|(device & prop & t & messages & Hdev & Hprop & Hd)];
      [by eapply blobsUnrestricted_same|].
    blobsUnrestricted_known Hc Hdev Hd.
  - destruct (setNumberVector_devices item c)
      as [Hd|(device & prop & t & messages & Hdev & Hprop & Hd)];
      [by eapply blobsUnrestricted_same|].
    blobsUnrestricted_known Hc Hdev Hd.
  - destruct (setLightVector_devices item c)
      as [Hd|(device & prop & t & messages & Hdev & Hprop & Hd)];
      [by eapply blobsUnrestricted_same|].
    blobsUnrestricted_known Hc Hdev Hd.
  - destruct (setBlobVector_devices item c)
      as [Hd|(device & prop & t & messages & values & Hdev & Hprop & _ & Hd)];
      [by eapply blobsUnrestricted_same|].
    eapply blobsUnrestricted_insert; [exact Hc|exact Hd|].
    intros n p. simpl. rewrite lookup_insert. case_decide.
    + intros [= <-]. simpl. by apply (Hc _ _ _ _ Hdev Hprop).
    + by apply (Hc _ _ n p Hdev).
  - destruct (message_devices item c) as [Hd|(device & t & Hdev & Hd)];
      [by eapply blobsUnrestricted_same|].
    blobsUnrestricted_known Hc Hdev Hd.
  - destruct (decide (delProperty.Device item = "")) as [Hdevice|Hdevice];
      [|destruct (decide (delProperty.Name item = "")) as [Hprop|Hprop]].
    + rewrite delProperty_all by done. intros k d n p. simpl.
      by rewrite lookup_empty.
    + rewrite delProperty_device by done. intros k d n p. simpl.
      rewrite lookup_delete. case_decide; [done|apply Hc].
    + rewrite delProperty_property by done.
      eapply blobsUnrestricted_insert; [exact Hc|reflexivity|].
      intros n p. simpl. rewrite lookup_delete. case_decide; [done|].
      by apply blobsUnrestricted_findOrCreateDevice.
Qed.

Lemma call_blobsUnrestricted (k : Call) (c : INDIClient.t) :
  blobsUnrestricted c → blobsUnrestricted (call k c).
Proof.
  intros Hc.
  destruct k as [dn pn|dn pn val|dn pn vn v|dn pn vn v|dn pn vn v
                |dn pn vn v format size|dn pn vn guid|dn pn vn id];
    cbn [call].
  - eapply blobsUnrestricted_same; [apply GetProperties_devices|done].
  - eapply blobsUnrestricted_same; [apply EnableBlob_devices|done].
  - destruct (SetTextValue_devices dn pn vn v c)
      as [Hd|(device & prop & Hdev & Hprop & _ & Hd)];
      [by eapply blobsUnrestricted_same|].
    blobsUnrestricted_known Hc Hdev Hd.
  - destruct (SetNumberValue_devices dn pn vn v c)
      as [Hd|(device & prop & Hdev & Hprop & _ & Hd)];
      [by eapply blobsUnrestricted_same|].
    blobsUnrestricted_known Hc Hdev Hd.
  - destruct (SetSwitchValue_devices dn pn vn v c)
      as [Hd|(device & prop & Hdev & Hprop & _ & Hd)];
      [by eapply blobsUnrestricted_same|].
    blobsUnrestricted_known Hc Hdev Hd.
  - destruct (SetBlobValue_devices dn pn vn v format size c)
      as [Hd|(device & prop & Hdev & Hprop & _ & Hd)];
      [by eapply blobsUnrestricted_same|].
    eapply blobsUnrestricted_insert; [exact Hc|exact Hd|].
    intros n p. simpl. rewrite lookup_insert. case_decide.
    + intros [= <-]. simpl. by apply (Hc _ _ _ _ Hdev Hprop).
    + by apply (Hc _ _ n p Hdev).
  - eapply blobsUnrestricted_same; [apply GetBlobStream_devices|done].
  - eapply blobsUnrestricted_same; [apply CloseBlobStream_devices|done].
Qed.

Lemma run_blobsUnrestricted (events : list Event) (c : INDIClient.t) :
  blobsUnrestricted c → blobsUnrestricted (run events c).
Proof.
  intros Hc. induction events as [|e events IH] using rev_ind; [done|].
  rewrite run_snoc. destruct e; [by apply dispatch_blobsUnrestricted|].
  by apply call_blobsUnrestricted.
Qed.

End invariants.

(** X3. Names and keys agree.  When every device of the registry is stored
    under its name, every property of a device under the name of the
    property and every value of a property under the name of the value,
    this is still so after any sequence of inbound elements and calls of
    the facade; this holds in particular from the empty registry of a new
    client.  Every device that [Devices] lists is then the one that the
    registry holds under its name. *)
Theorem run_keeps_names {runtime : Runtime} (events : list Event)
    (c : INDIClient.t) :
  wellNamed c →
  wellNamed (run events c)
  ∧ ∀ d, d ∈ Devices (run events c) →
      INDIClient.devices (run events c) !! Device.Name d = Some d.
Proof.
  intros Hc. pose proof (run_wellNamed events c Hc) as Hrun.
  split; [done|]. intros d Hd. unfold Devices in Hd.
  apply list_elem_of_fmap in Hd as ([k d'] & -> & Hd).
  apply elem_of_map_to_list in Hd. simpl.
  by destruct (Hrun k d' Hd) as [-> _].
Qed.

Lemma run_keeps_names_witness :
  wellNamed (NewINDIClient emptyFs)
  ∧ (wellNamed
       (run (runtime := exampleRuntime)
          [Inbound (ItemDefTextVector cameraInfo);
           Inbound (ItemSetSwitchVector binningUpdate);
           Called (CallSetTextValue "Camera" "Info" "Model" "ST-9")]
          (NewINDIClient emptyFs))
     ∧ ∀ d,
         d ∈ Devices
               (run (runtime := exampleRuntime)
                  [Inbound (ItemDefTextVector cameraInfo);
                   Inbound (ItemSetSwitchVector binningUpdate);
                   Called (CallSetTextValue "Camera" "Info" "Model" "ST-9")]
                  (NewINDIClient emptyFs)) →
         INDIClient.devices
           (run (runtime := exampleRuntime)
              [Inbound (ItemDefTextVector cameraInfo);
               Inbound (ItemSetSwitchVector binningUpdate);
               Called (CallSetTextValue "Camera" "Info" "Model" "ST-9")]
              (NewINDIClient emptyFs))
         !! Device.Name d = Some d).
Proof.
  assert (wellNamed (NewINDIClient emptyFs)) as Hc.
  { intros k d. simpl. by rewrite lookup_empty. }
  split; [exact Hc|].
  exact (run_keeps_names (runtime := exampleRuntime) _ _ Hc).
Defined.

(** X4. A BLOB property is never read-only for the client.  From an empty
    registry, whatever elements arrive and whatever the facade is called
    with, no BLOB property of the registry carries a permission, also not
    one that the server defined with [perm="ro"]; so [SetBlobValue] never
    returns [ErrPropertyReadOnly]. *)
Theorem SetBlobValue_never_read_only {runtime : Runtime}
    (events : list Event) (c : INDIClient.t)
    (deviceName propName blobName blobValue blobFormat : string)
    (blobSize : Z) :
  INDIClient.devices c = ∅ →
  blobsUnrestricted (run events c)
  ∧ ∀ c', SetBlobValue deviceName propName blobName blobValue blobFormat
            blobSize (run events c)
          ≠ Returns (Some ErrPropertyReadOnly) c'.
Proof.
  intros Hempty.
  assert (blobsUnrestricted (run events c)) as Hrun.
  { apply run_blobsUnrestricted. intros k d n p. by rewrite Hempty, lookup_empty. }
  split; [done|]. intros c'. unfold SetBlobValue.
  destruct (INDIClient.devices (run events c) !! deviceName)
    as [device|] eqn:Hdev;
    [rewrite (findDevice_Some _ _ _ Hdev)
    |by rewrite (findDevice_None _ _ Hdev)].
  destruct (Device.BlobProperties device !! propName) as [prop|] eqn:Hprop;
    [|done].
  rewrite (Hrun _ _ _ _ Hdev Hprop). rewrite decide_False by done.
  destruct (BlobProperty.Values prop !! blobName); [|done].
  unfold send. by destruct (INDIClient.write _).
Qed.

Lemma SetBlobValue_never_read_only_witness :
  INDIClient.devices (connected emptyFs) = ∅
  ∧ (blobsUnrestricted
       (run (runtime := exampleRuntime) [Inbound (ItemDefBlobVector cameraCCD)]
          (connected emptyFs))
     ∧ ∀ c',
         SetBlobValue "Camera" "CCD1" "CCD1" "MTIz" ".fits" 3
           (run (runtime := exampleRuntime)
              [Inbound (ItemDefBlobVector cameraCCD)] (connected emptyFs))
         ≠ Returns (Some ErrPropertyReadOnly) c').
Proof.
  split; [reflexivity|].
  exact (SetBlobValue_never_read_only (runtime := exampleRuntime)
           [Inbound (ItemDefBlobVector cameraCCD)] (connected emptyFs)
           "Camera" "CCD1" "CCD1" "MTIz" ".fits" 3 eq_refl).
Defined.

(** ** What the server declares *)

Section declarations.
Context {runtime : Runtime}.

Lemma fmap_rangeSet {O V W} (name : O → string) (upd : O → V → V)
    (f : V → W) (vals : list O) (values : gmap string V) :
  (∀ val v, f (upd val v) = f v) →
  f <$> rangeSet name upd vals values = f <$> values.
Proof.
  intros Hupd. apply map_eq. intros k.
  rewrite !lookup_fmap, rangeSet_lookup.
  destruct (values !! k) as [v|]; [|done]. simpl. f_equal.
  revert v. induction vals as [|val vals IH]; intros v; [done|]. simpl.
  rewrite IH. case_decide; [apply Hupd|done].
Qed.

Lemma fmap_setBlobs (item : setBlobVector.t) (vals : list oneBlob.t)
    (values : gmap string BlobValue.t) (c : INDIClient.t) :
  (λ v, (BlobValue.Name v, BlobValue.Label v))
    <$> (foldl (setBlob item) (values, c) vals).1
  = (λ v, (BlobValue.Name v, BlobValue.Label v)) <$> values.
Proof.
  apply map_eq. intros k. rewrite !lookup_fmap.
  destruct (setBlobs_frame item vals values c) as (_ & _ & Hnone & Hsome).
  destruct (values !! k) as [v|] eqn:Hv.
  - destruct (Hsome k v Hv) as (v' & -> & Hname & Hlabel). simpl.
    by rewrite Hname, Hlabel.
  - by rewrite (Hnone k Hv).
Qed.

Lemma fmap_update {P W} (f : P → W) (m : gmap string P) (k : string)
    (p p' : P) :
  m !! k = Some p → f p' = f p → f <$> <[k := p']> m = f <$> m.
Proof.
  intros Hp Hf. rewrite fmap_insert, Hf. apply insert_id.
  by rewrite lookup_fmap, Hp.
Qed.

Lemma declared_same (c c' : INDIClient.t) :
  INDIClient.devices c' = INDIClient.devices c → declared c' = declared c.
Proof. unfold declared. by intros ->. Qed.

Lemma declared_update (c c' : INDIClient.t) (name : string)
    (device d : Device.t) :
  INDIClient.devices c !! name = Some device →
  INDIClient.devices c' = <[name := d]> (INDIClient.devices c) →
  deviceDeclared d = deviceDeclared device →
  declared c' = declared c.
Proof.
  intros Hdev Hc' Hd. unfold declared. rewrite Hc'.
  by apply fmap_update with device.
Qed.

Lemma deviceDeclared_text (d : Device.t) (m : gmap string TextProperty.t) :
  textDeclared <$> m = textDeclared <$> Device.TextProperties d →
  deviceDeclared (Device.set_TextProperties m d) = deviceDeclared d.
Proof. unfold deviceDeclared. simpl. by intros ->. Qed.

Lemma deviceDeclared_switch (d : Device.t) (m : gmap string SwitchProperty.t) :
  switchDeclared <$> m = switchDeclared <$> Device.SwitchProperties d →
  deviceDeclared (Device.set_SwitchProperties m d) = deviceDeclared d.
Proof. unfold deviceDeclared. simpl. by intros ->. Qed.

Lemma deviceDeclared_number (d : Device.t) (m : gmap string NumberProperty.t) :
  numberDeclared <$> m = numberDeclared <$> Device.NumberProperties d →
  deviceDeclared (Device.set_NumberProperties m d) = deviceDeclared d.
Proof. unfold deviceDeclared. simpl. by intros ->. Qed.

Lemma deviceDeclared_blob (d : Device.t) (m : gmap string BlobProperty.t) :
  blobDeclared <$> m = blobDeclared <$> Device.BlobProperties d →
  deviceDeclared (Device.set_BlobProperties m d) = deviceDeclared d.
Proof. unfold deviceDeclared. simpl. by intros ->. Qed.

Lemma deviceDeclared_light (d : Device.t) (m : gmap string LightProperty.t) :
  lightDeclared <$> m = lightDeclared <$> Device.LightProperties d →
  deviceDeclared (Device.set_LightProperties m d) = deviceDeclared d.
Proof. unfold deviceDeclared. simpl. by intros ->. Qed.

Ltac declared_known Hdev Hprop Hd :=
  eapply declared_update; [exact Hdev|exact Hd|];
  first [apply deviceDeclared_text|apply deviceDeclared_switch
        |apply deviceDeclared_number|apply deviceDeclared_blob
        |apply deviceDeclared_light];
  eapply fmap_update; [exact Hprop|].

Lemma step_declared (e : Event) (c : INDIClient.t) :
  declares e = false → declared (step e c) = declared c.
Proof.
  intros He.
  destruct e as [[item|item|item|item|item|item|item|item|item|item
                  |item|item]
                |[dn pn|dn pn val|dn pn vn v|dn pn vn v|dn pn vn v
                  |dn pn vn v format size|dn pn vn guid|dn pn vn id]];
    try discriminate He; cbn [step dispatch call].
  - destruct (setSwitchVector_devices item c)
      as [Hd|(device & prop & t & messages & Hdev & Hprop & Hd)];
      [by apply declared_same|].
    declared_known Hdev Hprop Hd.
    unfold switchDeclared. simpl. f_equal. by apply fmap_rangeSet.
  - destruct (setTextVector_devices item c)
      as [Hd|(device & prop & t & messages & Hdev & Hprop & Hd)];
      [by apply declared_same|].
    declared_known Hdev Hprop Hd.
    unfold textDeclared. simpl. f_equal. by apply fmap_rangeSet.
  - destruct (setNumberVector_devices item c)
      as [Hd|(device & prop & t & messages & Hdev & Hprop & Hd)];
      [by apply declared_same|].
    declared_known Hdev Hprop Hd.
    unfold numberDeclared. simpl. f_equal. by apply fmap_rangeSet.
  - destruct (setLightVector_devices item c)
      as [Hd|(device & prop & t & messages & Hdev & Hprop & Hd)];
      [by apply declared_same|].
    declared_known Hdev Hprop Hd.
    unfold lightDeclared. simpl. f_equal. by apply fmap_rangeSet.
  - destruct (setBlobVector_devices item c)
      as [Hd|(device & prop & t & messages & values & Hdev & Hprop & -> & Hd)];
      [by apply declared_same|].
    declared_known Hdev Hprop Hd.
    unfold blobDeclared. simpl. f_equal. apply fmap_setBlobs.
  - destruct (message_devices item c) as [Hd|(device & t & Hdev & Hd)];
      [by apply declared_same|].
    by eapply declared_update.
  - apply declared_same, GetProperties_devices.
  - apply declared_same, EnableBlob_devices.
  - destruct (SetTextValue_devices dn pn vn v c)
      as [Hd|(device & prop & Hdev & Hprop & _ & Hd)];
      [by apply declared_same|].
    by declared_known Hdev Hprop Hd.
  - destruct (SetNumberValue_devices dn pn vn v c)
      as [Hd|(device & prop & Hdev & Hprop & _ & Hd)];
      [by apply declared_same|].
    by declared_known Hdev Hprop Hd.
  - destruct (SetSwitchValue_devices dn pn vn v c)
      as [Hd|(device & prop & Hdev & Hprop & _ & Hd)];
      [by apply declared_same|].
    by declared_known Hdev Hprop Hd.
  - destruct (SetBlobValue_devices dn pn vn v format size c)
      as [Hd|(device & prop & Hdev & Hprop & _ & Hd)];
      [by apply declared_same|].
    by declared_known Hdev Hprop Hd.
  - apply declared_same, GetBlobStream_devices.
  - apply declared_same, CloseBlobStream_devices.
Qed.

End declarations.

(** X5. Only a definition or a deletion changes what is declared.  Over
    any sequence of [set*Vector] and [message] elements and of calls of
    [GetProperties], [EnableBlob], [SetTextValue], [SetNumberValue],
    [SetSwitchValue], [SetBlobValue], [GetBlobStream] and
    [CloseBlobStream], the registry keeps its devices, every device its
    properties and every property its values, and the names, labels,
    groups, permissions and rules, as well as the formats and bounds of the
    numbers, stay as they were defined.  The [def*Vector] and
    [delProperty] elements are left out, and so are [Connect] and
    [Disconnect], which clear the registry as a [delProperty] without a
    device does. *)
Theorem updates_keep_declarations {runtime : Runtime} (events : list Event)
    (c : INDIClient.t) :
  (∀ e, e ∈ events → declares e = false) →
  declared (run events c) = declared c.
Proof.
  induction events as [|e events IH] using rev_ind; intros Hevents; [done|].
  rewrite run_snoc, step_declared.
  - apply IH. intros e' He'. apply Hevents, elem_of_app. by left.
  - apply Hevents, elem_of_app. right. by left.
Qed.

Lemma updates_keep_declarations_witness :
  (∀ e,
     e ∈ [Inbound (ItemSetSwitchVector binningUpdate);
          Inbound (ItemSetBlobVector (cameraImage [imageBlob]));
          Called (CallSetSwitchValue "Camera" "Binning" "Two" "On")] →
     declares e = false)
  ∧ declared
      (run (runtime := exampleRuntime)
         [Inbound (ItemSetSwitchVector binningUpdate);
          Inbound (ItemSetBlobVector (cameraImage [imageBlob]));
          Called (CallSetSwitchValue "Camera" "Binning" "Two" "On")] camera)
    = declared camera.
Proof.
  assert (∀ e,
            e ∈ [Inbound (ItemSetSwitchVector binningUpdate);
                 Inbound (ItemSetBlobVector (cameraImage [imageBlob]));
                 Called (CallSetSwitchValue "Camera" "Binning" "Two" "On")] →
            declares e = false) as Hevents.
  { intros e He. repeat (apply elem_of_cons in He as [->|He]; [done|]).
    by apply elem_of_nil in He. }
  split; [exact Hevents|].
  exact (updates_keep_declarations (runtime := exampleRuntime) _ camera Hevents).
Defined.

(** ** BLOB streams *)

Section streams.
Context {runtime : Runtime}.

Lemma subscriber_same (key id : string) (c c' : INDIClient.t) :
  INDIClient.blobStreams c' = INDIClient.blobStreams c →
  subscriber key id c' = subscriber key id c.
Proof. unfold subscriber. by intros ->. Qed.

Lemma blobValue_Some (deviceName propName blobName : string)
    (c : INDIClient.t) (v : BlobValue.t) :
  blobValue deviceName propName blobName c = Some v ↔
  ∃ device prop,
    INDIClient.devices c !! deviceName = Some device
    ∧ Device.BlobProperties device !! propName = Some prop
    ∧ BlobProperty.Values prop !! blobName = Some v.
Proof.
  unfold blobValue. split.
  - destruct (INDIClient.devices c !! deviceName) as [device|]; [|done].
    simpl.
    destruct (Device.BlobProperties device !! propName) as [prop|] eqn:Hprop;
      [|done]. simpl. intros Hv. by exists device, prop.
  - intros (device & prop & -> & Hprop & Hv). simpl. by rewrite Hprop.
Qed.

Lemma GetBlobStream_registers (deviceName propName blobName guid : string)
    (c : INDIClient.t) (v : BlobValue.t) :
  blobValue deviceName propName blobName c = Some v →
  GetBlobStream deviceName propName blobName guid c
  = (inr guid,
     INDIClient.set_blobStreams
       (<[blobKey deviceName propName blobName :=
            <[guid := PipeWriter.mk [] false]>
              (default ∅ (INDIClient.blobStreams c
                          !! blobKey deviceName propName blobName))]>
          (INDIClient.blobStreams c)) c).
Proof.
  intros (device & prop & Hdev & Hprop & Hv)%blobValue_Some.
  unfold GetBlobStream. rewrite (findDevice_Some _ _ _ Hdev), Hprop, Hv.
  by destruct (INDIClient.blobStreams c !! _).
Qed.

Lemma subscriber_register (key id key' id' : string) (pw : PipeWriter.t)
    (c c' : INDIClient.t) :
  INDIClient.blobStreams c'
  = <[key := <[id := pw]> (default ∅ (INDIClient.blobStreams c !! key))]>
      (INDIClient.blobStreams c) →
  subscriber key' id' c'
  = if decide (key' = key ∧ id' = id) then Some pw else subscriber key' id' c.
Proof.
  intros Hc'. unfold subscriber. rewrite Hc'.
  destruct (decide (key' = key)) as [->|Hkey].
  - rewrite lookup_insert_eq. simpl.
    destruct (decide (id' = id)) as [->|Hid].
    + rewrite lookup_insert_eq. by rewrite decide_True.
    + rewrite lookup_insert_ne by done. rewrite decide_False by (by intros []).
      by destruct (INDIClient.blobStreams c !! key).
  - rewrite lookup_insert_ne by done. by rewrite decide_False by (by intros []).
Qed.

Lemma subscriber_unregister (key id key' id' : string)
    (writers : gmap string PipeWriter.t) (c c' : INDIClient.t) :
  INDIClient.blobStreams c !! key = Some writers →
  INDIClient.blobStreams c'
  = <[key := delete id writers]> (INDIClient.blobStreams c) →
  subscriber key' id' c'
  = if decide (key' = key ∧ id' = id) then None else subscriber key' id' c.
Proof.
  intros Hkey Hc'. unfold subscriber. rewrite Hc'.
  destruct (decide (key' = key)) as [->|Hne].
  - rewrite lookup_insert_eq, Hkey. simpl.
    destruct (decide (id' = id)) as [->|Hid].
    + rewrite lookup_delete_eq. by rewrite decide_True.
    + rewrite lookup_delete_ne by done. by rewrite decide_False by (by intros []).
  - rewrite lookup_insert_ne by done. by rewrite decide_False by (by intros []).
Qed.

Lemma CloseBlobStream_unregisters (deviceName propName blobName id : string)
    (c : INDIClient.t) (v : BlobValue.t) :
  blobValue deviceName propName blobName c = Some v →
  (CloseBlobStream deviceName propName blobName id c).1 = None
  ∧ INDIClient.devices (CloseBlobStream deviceName propName blobName id c).2
    = INDIClient.devices c
  ∧ INDIClient.fs (CloseBlobStream deviceName propName blobName id c).2
    = INDIClient.fs c
  ∧ INDIClient.log (CloseBlobStream deviceName propName blobName id c).2
    = INDIClient.log c
  ∧ INDIClient.write (CloseBlobStream deviceName propName blobName id c).2
    = INDIClient.write c
  ∧ ∀ key' id',
      subscriber key' id' (CloseBlobStream deviceName propName blobName id c).2
      = if decide (key' = blobKey deviceName propName blobName ∧ id' = id)
        then None else subscriber key' id' c.
Proof.
  intros (device & prop & Hdev & Hprop & Hv)%blobValue_Some.
  unfold CloseBlobStream. rewrite (findDevice_Some _ _ _ Hdev), Hprop, Hv.
  destruct (INDIClient.blobStreams c !! blobKey deviceName propName blobName)
    as [writers|] eqn:Hkey;
    [destruct (writers !! id) as [pw|] eqn:Hid|]; simpl;
    split_and!; try done; intros key' id'.
  - by apply subscriber_unregister with writers.
  - case_decide as Hk; [|done]. destruct Hk as [-> ->].
    unfold subscriber. by rewrite Hkey.
  - case_decide as Hk; [|done]. destruct Hk as [-> ->].
    unfold subscriber. by rewrite Hkey.
Qed.

End streams.

(** X6. Subscribing and unsubscribing.  For a BLOB value that is defined,
    [GetBlobStream] returns the identifier that was drawn and registers
    under it, for the key of the value, a pipe that is open and has
    received nothing; [CloseBlobStream] with that identifier returns nil
    and takes the pipe out again.  Neither of them touches another
    subscriber, the registry, the filesystem, the log or the command
    queue; so when the identifier was not in use, every subscription is
    after the two calls what it was before. *)
Theorem stream_round_trip {runtime : Runtime}
    (deviceName propName blobName guid : string) (c : INDIClient.t)
    (v : BlobValue.t) :
  blobValue deviceName propName blobName c = Some v →
  let key := blobKey deviceName propName blobName in
  let c1 := (GetBlobStream deviceName propName blobName guid c).2 in
  let c2 := (CloseBlobStream deviceName propName blobName guid c1).2 in
  (GetBlobStream deviceName propName blobName guid c).1 = inr guid
  ∧ (∀ key' id',
       subscriber key' id' c1
       = if decide (key' = key ∧ id' = guid)
         then Some (PipeWriter.mk [] false) else subscriber key' id' c)
  ∧ (CloseBlobStream deviceName propName blobName guid c1).1 = None
  ∧ (∀ key' id',
       subscriber key' id' c2
       = if decide (key' = key ∧ id' = guid)
         then None else subscriber key' id' c)
  ∧ (subscriber key guid c = None →
     ∀ key' id', subscriber key' id' c2 = subscriber key' id' c)
  ∧ INDIClient.devices c2 = INDIClient.devices c
  ∧ INDIClient.fs c2 = INDIClient.fs c
  ∧ INDIClient.log c2 = INDIClient.log c
  ∧ INDIClient.write c2 = INDIClient.write c.
Proof.
  intros Hv key c1 c2.
  pose proof (GetBlobStream_registers _ _ _ guid c v Hv) as Hget.
  assert (∀ key' id',
            subscriber key' id' c1
            = if decide (key' = key ∧ id' = guid)
              then Some (PipeWriter.mk [] false) else subscriber key' id' c)
    as Hsub1.
  { intros key' id'. apply subscriber_register. subst c1. by rewrite Hget. }
  assert (blobValue deviceName propName blobName c1 = Some v) as Hv1.
  { subst c1. by rewrite Hget. }
  destruct (CloseBlobStream_unregisters _ _ _ guid c1 v Hv1)
    as (Herr & Hdevices & Hfs & Hlog & Hwrite & Hsub2).
  fold c2 in Hdevices, Hfs, Hlog, Hwrite, Hsub2.
  assert (∀ key' id',
            subscriber key' id' c2
            = if decide (key' = key ∧ id' = guid)
              then None else subscriber key' id' c) as Hsub.
  { intros key' id'. rewrite Hsub2, Hsub1. fold key. by case_decide. }
  split_and!; try done.
  - by rewrite Hget.
  - intros Hfresh key' id'. rewrite Hsub. case_decide as Hk; [|done].
    by destruct Hk as [-> ->].
  - rewrite Hdevices. subst c1. by rewrite Hget.
  - rewrite Hfs. subst c1. by rewrite Hget.
  - rewrite Hlog. subst c1. by rewrite Hget.
  - rewrite Hwrite. subst c1. by rewrite Hget.
Qed.

Lemma stream_round_trip_witness :
  blobValue "Camera" "CCD1" "CCD1" camera
  = Some (BlobValue.mk "CCD1" "Image" "" 0)
  ∧ (GetBlobStream "Camera" "CCD1" "CCD1" "7f3c" camera).1 = inr "7f3c"
  ∧ subscriber "Camera_CCD1_CCD1" "7f3c"
      (GetBlobStream "Camera" "CCD1" "CCD1" "7f3c" camera).2
    = Some (PipeWriter.mk [] false)
  ∧ subscriber "Camera_CCD1_CCD1" "7f3c"
      (CloseBlobStream "Camera" "CCD1" "CCD1" "7f3c"
         (GetBlobStream "Camera" "CCD1" "CCD1" "7f3c" camera).2).2
    = None.
Proof.
  assert (blobValue "Camera" "CCD1" "CCD1" camera
          = Some (BlobValue.mk "CCD1" "Image" "" 0)) as Hv by reflexivity.
  destruct (stream_round_trip (runtime := exampleRuntime)
              "Camera" "CCD1" "CCD1" "7f3c" camera _ Hv)
    as (Hid & Hsub1 & _ & Hsub2 & _).
  split_and!; [exact Hv|exact Hid| |].
  - rewrite Hsub1. by rewrite decide_True.
  - rewrite Hsub2. by rewrite decide_True.
Defined.

(** ** Reading a BLOB back *)

Section read_back.
Context {runtime : Runtime}.

Lemma dropSeparators_plain (l : list ascii) :
  "/"%char ∉ l → filepath.dropSeparators l = l.
Proof.
  destruct l as [|ch l]; [done|]. intros Hl. simpl.
  unfold filepath.isSeparator. rewrite bool_decide_eq_false_2; [done|].
  intros ->. apply Hl. by left.
Qed.

Lemma firstElement_plain (l : list ascii) :
  "/"%char ∉ l → filepath.firstElement l = l.
Proof.
  induction l as [|ch l IH]; [done|]. intros Hl. simpl.
  apply not_elem_of_cons in Hl as [Hch Hl].
  unfold filepath.isSeparator. rewrite bool_decide_eq_false_2 by done.
  by rewrite IH.
Qed.

Lemma Base_plain (path : string) :
  path ≠ "" → "/"%char ∉ String.list_ascii_of_string path →
  filepath.Base path = path.
Proof.
  intros Hpath Hplain. unfold filepath.Base. rewrite decide_False by done.
  assert ("/"%char ∉ reverse (String.list_ascii_of_string path)) as Hrev
    by by rewrite elem_of_reverse.
  rewrite dropSeparators_plain, firstElement_plain by done.
  rewrite decide_False.
  - by rewrite reverse_involutive, String.string_of_list_ascii_of_string.
  - intros Hnil. apply Hpath.
    rewrite <-(String.string_of_list_ascii_of_string path).
    rewrite <-(reverse_involutive (String.list_ascii_of_string path)).
    by rewrite Hnil.
Qed.

Lemma sinkPath_nonempty (item : setBlobVector.t) (val : oneBlob.t) :
  sinkPath item val ≠ "".
Proof.
  unfold sinkPath, blobKey.
  destruct (setBlobVector.Device item); simpl; discriminate.
Qed.

Lemma setBlobVector_openErr (item : setBlobVector.t) (c : INDIClient.t) :
  afero.openErr (INDIClient.fs (setBlobVector item c))
  = afero.openErr (INDIClient.fs c).
Proof.
  destruct (INDIClient.devices c !! setBlobVector.Device item)
    as [device|] eqn:Hdev;
    [destruct (Device.BlobProperties device !! setBlobVector.Name item)
       as [prop|] eqn:Hprop|].
  - rewrite (setBlobVector_known item c device prop Hdev Hprop).
    cbn [INDIClient.fs INDIClient.set_devices].
    destruct (updateTime_spec (setBlobVector.Timestamp item) c)
      as (_ & _ & Hfs1 & _).
    destruct (setBlobs_frame item (setBlobVector.Blobs item)
                (BlobProperty.Values prop)
                (updateTime (setBlobVector.Timestamp item) c).2)
      as ((_ & _ & _ & Herr & _) & _).
    destruct (appendMessage_spec (setBlobVector.Message item)
                (BlobProperty.Messages prop)
                (foldl (setBlob item)
                   (BlobProperty.Values prop,
                    (updateTime (setBlobVector.Timestamp item) c).2)
                   (setBlobVector.Blobs item)).2)
      as (_ & _ & _ & Hfs3 & _).
    by rewrite Hfs3, Herr, Hfs1.
  - unfold setBlobVector. by rewrite (findDevice_Some _ _ _ Hdev), Hprop.
  - unfold setBlobVector. by rewrite (findDevice_None _ _ Hdev).
Qed.

Lemma GetBlob_opens (deviceName propName blobName : string)
    (c : INDIClient.t) (v : BlobValue.t) (content : list byte) :
  blobValue deviceName propName blobName c = Some v →
  afero.openErr (INDIClient.fs c) (BlobValue.Value v) = None →
  afero.files (INDIClient.fs c) !! BlobValue.Value v = Some content →
  GetBlob deviceName propName blobName c
  = inr (content, filepath.Base (BlobValue.Value v), BlobValue.Size v).
Proof.
  intros (device & prop & Hdev & Hprop & Hv)%blobValue_Some Herr Hfile.
  unfold GetBlob, afero_Open.
  by rewrite (findDevice_Some _ _ _ Hdev), Hprop, Hv, Herr, Hfile.
Qed.

End read_back.

(** X7. A BLOB that was received can be read back.  After the dispatch of
    a [setBLOBVector] under the conditions of C1 (the value is defined,
    its sink file opens, its subscribers are open, the payload decodes and
    no later element of the vector is for the same value or file),
    [GetBlob] for that value returns a reader over exactly the decoded
    payload, the last element of the path of the sink file as the file
    name, and the number of bytes of the payload as the length.  When the
    names and the format hold no path separator, the file name is
    [<device>_<property>_<value><format>]. *)
Theorem GetBlob_reads_back {runtime : Runtime} (item : setBlobVector.t)
    (c : INDIClient.t) (before after : list oneBlob.t) (val : oneBlob.t)
    (v : BlobValue.t) :
  blobValue (setBlobVector.Device item) (setBlobVector.Name item)
    (oneBlob.Name val) c = Some v →
  setBlobVector.Blobs item = before ++ val :: after →
  (∀ val', val' ∈ after →
     oneBlob.Name val' ≠ oneBlob.Name val
     ∧ sinkPath item val' ≠ sinkPath item val) →
  afero.openErr (INDIClient.fs c) (sinkPath item val) = None →
  (∀ id pw,
     subscriber
       (blobKey (setBlobVector.Device item) (setBlobVector.Name item)
          (oneBlob.Name val)) id c = Some pw →
     PipeWriter.closed pw = false) →
  io.rerr (base64_NewDecoder (strings.TrimSpace (oneBlob.Value val))) = None →
  let payload :=
    concat (io.chunks
              (base64_NewDecoder (strings.TrimSpace (oneBlob.Value val)))) in
  GetBlob (setBlobVector.Device item) (setBlobVector.Name item)
    (oneBlob.Name val) (setBlobVector item c)
  = inr (payload, filepath.Base (sinkPath item val),
         Z.of_nat (length payload))
  ∧ ("/"%char ∉ String.list_ascii_of_string (sinkPath item val) →
     filepath.Base (sinkPath item val) = sinkPath item val).
Proof.
  intros (device & prop & Hdev & Hprop & Hv)%blobValue_Some Hblobs Hafter
    Hopen Hsubs Hdec payload.
  destruct (setBlobVector_stores item c device prop before after val v)
    as [Hfile Hvalue]; try done.
  split.
  - rewrite (GetBlob_opens _ _ _ _ _ payload Hvalue); [done| |done].
    by rewrite setBlobVector_openErr.
  - apply Base_plain, sinkPath_nonempty.
Qed.

Lemma GetBlob_reads_back_witness :
  GetBlob "Camera" "CCD1" "CCD1"
    (setBlobVector (runtime := exampleRuntime)
       (cameraImage [strayBlob; brokenBlob; imageBlob]) camera)
  = inr (bytes "1234567890", "Camera_CCD1_CCD1.fits", 10%Z).
Proof.
  edestruct (GetBlob_reads_back (runtime := exampleRuntime)
               (cameraImage [strayBlob; brokenBlob; imageBlob]) camera
               [strayBlob; brokenBlob] [] imageBlob) as [Hget Hname].
  - vm_compute. reflexivity.
  - reflexivity.
  - intros val' Hin. by apply elem_of_nil in Hin.
  - reflexivity.
  - intros id pw Hpw. vm_compute in Hpw. discriminate.
  - vm_compute. reflexivity.
  - etrans; [exact Hget|]. vm_compute. reflexivity.
Defined.

(** ** What the subscribers of a BLOB receive *)

Section fan_out.
Context {runtime : Runtime}.

Lemma Writer_Write_open (key id : string) (p : list byte) (c : INDIClient.t)
    (pw : PipeWriter.t) :
  subscriber key id c = Some pw → PipeWriter.closed pw = false →
  (Writer_Write (PipeW key id) p c).1 = (Z.of_nat (length p), None)
  ∧ ∀ key' id',
      subscriber key' id' (Writer_Write (PipeW key id) p c).2
      = if decide (key' = key ∧ id' = id)
        then Some (PipeWriter.mk (PipeWriter.received pw ++ p) false)
        else subscriber key' id' c.
Proof.
  intros Hpw Hopen. unfold subscriber in Hpw. simpl.
  destruct (INDIClient.blobStreams c !! key) as [wss|] eqn:Hkey; [|done].
  simpl in Hpw. rewrite Hpw, Hopen. split; [done|]. intros key' id'.
  by apply subscriber_insert with wss.
Qed.

Lemma Writer_Write_closed (key id : string) (p : list byte)
    (c : INDIClient.t) (pw : PipeWriter.t) :
  subscriber key id c = Some pw → PipeWriter.closed pw = true →
  Writer_Write (PipeW key id) p c = ((0%Z, Some io.ErrClosedPipe), c).
Proof.
  intros Hpw Hclosed. unfold subscriber in Hpw. simpl.
  destruct (INDIClient.blobStreams c !! key) as [wss|] eqn:Hkey; [|done].
  simpl in Hpw. by rewrite Hpw, Hclosed.
Qed.

Lemma MultiWriter_Write_delivers (key f : string) (ids : list string)
    (p : list byte) (c : INDIClient.t) :
  NoDup ids → allOpen key ids c →
  ∀ key' id',
    subscriber key' id'
      (MultiWriter_Write ((PipeW key <$> ids) ++ [FileW f]) p c).2
    = if decide (key' = key ∧ id' ∈ ids)
      then (λ pw, PipeWriter.mk (PipeWriter.received pw ++ p) false)
             <$> subscriber key' id' c
      else subscriber key' id' c.
Proof.
  revert c. induction ids as [|id ids IH]; intros c Hnodup Hopen key' id'.
  - simpl. rewrite bool_decide_eq_false_2 by (by intros []). simpl.
    rewrite decide_False; [done|]. intros [_ Hin]. by apply elem_of_nil in Hin.
  - rewrite fmap_cons. cbn [app MultiWriter_Write].
    apply NoDup_cons in Hnodup as [Hid Hnodup].
    destruct (Hopen id) as (pw & Hpw & Hcl); [by left|].
    destruct (Writer_Write_open key id p c pw Hpw Hcl) as [Hres Hsub].
    destruct (Writer_Write (PipeW key id) p c) as [[n e] c1].
    simpl in Hres, Hsub. injection Hres as -> ->.
    rewrite bool_decide_eq_false_2 by (by intros []).
    rewrite IH; [|done|].
    + rewrite !Hsub.
      destruct (decide (key' = key)) as [->|Hkey];
        [|rewrite !decide_False by (by intros []); done].
      destruct (decide (id' = id)) as [->|Hne].
      * rewrite (decide_False (P := key = key ∧ id ∈ ids)) by (by intros []).
        rewrite (decide_True (P := key = key ∧ id = id)) by done.
        rewrite (decide_True (P := key = key ∧ id ∈ id :: ids))
          by (split; [done|by left]).
        by rewrite Hpw.
      * rewrite (decide_False (P := key = key ∧ id' = id)) by (by intros []).
        destruct (decide (id' ∈ ids)) as [Hin|Hin].
        -- rewrite (decide_True (P := key = key ∧ id' ∈ ids)) by done.
           by rewrite (decide_True (P := key = key ∧ id' ∈ id :: ids))
             by (split; [done|by right]).
        -- rewrite (decide_False (P := key = key ∧ id' ∈ ids))
             by (by intros []).
           rewrite (decide_False (P := key = key ∧ id' ∈ id :: ids)); [done|].
           intros [_ [?|?]%elem_of_cons]; done.
    + intros id2 Hin2. destruct (Hopen id2) as (pw2 & Hpw2 & Hcl2); [by right|].
      exists pw2. split; [|done]. rewrite Hsub.
      rewrite decide_False; [done|]. intros [_ ->]. done.
Qed.

Lemma Copy_loop_delivers (key f : string) (ids : list string)
    (chunks : list (list byte)) (rerr : option error) (written : Z)
    (c : INDIClient.t) :
  NoDup ids → allOpen key ids c →
  ∀ key' id',
    subscriber key' id'
      (Copy_loop ((PipeW key <$> ids) ++ [FileW f]) chunks rerr written c).2
    = if decide (key' = key ∧ id' ∈ ids)
      then (λ pw, PipeWriter.mk (PipeWriter.received pw ++ concat chunks) false)
             <$> subscriber key' id' c
      else subscriber key' id' c.
Proof.
  intros Hnodup. revert written c.
  induction chunks as [|p chunks IH]; intros written c Hopen key' id'.
  - simpl. case_decide as Hk; [|done]. destruct Hk as [-> Hin].
    destruct (Hopen id' Hin) as (pw & -> & Hcl). simpl.
    rewrite app_nil_r. by destruct pw; simplify_eq/=.
  - cbn [Copy_loop concat]. case_bool_decide as Hp.
    + destruct (MultiWriter_Write_ok key f ids p c Hopen) as [Hres _].
      pose proof (MultiWriter_Write_frame f _ p c (sink_writers key f ids))
        as Hfr.
      pose proof (MultiWriter_Write_delivers key f ids p c Hnodup Hopen)
        as Hsub.
      destruct (MultiWriter_Write _ p c) as [[nw ew] c1]. simpl in *.
      injection Hres as -> ->.
      rewrite bool_decide_eq_false_2 by (by intros []).
      rewrite IH by by eapply allOpen_frame. rewrite Hsub.
      case_decide; [|done].
      destruct (subscriber key' id' c) as [pw|]; [|done]. simpl.
      by rewrite app_assoc.
    + assert (p = []) as -> by (destruct p; [done|simpl in Hp; lia]).
      simpl. by apply IH.
Qed.

Lemma sink_ids_nodup (key : string) (c : INDIClient.t) :
  ∃ ids,
    match INDIClient.blobStreams c !! key with
    | Some wss => PipeW key <$> (map_to_list wss).*1
    | None => []
    end = PipeW key <$> ids
    ∧ NoDup ids
    ∧ ∀ id, id ∈ ids ↔ is_Some (subscriber key id c).
Proof.
  unfold subscriber. destruct (INDIClient.blobStreams c !! key) as [wss|].
  - exists ((map_to_list wss).*1). split; [done|].
    split; [apply NoDup_fst_map_to_list|]. intros id. simpl. split.
    + intros ([id' pw] & -> & Hin)%list_elem_of_fmap.
      apply elem_of_map_to_list in Hin. eauto.
    + intros [pw Hpw]. apply list_elem_of_fmap. exists (id, pw).
      split; [done|]. by apply elem_of_map_to_list.
  - exists []. split; [done|]. split; [constructor|]. intros id. simpl. split.
    + intros Hin. by apply elem_of_nil in Hin.
    + by intros [pw Hpw].
Qed.

Lemma setBlob_delivers (item : setBlobVector.t)
    (values : gmap string BlobValue.t) (c : INDIClient.t) (val : oneBlob.t)
    (v : BlobValue.t) :
  let key :=
    blobKey (setBlobVector.Device item) (setBlobVector.Name item)
      (oneBlob.Name val) in
  let payload :=
    concat (io.chunks
              (base64_NewDecoder (strings.TrimSpace (oneBlob.Value val)))) in
  values !! oneBlob.Name val = Some v →
  afero.openErr (INDIClient.fs c) (sinkPath item val) = None →
  (∀ id pw, subscriber key id c = Some pw → PipeWriter.closed pw = false) →
  ∀ key' id',
    subscriber key' id' (setBlob item (values, c) val).2
    = if decide (key' = key)
      then (λ pw, PipeWriter.mk (PipeWriter.received pw ++ payload) false)
             <$> subscriber key' id' c
      else subscriber key' id' c.
Proof.
  intros key payload Hv He Hopen key' id'. unfold setBlob.
  fold (sinkPath item val). fold key.
  rewrite Hv. rewrite (OpenFile_create_trunc _ _ He).
  set (c0 := INDIClient.set_fs _ c).
  destruct (sink_ids_nodup key c0) as (ids & -> & Hnodup & Hids).
  unfold io_Copy.
  pose proof (Copy_loop_delivers key (sinkPath item val) ids
                (io.chunks (base64_NewDecoder
                              (strings.TrimSpace (oneBlob.Value val))))
                (io.rerr (base64_NewDecoder
                            (strings.TrimSpace (oneBlob.Value val))))
                0 c0 Hnodup) as Hsub.
  assert (allOpen key ids c0) as Hall.
  { intros id Hin. apply Hids in Hin as [pw Hpw]. exists pw.
    split; [done|]. by apply (Hopen id). }
  specialize (Hsub Hall key' id').
  destruct (Copy_loop _ _ _ _ c0) as [[written e] c1]. simpl in Hsub.
  assert (subscriber key' id' c1
          = if decide (key' = key)
            then (λ pw, PipeWriter.mk (PipeWriter.received pw ++ payload) false)
                   <$> subscriber key' id' c
            else subscriber key' id' c) as Hgoal.
  { rewrite Hsub. change (subscriber key' id' c0) with (subscriber key' id' c).
    destruct (decide (key' = key)) as [->|Hkey];
      [|by rewrite decide_False by (by intros [])].
    destruct (decide (id' ∈ ids)) as [Hin|Hin].
    - by rewrite decide_True.
    - rewrite decide_False by (by intros []).
      destruct (subscriber key id' c) as [pw|] eqn:Hpw; [|done].
      exfalso. apply Hin, Hids. by exists pw. }
  by destruct e.
Qed.

Lemma setBlobVector_single (item : setBlobVector.t) (c : INDIClient.t)
    (val : oneBlob.t) (v : BlobValue.t) :
  blobValue (setBlobVector.Device item) (setBlobVector.Name item)
    (oneBlob.Name val) c = Some v →
  setBlobVector.Blobs item = [val] →
  ∃ device prop c0,
    INDIClient.devices c !! setBlobVector.Device item = Some device
    ∧ Device.BlobProperties device !! setBlobVector.Name item = Some prop
    ∧ BlobProperty.Values prop !! oneBlob.Name val = Some v
    ∧ INDIClient.fs c0 = INDIClient.fs c
    ∧ INDIClient.blobStreams c0 = INDIClient.blobStreams c
    ∧ INDIClient.fs (setBlobVector item c)
      = INDIClient.fs (setBlob item (BlobProperty.Values prop, c0) val).2
    ∧ INDIClient.blobStreams (setBlobVector item c)
      = INDIClient.blobStreams
          (setBlob item (BlobProperty.Values prop, c0) val).2
    ∧ blobValue (setBlobVector.Device item) (setBlobVector.Name item)
        (oneBlob.Name val) (setBlobVector item c)
      = (setBlob item (BlobProperty.Values prop, c0) val).1
        !! oneBlob.Name val
    ∧ INDIClient.log (setBlobVector item c)
      = INDIClient.log (setBlob item (BlobProperty.Values prop, c0) val).2.
Proof.
  intros (device & prop & Hdev & Hprop & Hv)%blobValue_Some Hblobs.
  exists device, prop, (updateTime (setBlobVector.Timestamp item) c).2.
  destruct (updateTime_spec (setBlobVector.Timestamp item) c)
    as (_ & _ & Hfs1 & _ & Hstreams1).
  rewrite (setBlobVector_known item c device prop Hdev Hprop).
  rewrite Hblobs. cbn [foldl].
  destruct (appendMessage_spec (setBlobVector.Message item)
              (BlobProperty.Messages prop)
              (setBlob item
                 (BlobProperty.Values prop,
                  (updateTime (setBlobVector.Timestamp item) c).2) val).2)
    as (_ & _ & _ & Hfs3 & _ & Hstreams3 & Hlog3).
  split_and!; try done.
  unfold blobValue. cbn [INDIClient.devices INDIClient.set_devices].
  rewrite lookup_insert_eq. simpl. by rewrite lookup_insert_eq.
Qed.

End fan_out.

(** The key does not tell the three names apart: the values of two
    properties can have the same key, and then the same subscribers and
    the same sink file. *)
Example blobKey_shared : blobKey "A" "B_C" "D" = blobKey "A_B" "C" "D".
Proof. reflexivity. Qed.

(** X8. Every subscriber under the key gets the BLOB.  Subscribers are
    registered under the key [<device>_<property>_<value>].  For a
    [setBLOBVector] with one element for a value that is defined, with a
    sink file that opens and with subscribers under the key of the value
    that are all open: after the dispatch every subscriber under that key
    has received, behind what it had before, exactly the bytes that the
    decoder delivered, and is still open; the subscribers under every
    other key have received nothing.  A subscriber of the value of
    another property is served too when the names give the same key.  A
    stream that was opened with [GetBlobStream] just before has received
    the payload and nothing else, and when the payload decodes without
    error these are the bytes that [GetBlob] reads back. *)
Theorem subscribers_receive_blob {runtime : Runtime} (item : setBlobVector.t)
    (c : INDIClient.t) (val : oneBlob.t) (v : BlobValue.t) (guid : string) :
  let key :=
    blobKey (setBlobVector.Device item) (setBlobVector.Name item)
      (oneBlob.Name val) in
  let r := base64_NewDecoder (strings.TrimSpace (oneBlob.Value val)) in
  let payload := concat (io.chunks r) in
  blobValue (setBlobVector.Device item) (setBlobVector.Name item)
    (oneBlob.Name val) c = Some v →
  setBlobVector.Blobs item = [val] →
  afero.openErr (INDIClient.fs c) (sinkPath item val) = None →
  (∀ id pw, subscriber key id c = Some pw → PipeWriter.closed pw = false) →
  (∀ key' id',
     subscriber key' id' (setBlobVector item c)
     = if decide (key' = key)
       then (λ pw, PipeWriter.mk (PipeWriter.received pw ++ payload) false)
              <$> subscriber key' id' c
       else subscriber key' id' c)
  ∧ let c1 :=
      (GetBlobStream (setBlobVector.Device item) (setBlobVector.Name item)
         (oneBlob.Name val) guid c).2 in
    subscriber key guid (setBlobVector item c1)
    = Some (PipeWriter.mk payload false)
    ∧ (io.rerr r = None →
       GetBlob (setBlobVector.Device item) (setBlobVector.Name item)
         (oneBlob.Name val) (setBlobVector item c1)
       = inr (payload, filepath.Base (sinkPath item val),
              Z.of_nat (length payload))).
Proof.
  intros key r payload Hv Hblobs He Hopen.
  assert (∀ c, blobValue (setBlobVector.Device item) (setBlobVector.Name item)
                 (oneBlob.Name val) c = Some v →
               afero.openErr (INDIClient.fs c) (sinkPath item val) = None →
               (∀ id pw, subscriber key id c = Some pw →
                         PipeWriter.closed pw = false) →
               ∀ key' id',
                 subscriber key' id' (setBlobVector item c)
                 = if decide (key' = key)
                   then (λ pw, PipeWriter.mk
                                 (PipeWriter.received pw ++ payload) false)
                          <$> subscriber key' id' c
                   else subscriber key' id' c) as Hfan.
  { clear c Hv He Hopen. intros c Hv He Hopen key' id'.
    destruct (setBlobVector_single item c val v Hv Hblobs)
      as (device & prop & c0 & _ & _ & Hv0 & Hfs0 & Hstreams0 & _ & Hstreams
          & _ & _).
    rewrite (subscriber_same _ _ _ _ Hstreams).
    rewrite (setBlob_delivers item _ c0 val v Hv0).
    - fold key payload. by rewrite (subscriber_same _ _ _ _ Hstreams0).
    - by rewrite Hfs0.
    - intros id pw. rewrite (subscriber_same _ _ _ _ Hstreams0). apply Hopen. }
  split; [by apply Hfan|]. intros c1.
  pose proof (GetBlobStream_registers _ _ _ guid c v Hv) as Hget.
  assert (∀ key' id',
            subscriber key' id' c1
            = if decide (key' = key ∧ id' = guid)
              then Some (PipeWriter.mk [] false) else subscriber key' id' c)
    as Hsub1.
  { intros key' id'. apply subscriber_register. subst c1. by rewrite Hget. }
  assert (blobValue (setBlobVector.Device item) (setBlobVector.Name item)
            (oneBlob.Name val) c1 = Some v) as Hv1.
  { subst c1. by rewrite Hget. }
  assert (INDIClient.fs c1 = INDIClient.fs c) as Hfs1.
  { subst c1. by rewrite Hget. }
  assert (∀ id pw, subscriber key id c1 = Some pw →
                   PipeWriter.closed pw = false) as Hopen1.
  { intros id pw. rewrite Hsub1. case_decide.
    - by intros [= <-].
    - apply Hopen. }
  split.
  - rewrite Hfan by (by rewrite ?Hfs1). rewrite decide_True by done.
    rewrite Hsub1. by rewrite decide_True.
  - intros Hdec.
    apply blobValue_Some in Hv1 as Hv1'.
    destruct Hv1' as (device & prop & Hdev & Hprop & Hv1').
    destruct (setBlobVector_stores item c1 device prop [] [] val v)
      as [Hfile Hvalue]; try done.
    { intros val' Hin. by apply elem_of_nil in Hin. }
    { by rewrite Hfs1. }
    rewrite (GetBlob_opens _ _ _ _ _ payload Hvalue); [done| |done].
    rewrite setBlobVector_openErr. by rewrite Hfs1.
Qed.

Lemma subscribers_receive_blob_witness :
  subscriber "Camera_CCD1_CCD1" "7f3c"
    (setBlobVector (runtime := exampleRuntime) (cameraImage [imageBlob])
       (GetBlobStream "Camera" "CCD1" "CCD1" "7f3c" camera).2)
  = Some (PipeWriter.mk (bytes "1234567890") false)
  ∧ GetBlob "Camera" "CCD1" "CCD1"
      (setBlobVector (runtime := exampleRuntime) (cameraImage [imageBlob])
         (GetBlobStream "Camera" "CCD1" "CCD1" "7f3c" camera).2)
    = inr (bytes "1234567890", "Camera_CCD1_CCD1.fits", 10%Z).
Proof.
  edestruct (subscribers_receive_blob (runtime := exampleRuntime)
               (cameraImage [imageBlob]) camera imageBlob
               (BlobValue.mk "CCD1" "Image" "" 0) "7f3c")
    as [_ [Hstream Hget]].
  - vm_compute. reflexivity.
  - reflexivity.
  - reflexivity.
  - intros id pw Hpw. vm_compute in Hpw. discriminate.
  - split.
    + etrans; [exact Hstream|]. vm_compute. reflexivity.
    + etrans; [apply Hget; vm_compute; reflexivity|]. vm_compute. reflexivity.
Defined.

(** ** A subscriber that went away *)

Section abandoned.
Context {runtime : Runtime}.

Lemma Writer_Write_pipe (key id : string) (p : list byte) (c : INDIClient.t) :
  INDIClient.fs (Writer_Write (PipeW key id) p c).2 = INDIClient.fs c
  ∧ INDIClient.log (Writer_Write (PipeW key id) p c).2 = INDIClient.log c.
Proof.
  simpl. destruct (INDIClient.blobStreams c !! key) as [wss|]; [|done].
  destruct (wss !! id) as [pw|]; [|done]. by destruct (PipeWriter.closed pw).
Qed.

Lemma MultiWriter_Write_closed (key f : string) (ids : list string)
    (p : list byte) (c : INDIClient.t) (id : string) (pw : PipeWriter.t) :
  (∀ id', id' ∈ ids → is_Some (subscriber key id' c)) →
  id ∈ ids → subscriber key id c = Some pw → PipeWriter.closed pw = true →
  ∃ n,
    (MultiWriter_Write ((PipeW key <$> ids) ++ [FileW f]) p c).1
    = (n, Some io.ErrClosedPipe)
    ∧ INDIClient.fs (MultiWriter_Write ((PipeW key <$> ids) ++ [FileW f]) p c).2
      = INDIClient.fs c
    ∧ INDIClient.log (MultiWriter_Write ((PipeW key <$> ids) ++ [FileW f]) p c).2
      = INDIClient.log c.
Proof.
  revert c. induction ids as [|id0 ids IH]; intros c Hids Hin Hpw Hclosed.
  { by apply elem_of_nil in Hin. }
  rewrite fmap_cons. cbn [app MultiWriter_Write].
  destruct (Hids id0) as [pw0 Hpw0]; [by left|].
  destruct (PipeWriter.closed pw0) eqn:Hcl0.
  - rewrite (Writer_Write_closed key id0 p c pw0 Hpw0 Hcl0). by exists 0%Z.
  - destruct (Writer_Write_open key id0 p c pw0 Hpw0 Hcl0) as [Hres Hsub].
    destruct (Writer_Write_pipe key id0 p c) as [Hfs Hlog].
    destruct (Writer_Write (PipeW key id0) p c) as [[n e] c1].
    simpl in Hres, Hsub, Hfs, Hlog. injection Hres as -> ->.
    rewrite bool_decide_eq_false_2 by (by intros []).
    assert (id ≠ id0) as Hne.
    { intros ->. rewrite Hpw in Hpw0. injection Hpw0 as ->. congruence. }
    apply elem_of_cons in Hin as [?|Hin]; [done|].
    destruct (IH c1) as (n & Hres & Hfs1 & Hlog1); try done.
    + intros id' Hin'. rewrite Hsub. case_decide; [done|].
      apply Hids. by right.
    + rewrite Hsub. by rewrite decide_False by (by intros []).
    + exists n. by rewrite Hres, Hfs1, Hlog1.
Qed.

Lemma Copy_loop_closed (key f : string) (ids : list string)
    (chunks : list (list byte)) (rerr : option error) (written : Z)
    (c : INDIClient.t) (id : string) (pw : PipeWriter.t) :
  (∀ id', id' ∈ ids → is_Some (subscriber key id' c)) →
  id ∈ ids → subscriber key id c = Some pw → PipeWriter.closed pw = true →
  (∃ p, p ∈ chunks ∧ p ≠ []) →
  ∃ n,
    (Copy_loop ((PipeW key <$> ids) ++ [FileW f]) chunks rerr written c).1
    = (n, Some io.ErrClosedPipe)
    ∧ INDIClient.fs
        (Copy_loop ((PipeW key <$> ids) ++ [FileW f]) chunks rerr written c).2
      = INDIClient.fs c
    ∧ INDIClient.log
        (Copy_loop ((PipeW key <$> ids) ++ [FileW f]) chunks rerr written c).2
      = INDIClient.log c.
Proof.
  intros Hids Hin Hpw Hclosed. revert written.
  induction chunks as [|p chunks IH]; intros written (p0 & Hp0 & Hne).
  { by apply elem_of_nil in Hp0. }
  cbn [Copy_loop]. case_bool_decide as Hp.
  - destruct (MultiWriter_Write_closed key f ids p c id pw)
      as (n & Hres & Hfs & Hlog); try done.
    destruct (MultiWriter_Write _ p c) as [[nw ew] c1]. simpl in *.
    injection Hres as -> ->. by eexists.
  - assert (p = []) as -> by (destruct p; [done|simpl in Hp; lia]).
    apply IH. exists p0. split; [|done].
    by apply elem_of_cons in Hp0 as [?|?].
Qed.

Lemma setBlob_closed (item : setBlobVector.t)
    (values : gmap string BlobValue.t) (c : INDIClient.t) (val : oneBlob.t)
    (v : BlobValue.t) (id : string) (pw : PipeWriter.t) :
  values !! oneBlob.Name val = Some v →
  afero.openErr (INDIClient.fs c) (sinkPath item val) = None →
  subscriber
    (blobKey (setBlobVector.Device item) (setBlobVector.Name item)
       (oneBlob.Name val)) id c = Some pw →
  PipeWriter.closed pw = true →
  (∃ p, p ∈ io.chunks
              (base64_NewDecoder (strings.TrimSpace (oneBlob.Value val)))
        ∧ p ≠ []) →
  (setBlob item (values, c) val).1 = values
  ∧ afero.files (INDIClient.fs (setBlob item (values, c) val).2)
    = <[sinkPath item val := []]> (afero.files (INDIClient.fs c))
  ∧ INDIClient.log (setBlob item (values, c) val).2
    = INDIClient.log c
      ++ [logging.mk logging.Warn [] (Some io.ErrClosedPipe)
            "error in io.Copy"].
Proof.
  intros Hv He Hpw Hclosed Hchunks. unfold setBlob.
  fold (sinkPath item val).
  rewrite Hv. rewrite (OpenFile_create_trunc _ _ He).
  set (c0 := INDIClient.set_fs _ c).
  destruct (sink_ids_nodup
    (blobKey (setBlobVector.Device item) (setBlobVector.Name item)
       (oneBlob.Name val)) c0) as (ids & -> & _ & Hids).
  unfold io_Copy.
  destruct (Copy_loop_closed
    (blobKey (setBlobVector.Device item) (setBlobVector.Name item)
       (oneBlob.Name val))
    (sinkPath item val) ids
    (io.chunks (base64_NewDecoder (strings.TrimSpace (oneBlob.Value val))))
    (io.rerr (base64_NewDecoder (strings.TrimSpace (oneBlob.Value val))))
    0 c0 id pw) as (n & Hres & Hfs & Hlog); try done.
  { intros id' Hin'. by apply Hids. }
  { apply Hids. by exists pw. }
  destruct (Copy_loop _ _ _ _ c0) as [[written e] c1]. simpl in *.
  injection Hres as -> ->. simpl. by rewrite Hfs, Hlog.
Qed.

End abandoned.

(** X9. A reader that was closed without [CloseBlobStream] makes the BLOBs
    of its value fail, as the comment of [GetBlobStream] warns.  For a
    [setBLOBVector] with one element for a value that is defined, with a
    sink file that opens and a payload of at least one byte: when one
    subscriber of the value has a closed pipe, the copy ends with
    [io.ErrClosedPipe], which is the last warning in the log; the value
    keeps the path and the size it had; and the sink file, which was
    truncated when it was opened, is left empty, whatever it held before. *)
Theorem closed_subscriber_fails_blob {runtime : Runtime}
    (item : setBlobVector.t) (c : INDIClient.t) (val : oneBlob.t)
    (v : BlobValue.t) (id : string) (pw : PipeWriter.t) :
  blobValue (setBlobVector.Device item) (setBlobVector.Name item)
    (oneBlob.Name val) c = Some v →
  setBlobVector.Blobs item = [val] →
  afero.openErr (INDIClient.fs c) (sinkPath item val) = None →
  subscriber
    (blobKey (setBlobVector.Device item) (setBlobVector.Name item)
       (oneBlob.Name val)) id c = Some pw →
  PipeWriter.closed pw = true →
  (∃ p, p ∈ io.chunks
              (base64_NewDecoder (strings.TrimSpace (oneBlob.Value val)))
        ∧ p ≠ []) →
  blobValue (setBlobVector.Device item) (setBlobVector.Name item)
    (oneBlob.Name val) (setBlobVector item c) = Some v
  ∧ afero.files (INDIClient.fs (setBlobVector item c)) !! sinkPath item val
    = Some []
  ∧ last (INDIClient.log (setBlobVector item c))
    = Some (logging.mk logging.Warn [] (Some io.ErrClosedPipe)
              "error in io.Copy").
Proof.
  intros Hv Hblobs He Hpw Hclosed Hchunks.
  destruct (setBlobVector_single item c val v Hv Hblobs)
    as (device & prop & c0 & _ & _ & Hv0 & Hfs0 & Hstreams0 & Hfs & _
        & Hvalue & Hlog).
  destruct (setBlob_closed item (BlobProperty.Values prop) c0 val v id pw)
    as (Hvalues & Hfiles & Hlog1); try done.
  { by rewrite Hfs0. }
  { by rewrite (subscriber_same _ _ _ _ Hstreams0). }
  split_and!.
  - by rewrite Hvalue, Hvalues.
  - by rewrite Hfs, Hfiles, lookup_insert_eq.
  - by rewrite Hlog, Hlog1, last_snoc.
Qed.

Lemma closed_subscriber_fails_blob_witness :
  blobValue "Camera" "CCD1" "CCD1"
    (setBlobVector (runtime := exampleRuntime) (cameraImage [imageBlob])
       cameraAbandoned)
  = Some (BlobValue.mk "CCD1" "Image" "" 0)
  ∧ afero.files
      (INDIClient.fs
         (setBlobVector (runtime := exampleRuntime) (cameraImage [imageBlob])
            cameraAbandoned))
    !! "Camera_CCD1_CCD1.fits" = Some []
  ∧ last
      (INDIClient.log
         (setBlobVector (runtime := exampleRuntime) (cameraImage [imageBlob])
            cameraAbandoned))
    = Some (logging.mk logging.Warn [] (Some io.ErrClosedPipe)
              "error in io.Copy").
Proof.
  apply (closed_subscriber_fails_blob (runtime := exampleRuntime)
           (cameraImage [imageBlob]) cameraAbandoned imageBlob
           (BlobValue.mk "CCD1" "Image" "" 0) "7f3c" (PipeWriter.mk [] true)).
  - vm_compute. reflexivity.
  - reflexivity.
  - reflexivity.
  - vm_compute. reflexivity.
  - reflexivity.
  - exists (bytes "1234567890"). split; [vm_compute; by left|done].
Defined.

(** ** The command queue *)

Section queue.
Context {runtime : Runtime}.

Lemma def_vector_write (text : string) (c : INDIClient.t) :
  INDIClient.write
    (appendMessage text [] (INDIClient.set_clock (S (INDIClient.clock c)) c)).2
  = INDIClient.write c.
Proof.
  by destruct (appendMessage_spec text []
                 (INDIClient.set_clock (S (INDIClient.clock c)) c))
    as (_ & _ & _ & _ & -> & _).
Qed.

Lemma set_vector_write (timestamp text : string) (messages : list Message.t)
    (c : INDIClient.t) :
  INDIClient.write (appendMessage text messages (updateTime timestamp c).2).2
  = INDIClient.write c.
Proof.
  destruct (updateTime_spec timestamp c) as (_ & _ & _ & Hwrite1 & _).
  destruct (appendMessage_spec text messages (updateTime timestamp c).2)
    as (_ & _ & _ & _ & Hwrite2 & _).
  by rewrite Hwrite2.
Qed.

Lemma dispatch_write (i : Item) (c : INDIClient.t) :
  INDIClient.write (dispatch i c) = INDIClient.write c.
Proof.
  destruct i as [item|item|item|item|item|item|item|item|item|item
                |item|item]; cbn [dispatch].
  - unfold defTextVector, now.
    pose proof (def_vector_write (defTextVector.Message item) c) as Hw.
    by destruct (appendMessage _ [] _).
  - unfold defSwitchVector, now.
    pose proof (def_vector_write (defSwitchVector.Message item) c) as Hw.
    by destruct (appendMessage _ [] _).
  - unfold defNumberVector, now.
    pose proof (def_vector_write (defNumberVector.Message item) c) as Hw.
    by destruct (appendMessage _ [] _).
  - unfold defLightVector, now.
    pose proof (def_vector_write (defLightVector.Message item) c) as Hw.
    by destruct (appendMessage _ [] _).
  - unfold defBlobVector, now.
    pose proof (def_vector_write (defBlobVector.Message item) c) as Hw.
    by destruct (appendMessage _ [] _).
  - destruct (INDIClient.devices c !! setSwitchVector.Device item)
      as [device|] eqn:Hdev;
      [destruct (Device.SwitchProperties device !! setSwitchVector.Name item)
         as [prop|] eqn:Hprop|].
    + rewrite (setSwitchVector_known item c device prop Hdev Hprop).
      apply set_vector_write.
    + unfold setSwitchVector. by rewrite (findDevice_Some _ _ _ Hdev), Hprop.
    + unfold setSwitchVector. by rewrite (findDevice_None _ _ Hdev).
  - destruct (INDIClient.devices c !! setTextVector.Device item)
      as [device|] eqn:Hdev;
      [destruct (Device.TextProperties device !! setTextVector.Name item)
         as [prop|] eqn:Hprop|].
    + rewrite (setTextVector_known item c device prop Hdev Hprop).
      apply set_vector_write.
    + unfold setTextVector. by rewrite (findDevice_Some _ _ _ Hdev), Hprop.
    + unfold setTextVector. by rewrite (findDevice_None _ _ Hdev).
  - destruct (INDIClient.devices c !! setNumberVector.Device item)
      as [device|] eqn:Hdev;
      [destruct (Device.NumberProperties device !! setNumberVector.Name item)
         as [prop|] eqn:Hprop|].
    + rewrite (setNumberVector_known item c device prop Hdev Hprop).
      apply set_vector_write.
    + unfold setNumberVector. by rewrite (findDevice_Some _ _ _ Hdev), Hprop.
    + unfold setNumberVector. by rewrite (findDevice_None _ _ Hdev).
  - destruct (INDIClient.devices c !! setLightVector.Device item)
      as [device|] eqn:Hdev;
      [destruct (Device.LightProperties device !! setLightVector.Name item)
         as [prop|] eqn:Hprop|].
    + rewrite (setLightVector_known item c device prop Hdev Hprop).
      apply set_vector_write.
    + unfold setLightVector. by rewrite (findDevice_Some _ _ _ Hdev), Hprop.
    + unfold setLightVector. by rewrite (findDevice_None _ _ Hdev).
  - destruct (INDIClient.devices c !! setBlobVector.Device item)
      as [device|] eqn:Hdev;
      [destruct (Device.BlobProperties device !! setBlobVector.Name item)
         as [prop|] eqn:Hprop|].
    + rewrite (setBlobVector_known item c device prop Hdev Hprop).
      cbn [INDIClient.write INDIClient.set_devices].
      destruct (updateTime_spec (setBlobVector.Timestamp item) c)
        as (_ & _ & _ & Hwrite1 & _).
      destruct (setBlobs_frame item (setBlobVector.Blobs item)
                  (BlobProperty.Values prop)
                  (updateTime (setBlobVector.Timestamp item) c).2)
        as ((_ & Hwrite2 & _) & _).
      destruct (appendMessage_spec (setBlobVector.Message item)
                  (BlobProperty.Messages prop)
                  (foldl (setBlob item)
                     (BlobProperty.Values prop,
                      (updateTime (setBlobVector.Timestamp item) c).2)
                     (setBlobVector.Blobs item)).2)
        as (_ & _ & _ & _ & Hwrite3 & _).
      by rewrite Hwrite3, Hwrite2.
    + unfold setBlobVector. by rewrite (findDevice_Some _ _ _ Hdev), Hprop.
    + unfold setBlobVector. by rewrite (findDevice_None _ _ Hdev).
  - unfold message. by destruct (findDevice _ c) as [device [e|]].
  - destruct (decide (delProperty.Device item = "")) as [Hdevice|Hdevice];
      [|destruct (decide (delProperty.Name item = "")) as [Hprop|Hprop]].
    + by rewrite delProperty_all.
    + by rewrite delProperty_device.
    + rewrite delProperty_property by done. done.
Qed.

Lemma send_queued (cmd : Command) (c0 c : INDIClient.t) :
  INDIClient.write c = INDIClient.write c0 → queued c0 (leaves (send cmd c)).
Proof.
  intros Hw. unfold send.
  destruct (INDIClient.write c) as [|queue|] eqn:Hc; simpl;
    [left; congruence| |left; congruence].
  right. exists queue, cmd. by rewrite <-Hw.
Qed.

Lemma call_queued (k : Call) (c : INDIClient.t) : queued c (call k c).
Proof.
  destruct k as [dn pn|dn pn val|dn pn vn v|dn pn vn v|dn pn vn v
                |dn pn vn v format size|dn pn vn guid|dn pn vn id];
    cbn [call].
  - unfold GetProperties. case_bool_decide; [by left|]. by apply send_queued.
  - unfold EnableBlob. case_bool_decide; [by left|].
    destruct (findDevice dn c) as [device [e|]]; [by left|].
    by apply send_queued.
  - unfold SetTextValue. destruct (findDevice dn c) as [device [e|]];
      [by left|].
    destruct (Device.TextProperties device !! pn) as [prop|]; [|by left].
    case_decide; [by left|].
    destruct (TextProperty.Values prop !! vn); [|by left].
    by apply send_queued.
  - unfold SetNumberValue. destruct (findDevice dn c) as [device [e|]];
      [by left|].
    destruct (Device.NumberProperties device !! pn) as [prop|]; [|by left].
    case_decide; [by left|].
    destruct (NumberProperty.Values prop !! vn); [|by left].
    by apply send_queued.
  - unfold SetSwitchValue. destruct (findDevice dn c) as [device [e|]];
      [by left|].
    destruct (Device.SwitchProperties device !! pn) as [prop|]; [|by left].
    case_decide; [by left|].
    destruct (SwitchProperty.Values prop !! vn); [|by left].
    by apply send_queued.
  - unfold SetBlobValue. destruct (findDevice dn c) as [device [e|]];
      [by left|].
    destruct (Device.BlobProperties device !! pn) as [prop|]; [|by left].
    case_decide; [by left|].
    destruct (BlobProperty.Values prop !! vn); [|by left].
    by apply send_queued.
  - left. unfold GetBlobStream.
    destruct (findDevice dn c) as [device [e|]]; [done|].
    destruct (Device.BlobProperties device !! pn) as [prop|]; [|done].
    by destruct (BlobProperty.Values prop !! vn).
  - left. unfold CloseBlobStream.
    destruct (findDevice dn c) as [device [e|]]; [done|].
    destruct (Device.BlobProperties device !! pn) as [prop|]; [|done].
    destruct (BlobProperty.Values prop !! vn); [|done].
    destruct (INDIClient.blobStreams c !! _) as [writers|]; [|done].
    by destruct (writers !! id).
Qed.

Lemma activity_snoc (l : list Activity) (a : Activity) (c : INDIClient.t) :
  activity (l ++ [a]) c = act (activity l c) a.
Proof. unfold activity. by rewrite foldl_app. Qed.

Lemma writerTakes_head (c : INDIClient.t) :
  match INDIClient.write c with
  | nilChan => writerTakes c = (None, c)
  | openChan queue =>
      ∃ taken pending,
        (writerTakes c).1 = taken
        ∧ INDIClient.write (writerTakes c).2 = openChan pending
        ∧ match taken with Some cmd => [cmd] | None => [] end ++ pending
          = queue
  | closedChan queue =>
      ∃ taken pending,
        (writerTakes c).1 = taken
        ∧ INDIClient.write (writerTakes c).2 = closedChan pending
        ∧ match taken with Some cmd => [cmd] | None => [] end ++ pending
          = queue
  end.
Proof.
  unfold writerTakes.
  destruct (INDIClient.write c) as [|[|cmd queue]|[|cmd queue]] eqn:Hc;
    try done.
  - by exists None, [].
  - by exists (Some cmd), queue.
  - by exists None, [].
  - by exists (Some cmd), queue.
Qed.

Lemma activity_queue (l : list Activity) (c : INDIClient.t) :
  match INDIClient.write c with
  | nilChan =>
      INDIClient.write (activity l c).1 = nilChan ∧ (activity l c).2 = []
  | openChan queue =>
      ∃ pending sent,
        INDIClient.write (activity l c).1 = openChan pending
        ∧ (activity l c).2 ++ pending = queue ++ sent
        ∧ (length sent ≤ length (filter isCalled l))%nat
  | closedChan queue =>
      ∃ pending,
        INDIClient.write (activity l c).1 = closedChan pending
        ∧ (activity l c).2 ++ pending = queue
  end.
Proof.
  induction l as [|a l IH] using rev_ind.
  { destruct (INDIClient.write c) as [|queue|queue] eqn:Hc; [done| |].
    - exists queue, []. by rewrite app_nil_r.
    - by exists queue. }
  rewrite activity_snoc, filter_app, length_app.
  destruct (activity l c) as [c1 taken]. simpl in IH.
  destruct a as [[i|k]|]; cbn [act fst snd step].
  - rewrite dispatch_write.
    destruct (INDIClient.write c) as [|queue|queue]; [done| |done].
    destruct IH as (pending & sent & Hw & Htaken & Hlen).
    exists pending, sent. split_and!; [done|done|]. simpl. lia.
  - destruct (call_queued k c1) as [Hw|(queue' & cmd & Hw0 & Hw)]; rewrite Hw.
    + destruct (INDIClient.write c) as [|queue|queue]; [done| |done].
      destruct IH as (pending & sent & Hw' & Htaken & Hlen).
      exists pending, sent. split_and!; [done|done|]. simpl. lia.
    + destruct (INDIClient.write c) as [|queue|queue].
      * destruct IH as [IH _]. congruence.
      * destruct IH as (pending & sent & Hw' & Htaken & Hlen).
        rewrite Hw0 in Hw'. injection Hw' as ->.
        exists (pending ++ [cmd]), (sent ++ [cmd]).
        split_and!; [done| |].
        -- by rewrite !app_assoc, Htaken.
        -- rewrite length_app. simpl. lia.
      * destruct IH as (pending & Hw' & _). congruence.
  - pose proof (writerTakes_head c1) as Htake.
    destruct (writerTakes c1) as [cmd c2]. simpl in Htake.
    destruct (INDIClient.write c) as [|queue|queue].
    + destruct IH as [Hw ->]. rewrite Hw in Htake.
      by injection Htake as -> ->.
    + destruct IH as (pending & sent & Hw & Htaken & Hlen).
      rewrite Hw in Htake.
      destruct Htake as (cmd' & pending' & -> & Hw2 & Hhead).
      exists pending', sent. simpl. split_and!; [done| |lia].
      by rewrite <-app_assoc, Hhead.
    + destruct IH as (pending & Hw & Htaken). rewrite Hw in Htake.
      destruct Htake as (cmd' & pending' & -> & Hw2 & Hhead).
      exists pending'. simpl. split; [done|]. by rewrite <-app_assoc, Hhead.
Qed.

End queue.

(** X10. Commands reach the writer in the order of the calls.  Between a
    [Connect] and a [Disconnect], the dispatcher handles inbound elements,
    the methods [GetProperties], [EnableBlob], [SetTextValue],
    [SetNumberValue], [SetSwitchValue], [SetBlobValue], [GetBlobStream]
    and [CloseBlobStream] are called, and the writer goroutine takes
    commands from the write channel, in any interleaving.  Then what the
    writer has taken, followed by what is still in the channel, is what
    was in the channel at the start followed by the commands that the
    calls have sent: none is lost, doubled or reordered, every call has
    sent at most one, and the inbound elements none.  On a channel that is
    nil nothing is sent or taken.  On a channel that was closed nothing is
    added, and the writer takes what was buffered. *)
Theorem commands_reach_writer_in_order {runtime : Runtime}
    (l : list Activity) (c : INDIClient.t) :
  (∀ queue, INDIClient.write c = openChan queue →
     ∃ pending sent,
       INDIClient.write (activity l c).1 = openChan pending
       ∧ (activity l c).2 ++ pending = queue ++ sent
       ∧ (length sent ≤ length (filter isCalled l))%nat)
  ∧ (INDIClient.write c = nilChan →
     INDIClient.write (activity l c).1 = nilChan ∧ (activity l c).2 = [])
  ∧ (∀ queue, INDIClient.write c = closedChan queue →
     ∃ pending,
       INDIClient.write (activity l c).1 = closedChan pending
       ∧ (activity l c).2 ++ pending = queue).
Proof.
  pose proof (activity_queue l c) as Hrun.
  destruct (INDIClient.write c) as [|queue|queue]; split_and!; try done.
  - by intros queue' [= <-].
  - by intros queue' [= <-].
Qed.

Lemma commands_reach_writer_in_order_witness :
  INDIClient.write camera = openChan []
  ∧ ∃ pending sent,
      INDIClient.write
        (activity (runtime := exampleRuntime)
           [Does (Called (CallSetSwitchValue "Camera" "Binning" "Two" "On"));
            Does (Inbound (ItemSetSwitchVector binningUpdate));
            Does (Called (CallGetProperties "Camera" ""));
            WriterTakes] camera).1
      = openChan pending
      ∧ (activity (runtime := exampleRuntime)
           [Does (Called (CallSetSwitchValue "Camera" "Binning" "Two" "On"));
            Does (Inbound (ItemSetSwitchVector binningUpdate));
            Does (Called (CallGetProperties "Camera" ""));
            WriterTakes] camera).2 ++ pending
        = [] ++ sent
      ∧ (length sent
         ≤ length
             (filter isCalled
                [Does (Called (CallSetSwitchValue "Camera" "Binning" "Two"
                                 "On"));
                 Does (Inbound (ItemSetSwitchVector binningUpdate));
                 Does (Called (CallGetProperties "Camera" ""));
                 WriterTakes]))%nat.
Proof.
  split; [reflexivity|].
  apply (commands_reach_writer_in_order (runtime := exampleRuntime)
           [Does (Called (CallSetSwitchValue "Camera" "Binning" "Two" "On"));
            Does (Inbound (ItemSetSwitchVector binningUpdate));
            Does (Called (CallGetProperties "Camera" ""));
            WriterTakes] camera).
  reflexivity.
Defined.

(** ** The life of a connection *)

Section lifecycle.
Context {runtime : Runtime}.

Lemma delProperty_clears (c : INDIClient.t) :
  delProperty (delProperty.mk "" "" "" "") c = INDIClient.set_devices ∅ c.
Proof. by apply delProperty_all. Qed.

Lemma received_write (render : Item → string) (inbox : list Item)
    (c : INDIClient.t) :
  INDIClient.write (foldl (received render) c inbox) = INDIClient.write c.
Proof.
  induction inbox as [|i inbox IH] using rev_ind; [done|].
  rewrite foldl_app. cbn [foldl]. unfold received at 1.
  by rewrite dispatch_write.
Qed.

Lemma dispatchNext_closed (render : Item → string) (n : nat) (s : Session.t)
    (inbox : list Item) :
  Session.read s = closedChan inbox →
  Nat.iter n (dispatchNext render) s
  = Session.mk (foldl (received render) (Session.client s) (take n inbox))
      (Session.conn s) (closedChan (drop n inbox)) (Session.bufferSize s).
Proof.
  intros Hread. induction n as [|n IH].
  { destruct s. simpl in *. by rewrite Hread. }
  rewrite Nat.iter_succ, IH. unfold dispatchNext.
  cbn [Session.read Session.client Session.conn Session.bufferSize].
  destruct (inbox !! n) as [i|] eqn:Hi.
  - rewrite (drop_S _ _ _ Hi), (take_S_r _ _ _ Hi), foldl_app. done.
  - apply lookup_ge_None in Hi.
    rewrite !drop_ge, !take_ge by lia. done.
Qed.

End lifecycle.

(** X11. From [Connect] to [Disconnect].  A [Connect] whose dial fails
    returns the error of the dialer and changes nothing.  When the dial
    succeeds the registry is cleared and the connection stored; with a
    buffer size that [make] refuses (negative, or beyond what the runtime
    takes) [Connect] then panics and leaves the channels as they were;
    otherwise it opens both channels empty and returns nil, and keeps the
    filesystem, the log and the stream subscribers.  After it, and after
    any activity of the dispatcher, the eight methods of the facade and
    the writer, a [Disconnect] with [inbox] still buffered in the read
    channel returns what the [Close] of the connection returns and does
    not panic; at its return the client is not connected, the registry is
    empty, and both channels are closed with what was buffered in them.
    The dispatcher still receives the buffered elements: after [n] of its
    turns it has logged and dispatched the first [n] of them into the
    registry that [Disconnect] had cleared.  At every such point the client is not
    connected, a [GetProperties] that passes its check of the names
    panics in the send on the closed channel, and another [Disconnect]
    returns nil, clears the registry again and leaves the channels as
    they are. *)
Theorem connection_lifecycle {runtime : Runtime} {platform : Platform}
    (s : Session.t) (conn : Conn.t) (l : list Activity) (inbox : list Item)
    (render : Item → string) (n : nat) :
  (∀ e, Connect (inl e) s = Connected (Some e) s)
  ∧ (makechan_panics (Session.bufferSize s) = true →
     Connect (inr conn) s
     = ConnectPanics
         (Session.mk (INDIClient.set_devices ∅ (Session.client s))
            (Some conn) (Session.read s) (Session.bufferSize s)))
  ∧ (makechan_panics (Session.bufferSize s) = false →
     ∃ s1,
       Connect (inr conn) s = Connected None s1
       ∧ IsConnected s1 = true
       ∧ INDIClient.devices (Session.client s1) = ∅
       ∧ INDIClient.write (Session.client s1) = openChan []
       ∧ Session.read s1 = openChan []
       ∧ INDIClient.blobStreams (Session.client s1)
         = INDIClient.blobStreams (Session.client s)
       ∧ INDIClient.fs (Session.client s1) = INDIClient.fs (Session.client s)
       ∧ INDIClient.log (Session.client s1)
         = INDIClient.log (Session.client s)
       ∧ ∃ s3 pending,
           Disconnect
             (Session.mk (activity l (Session.client s1)).1 (Session.conn s1)
                (openChan inbox) (Session.bufferSize s1))
           = Closed (Conn.closeErr conn) s3
           ∧ IsConnected s3 = false
           ∧ INDIClient.devices (Session.client s3) = ∅
           ∧ INDIClient.write (Session.client s3) = closedChan pending
           ∧ Session.read s3 = closedChan inbox
           ∧ let s4 := Nat.iter n (dispatchNext render) s3 in
             Session.client s4
             = foldl (received render) (Session.client s3) (take n inbox)
             ∧ Session.read s4 = closedChan (drop n inbox)
             ∧ IsConnected s4 = false
             ∧ INDIClient.write (Session.client s4) = closedChan pending
             ∧ (∀ deviceName propName,
                  ¬ (propName ≠ "" ∧ deviceName = "") →
                  GetProperties deviceName propName (Session.client s4)
                  = Panics (Session.client s4))
             ∧ Disconnect s4
               = Closed None
                   (Session.mk
                      (INDIClient.set_devices ∅ (Session.client s4))
                      None (Session.read s4) (Session.bufferSize s4))).
Proof.
  split_and!.
  - done.
  - intros Hsize. cbn [Connect]. by rewrite Hsize, delProperty_clears.
  - intros Hsize. cbn [Connect]. rewrite Hsize, delProperty_clears.
    eexists. split; [reflexivity|].
    cbn [Session.client Session.conn Session.read Session.bufferSize
         IsConnected INDIClient.devices INDIClient.write
         INDIClient.blobStreams INDIClient.fs INDIClient.log
         INDIClient.set_write INDIClient.set_devices].
    split_and!; try done.
    set (c1 := INDIClient.set_write _ _).
    pose proof (activity_queue l c1) as Hrun. simpl in Hrun.
    destruct Hrun as (pending & sent & Hwrite & _).
    unfold Disconnect.
    cbn [Session.client Session.conn Session.read Session.bufferSize].
    rewrite delProperty_clears.
    cbn [INDIClient.write INDIClient.set_devices]. rewrite Hwrite.
    eexists _, pending. split; [reflexivity|].
    cbn [Session.client Session.conn Session.read IsConnected
         INDIClient.devices INDIClient.write INDIClient.set_write
         INDIClient.set_devices].
    do 4 (split; [done|]). cbv zeta.
    rewrite (dispatchNext_closed render n _ inbox) by done.
    cbn [Session.client Session.conn Session.read Session.bufferSize
         IsConnected].
    assert (INDIClient.write
              (foldl (received render)
                 (INDIClient.set_write (closedChan pending)
                    (INDIClient.set_devices ∅ (activity l c1).1))
                 (take n inbox))
            = closedChan pending) as Hclosed
      by by rewrite received_write.
    split_and!; try done.
    + intros deviceName propName Hnames. unfold GetProperties.
      rewrite bool_decide_eq_false_2.
      * unfold send. by rewrite Hclosed.
      * intros [Hprop Hdev]. apply Hnames. split.
        -- intros ->. simpl in Hprop. lia.
        -- by apply length_zero_iff.
    + unfold Disconnect.
      cbn [Session.client Session.conn Session.read Session.bufferSize].
      by rewrite delProperty_clears.
Qed.

Lemma connection_lifecycle_witness :
  makechan_panics (platform := examplePlatform)
    (Session.bufferSize (NewSession emptyFs 8)) = false
  ∧ ∃ s1 s3,
      Connect (platform := examplePlatform) (inr (Conn.mk None))
        (NewSession emptyFs 8)
      = Connected None s1
      ∧ Disconnect
          (Session.mk
             (activity (runtime := exampleRuntime)
                [Does (Called (CallGetProperties "" "")); WriterTakes]
                (Session.client s1)).1
             (Session.conn s1) (openChan [ItemDefTextVector cameraInfo])
             (Session.bufferSize s1))
        = Closed None s3
      ∧ INDIClient.devices (Session.client s3) = ∅
      ∧ is_Some
          (INDIClient.devices
             (Session.client
                (Nat.iter 1
                   (dispatchNext (runtime := exampleRuntime) (λ _, "item"))
                   s3))
           !! "Camera")
      ∧ GetProperties "Camera" ""
          (Session.client
             (Nat.iter 1
                (dispatchNext (runtime := exampleRuntime) (λ _, "item")) s3))
        = Panics
            (Session.client
               (Nat.iter 1
                  (dispatchNext (runtime := exampleRuntime) (λ _, "item"))
                  s3)).
Proof.
  split; [reflexivity|].
  destruct (connection_lifecycle (runtime := exampleRuntime)
              (platform := examplePlatform)
              (NewSession emptyFs 8) (Conn.mk None)
              [Does (Called (CallGetProperties "" "")); WriterTakes]
              [ItemDefTextVector cameraInfo] (λ _, "item") 1)
    as (_ & _ & Hconnect).
  destruct (Hconnect eq_refl)
    as (s1 & Hs1 & _ & _ & _ & _ & _ & _ & _ & s3 & pending & Hclose & _
        & Hempty & _ & Hread & Hclient & _ & _ & _ & Hget & _).
  exists s1, s3. split_and!; [exact Hs1|exact Hclose|exact Hempty| |].
  - rewrite Hclient. cbn [take foldl]. unfold received. cbn [dispatch].
    destruct (defTextVector_devices (runtime := exampleRuntime) cameraInfo
                (gotMessage (λ _, "item") (ItemDefTextVector cameraInfo)
                   (Session.client s3))) as (t & messages & ->).
    rewrite lookup_insert_eq. by eexists.
  - apply Hget. by intros [_ ?].
Defined.

(** ** Streams and deletions *)

(** X12. Streams outlive what they stream.  A [delProperty] that removes
    every device, the device of a BLOB value or the property of the value
    leaves every subscriber registered, with its pipe as it was; after it
    [CloseBlobStream] for the value returns [ErrDeviceNotFound], or
    [ErrPropertyNotFound] when only the property was removed, and changes
    nothing, so the stream can no longer be closed through the facade. *)
Theorem streams_outlive_deletion {runtime : Runtime} (item : delProperty.t)
    (c : INDIClient.t) (deviceName propName blobName id : string) :
  delProperty.Device item = ""
  ∨ delProperty.Device item = deviceName
    ∧ (delProperty.Name item = "" ∨ delProperty.Name item = propName) →
  let c' := delProperty item c in
  (∀ key id', subscriber key id' c' = subscriber key id' c)
  ∧ CloseBlobStream deviceName propName blobName id c'
    = (Some (if decide (delProperty.Device item = ""
                        ∨ delProperty.Name item = "")
             then ErrDeviceNotFound else ErrPropertyNotFound), c').
Proof.
  intros Hitem c'. subst c'.
  destruct (decide (delProperty.Device item = "")) as [Hdevice|Hdevice];
    [|destruct (decide (delProperty.Name item = "")) as [Hprop|Hprop]].
  - rewrite delProperty_all by done. split; [done|].
    rewrite decide_True by by left. unfold CloseBlobStream.
    by rewrite findDevice_None.
  - rewrite delProperty_device by done. split; [done|].
    rewrite decide_True by by right. unfold CloseBlobStream.
    destruct Hitem as [?|[<- _]]; [done|].
    rewrite findDevice_None; [done|]. simpl. apply lookup_delete_eq.
  - rewrite delProperty_property by done. split; [done|].
    rewrite decide_False by (by intros [?|?]). unfold CloseBlobStream.
    destruct Hitem as [?|[<- [?|<-]]]; [done|done|].
    erewrite findDevice_Some; [|simpl; apply lookup_insert_eq].
    simpl. by rewrite lookup_delete_eq.
Qed.

Lemma streams_outlive_deletion_witness :
  subscriber "Camera_CCD1_CCD1" "7f3c"
    (delProperty (delProperty.mk "Camera" "" "" "") cameraAbandoned)
  = Some (PipeWriter.mk [] true)
  ∧ CloseBlobStream "Camera" "CCD1" "CCD1" "7f3c"
      (delProperty (delProperty.mk "Camera" "" "" "") cameraAbandoned)
    = (Some ErrDeviceNotFound,
       delProperty (delProperty.mk "Camera" "" "" "") cameraAbandoned).
Proof.
  destruct (streams_outlive_deletion (runtime := exampleRuntime)
              (delProperty.mk "Camera" "" "" "") cameraAbandoned
              "Camera" "CCD1" "CCD1" "7f3c") as [Hsub Hclose].
  - right. split; [reflexivity|by left].
  - split; [by rewrite Hsub|exact Hclose].
Defined.
